(** * JOTHI school bell system: the WhatsApp command front-end

    A shallow embedding of [whatsapp_integration.py] (the session store, the
    webhook verification, the message dispatcher, the session continuation
    and the slash-command handler) and of the command handler of
    [whatsapp_server.py], followed by the properties of the session engine.

    Conventions of the embedding.
    - A Python [str] is a [string]; each character stands for the code point
      of the same number (U+0000 .. U+00FF).  Whitespace and case mapping are
      those of Python on that range.
    - [None] is [None]; a value that may be [None] has an [option] type, and
      Python truthiness of such a value is [truthy].
    - A reading of [time.time()] is a rational number of seconds.
    - Calls that leave the process (sending a reply, starting a worker
      thread, media requests, writes of configuration files) are recorded,
      in order, in the list of events a handler emits.  What the network
      answers is an input of the handler. *)

From Stdlib Require Import String Ascii List ZArith QArith Bool Lia.
From stdpp Require Import base option list gmap strings.
Import ListNotations.

Local Open Scope string_scope.
Local Open Scope list_scope.

(** ** Python string operations *)

Module Py.

(** [str.isspace] on one character: TAB..CR, FS..US, space, NEL, NBSP. *)
Definition isspace (c : ascii) : bool :=
  let n := N_of_ascii c in
  (((9 <=? n) && (n <=? 13)) || ((28 <=? n) && (n <=? 32))
   || (n =? 133) || (n =? 160))%N.

(** [str.lower] on one character: A..Z and the capitals U+00C0..U+00DE
    (without the multiplication sign U+00D7) move up by 32. *)
Definition lower_char (c : ascii) : ascii :=
  let n := N_of_ascii c in
  if (((65 <=? n) && (n <=? 90))
      || ((192 <=? n) && (n <=? 222) && negb (n =? 215)))%N
  then ascii_of_N (n + 32) else c.

Fixpoint lower (s : string) : string :=
  match s with
  | EmptyString => EmptyString
  | String c s' => String (lower_char c) (lower s')
  end.

Fixpoint lstrip (s : string) : string :=
  match s with
  | EmptyString => EmptyString
  | String c s' => if isspace c then lstrip s' else s
  end.

Fixpoint rstrip (s : string) : string :=
  match s with
  | EmptyString => EmptyString
  | String c s' =>
      match rstrip s' with
      | EmptyString => if isspace c then EmptyString else String c EmptyString
      | r => String c r
      end
  end.

Definition strip (s : string) : string := rstrip (lstrip s).

(** [s.startswith(p)] *)
Definition startswith (s p : string) : bool := String.prefix p s.

(** [c in s] for a one-character string [c]. *)
Fixpoint contains (c : ascii) (s : string) : bool :=
  match s with
  | EmptyString => false
  | String d s' => Ascii.eqb d c || contains c s'
  end.

(** The first run of non-blank characters of [s] and what follows it. *)
Fixpoint break_space (s : string) : string * string :=
  match s with
  | EmptyString => (EmptyString, EmptyString)
  | String c s' =>
      if isspace c then (EmptyString, s)
      else let (tok, rest) := break_space s' in (String c tok, rest)
  end.

(** [s.split(maxsplit=n)]: at most [n] splits at runs of whitespace; what
    is left after the last split keeps its inner and trailing blanks. *)
Fixpoint split_max (maxsplit : nat) (s : string) : list string :=
  match lstrip s with
  | EmptyString => []
  | r =>
      match maxsplit with
      | O => [r]
      | S k => let (tok, rest) := break_space r in tok :: split_max k rest
      end
  end.

(** [s.split()]: the maximal runs of non-blank characters. *)
Fixpoint split (s : string) : list string :=
  match s with
  | EmptyString => []
  | String c s' =>
      let ws := split s' in
      if isspace c then ws
      else
        match s' with
        | EmptyString => [String c EmptyString]
        | String c' _ =>
            if isspace c' then String c EmptyString :: ws
            else
              match ws with
              | w :: ws' => String c w :: ws'
              | [] => [String c EmptyString]
              end
        end
  end.

(** [s.split(sep)] for a one-character separator. *)
Fixpoint split_sep (sep : ascii) (s : string) : list string :=
  match s with
  | EmptyString => [EmptyString]
  | String c s' =>
      if Ascii.eqb c sep then EmptyString :: split_sep sep s'
      else
        match split_sep sep s' with
        | w :: ws => String c w :: ws
        | [] => [String c EmptyString]
        end
  end.

(** [s.split(sep, 1)] for a one-character separator. *)
Fixpoint split_sep1 (sep : ascii) (s : string) : list string :=
  match s with
  | EmptyString => [EmptyString]
  | String c s' =>
      if Ascii.eqb c sep then [EmptyString; s']
      else
        match split_sep1 sep s' with
        | w :: ws => String c w :: ws
        | [] => [String c EmptyString]
        end
  end.

(** [sep.join(l)] *)
Definition join (sep : string) (l : list string) : string :=
  String.concat sep l.

(** [s[:n]] *)
Definition take (n : nat) (s : string) : string := String.substring 0 n s.

(** Truth value of an optional string: [None] and [""] are false. *)
Definition truthy (o : option string) : bool :=
  match o with
  | Some (String _ _) => true
  | _ => false
  end.

(** [o == s] where [o] may be [None]. *)
Definition eq_opt (o : option string) (s : string) : bool :=
  match o with
  | Some x => String.eqb x s
  | None => false
  end.

(** [sub in s] *)
Fixpoint contains_str (sub s : string) : bool :=
  String.prefix sub s ||
  match s with
  | EmptyString => false
  | String _ s' => contains_str sub s'
  end.

(** [str(o)] of an optional string. *)
Definition str (o : option string) : string := default "None" o.

(** [x in t] for a tuple of strings. *)
Definition in_tuple (x : string) (t : list string) : bool :=
  existsb (String.eqb x) t.

End Py.

(** ** Data model *)

(** A session [{"expect": ..., "data": ..., "ts": ...}]. *)
Record session := Session {
  expect : string;
  data : gmap string string;
  ts : Q;
}.

(** The mutable globals the handlers work on: [SESSIONS], and the schedule
    table [BELL_SCHEDULES] of the local definitions the module falls back to
    when [school_bell_system] cannot be imported.  The schedule table keeps
    the insertion order of a Python dict. *)
Record store := Store {
  SESSIONS : gmap string session;
  BELL_SCHEDULES : list (string * list string);
}.

(** The other names taken from [school_bell_system]; [today_cfg] is the
    third component of what [get_today_assembly_config()] returns. *)
Record bell_system := BellSystem {
  ABOUT_US_TEXT : string;
  today_cfg : gmap string string;
  NATIONAL_ANTHEM_FILE : string;
  EXTRA1_FILE : option string;
  EXTRA2_FILE : option string;
}.

(** An inbound message [msg]: the keys the handlers read. *)
Record text_part := TextPart { body : option string }.
Record audio_part := AudioPart { id : option string }.
Record message := Message {
  msg_from : option string;
  msg_type : option string;
  msg_text : option text_part;
  msg_audio : option audio_part;
}.

(** [msg.get("text", {}).get("body", "")] *)
Definition text_body (msg : message) : string :=
  match msg_text msg with
  | Some t => default "" (body t)
  | None => ""
  end.

(** [msg.get("audio", {}).get("id")] *)
Definition audio_id (msg : message) : option string :=
  match msg_audio msg with
  | Some a => id a
  | None => None
  end.

(** What a worker thread runs. *)
Inductive call :=
| speak_offline_local (text : string)
| tts_openai_online (text voice outfile : string)
| play_audio_blocking (path : string)
| ringBell (times : list string) (today_only : bool)
| ring_assembly_bell (duration : Z).

(** What a handler does to the outside, in the order it does it. *)
Inductive event :=
| Sent (to_number text : string)            (* send_whatsapp_text(to, text) *)
| Started (target : list call)              (* threading.Thread(target=...).start() *)
| MediaUrlRequested (media_id : option string)   (* requests.get(meta_url, ...) *)
| MediaDownloadRequested (url : string)          (* requests.get(url, ..., stream=True) *)
| FileWritten (path : string)                    (* the media saved under [path] *)
| WaConfigSaved (phone_id token : string)   (* save_wa_config(phone_id, token) *)
| WaConfigReloaded                          (* load_wa_config() into the globals *)
| OpenAIKeyWritten (key : string)           (* openai_key.txt written *)
| OpenAIClientInit.                         (* _init_openai_client_from_file() *)

Inductive exn := KeyError | IndexError | TypeError | ValueError.

Inductive outcome (A : Type) :=
| Returned (a : A)
| Raised (e : exn).
Arguments Returned {A} a.
Arguments Raised {A} e.

(** A response of the media endpoint: [r.status_code] and the two fields
    read from [r.json()]. *)
Record meta_response := MetaResponse {
  meta_status : Z;
  json_url : option string;
  json_mime_type : option string;
}.

(** The surroundings while one message is handled: the global
    [ACCESS_TOKEN], and what the network answers to the two media
    requests. *)
Record network := Network {
  ACCESS_TOKEN : option string;
  media_meta : option string -> meta_response;
  download_status : string -> Z;
}.

(** ** Handlers as state transformers that emit events and may raise *)

Definition M (A : Type) : Type := store -> outcome A * store * list event.

Definition ret {A} (a : A) : M A := fun st => (Returned a, st, []).

Definition raise {A} (e : exn) : M A := fun st => (Raised e, st, []).

Definition bind {A B} (m : M A) (k : A -> M B) : M B :=
  fun st =>
    match m st with
    | (Returned a, st1, ev1) =>
        match k a st1 with
        | (r, st2, ev2) => (r, st2, ev1 ++ ev2)
        end
    | (Raised e, st1, ev1) => (Raised e, st1, ev1)
    end.

Definition emit (e : event) : M unit := fun st => (Returned tt, st, [e]).

Definition read {A} (f : store -> A) : M A := fun st => (Returned (f st), st, []).

Definition write (f : store -> store) : M unit := fun st => (Returned tt, f st, []).

Declare Scope py_scope.
Delimit Scope py_scope with py.
Notation "x <- m ;; k" := (bind m (fun x => k))
  (at level 100, m at next level, right associativity) : py_scope.
Notation "m ;; k" := (bind m (fun _ => k))
  (at level 100, right associativity) : py_scope.
Local Open Scope py_scope.

(** The components of a run. *)
Definition result_of {A} (r : outcome A * store * list event) : outcome A := r.1.1.
Definition store_of {A} (r : outcome A * store * list event) : store := r.1.2.
Definition events_of {A} (r : outcome A * store * list event) : list event := r.2.

(** The threads a run started, and whether it started none. *)
Definition started (evs : list event) : list (list call) :=
  omap (fun e => match e with Started t => Some t | _ => None end) evs.

(** The replies a run sent. *)
Definition replies (evs : list event) : list (string * string) :=
  omap (fun e => match e with Sent to txt => Some (to, txt) | _ => None end) evs.

(** ** Collaborators at the boundary *)

Definition send_whatsapp_text (to_number text : string) : M unit :=
  emit (Sent to_number text).

Definition thread_start (target : list call) : M unit :=
  emit (Started target).

Definition get_media_url (net : network) (media_id : option string)
  : M (option string * option string) :=
  if negb (Py.truthy (ACCESS_TOKEN net)) then ret (None, None)
  else
    emit (MediaUrlRequested media_id) ;;
    let r := media_meta net media_id in
    if (meta_status r =? 200)%Z then ret (json_url r, json_mime_type r)
    else ret (None, None).

Definition download_media_file (net : network) (url : string)
    (media_id mime_type : option string) : M (option string) :=
  emit (MediaDownloadRequested url) ;;
  if (download_status net url =? 200)%Z then
    match mime_type with
    | None => raise TypeError        (* ["ogg" in None] *)
    | Some mime =>
        let ext :=
          if Py.contains_str "ogg" mime then ".ogg"
          else if Py.contains_str "mpeg" mime then ".mp3"
          else ".bin" in
        let out := "wa_media_" +:+ Py.str media_id +:+ ext in
        emit (FileWritten out) ;;
        ret (Some out)
    end
  else ret None.

(** ** The schedule table (local definitions of the module) *)

Fixpoint dict_get {V} (d : list (string * V)) (k : string) : option V :=
  match d with
  | [] => None
  | (k', v) :: d' => if String.eqb k' k then Some v else dict_get d' k
  end.

(** [d[k] = v]: an existing key keeps its place. *)
Fixpoint dict_set {V} (d : list (string * V)) (k : string) (v : V)
  : list (string * V) :=
  match d with
  | [] => [(k, v)]
  | (k', v') :: d' =>
      if String.eqb k' k then (k', v) :: d' else (k', v') :: dict_set d' k v
  end.

Fixpoint dict_del {V} (d : list (string * V)) (k : string) : list (string * V) :=
  match d with
  | [] => []
  | (k', v') :: d' =>
      if String.eqb k' k then d' else (k', v') :: dict_del d' k
  end.

Definition list_schedule_names : M (list string) :=
  read (fun st => map fst (BELL_SCHEDULES st)).

Definition get_schedule (name : string) : M (list string) :=
  read (fun st => default [] (dict_get (BELL_SCHEDULES st) name)).

Definition update_schedule (name : string) (times : list string) : M unit :=
  write (fun st => Store (SESSIONS st) (dict_set (BELL_SCHEDULES st) name times)).

Definition rename_schedule (o n : string) : M unit :=
  sch <- read BELL_SCHEDULES ;;
  match dict_get sch o with
  | None => raise KeyError
  | Some v =>
      write (fun st => Store (SESSIONS st) (dict_set (dict_del (BELL_SCHEDULES st) o) n v))
  end.

Definition delete_schedule (n : string) : M unit :=
  write (fun st => Store (SESSIONS st) (dict_del (BELL_SCHEDULES st) n)).

(** ** Session state per sender *)

(** [a > b] on clock readings. *)
Definition Qgtb (a b : Q) : bool := negb (Qle_bool a b).

Definition set_session (now : Q) (sender state : string)
    (data : gmap string string) : M unit :=
  write (fun st =>
    Store (<[sender := Session state data now]> (SESSIONS st)) (BELL_SCHEDULES st)).

Definition clear_session (sender : string) : M unit :=
  write (fun st => Store (delete sender (SESSIONS st)) (BELL_SCHEDULES st)).

(** [now] is the reading of [time.time()] taken when the sender has an
    entry. *)
Definition get_session (now : Q) (sender : string) : M (option session) :=
  tbl <- read SESSIONS ;;
  match tbl !! sender with
  | None => ret None
  | Some s =>
      if Qgtb (now - ts s) 300 then clear_session sender ;; ret None
      else ret (Some s)
  end.

(** ** Webhook verification *)

(** [verify()]: the three query arguments may be absent; the result is the
    body and the status. *)
Definition verify (VERIFY_TOKEN : string) (mode token chal : option string)
  : option string * Z :=
  if Py.eq_opt mode "subscribe" && Py.eq_opt token VERIFY_TOKEN
  then (chal, 200%Z)
  else (Some "Forbidden", 403%Z).

Definition normalize_number (n : option string) : option string :=
  match n with
  | None => None
  | Some s =>
      if negb (Py.truthy n) then n
      else if Py.startswith s "+" then n
      else Some ("+" +:+ s)
  end.

(** ** Reply texts *)

Definition nl : string := String (ascii_of_nat 10) EmptyString.

Definition lines (l : list string) : string := Py.join nl l.

Definition help_teacher : string :=
  lines ["JOTHI Commands (Teacher):"; "/bellmode - Bell options";
         "/assembly - Assembly playback"; "/about - About us"].

Definition help_admin : string :=
  lines ["JOTHI Commands (Admin):"; "/announcement - Make announcement";
         "/about - About us"].

Definition help_developer : string :=
  lines ["JOTHI Commands (Developer):"; "/bellmode"; "/assembly";
         "/announcement"; "/settings"; "/about"].

Definition bellmode_usage : string :=
  lines ["Bell commands:"; "/bellmode today - set today's times";
         "/bellmode use <name> - use saved schedule"].

Definition bell_today_prompt : string :=
  "Send times for TODAY as comma separated HH:MM values. Example: 09:00,10:30,12:00".

Definition assembly_usage : string :=
  lines ["Assembly commands: /assembly <n>";
         "1=Prayer,2=Birthday,3=Anthem,4=Extra1,5=Extra2,6=Bell(5s),11=Prayer+Birthday"].

Definition voice_model_prompt : string :=
  lines ["Choose voice model for announcement:"; "1. Alloy (online)";
         "2. Nova (online)"; "3. Onyx (online)"; "4. Offline local";
         "Send 1/2/3/4 now."].

Definition voice_note_prompt : string :=
  "Please send the voice note now (record & send voice message in WhatsApp).".

Definition announce_usage : string :=
  lines ["Announcement usage:"; "/announce text <message>"; "/announce voice"].

Definition settings_usage : string :=
  lines ["Settings:"; "/settings setwa <PHONE_ID>|<ACCESS_TOKEN>";
         "/settings setopenai <OPENAI_KEY>"].

(** ** Small Python idioms *)

(** [l[i]] *)
Definition item (l : list string) (i : nat) : M string :=
  match l !! i with
  | Some x => ret x
  | None => raise IndexError
  end.

(** [a, b = l] *)
Definition unpack2 (l : list string) : M (string * string) :=
  match l with
  | [a; b] => ret (a, b)
  | _ => raise ValueError
  end.

(** [d[k]] on a dict of strings *)
Definition getitem (d : gmap string string) (k : string) : M string :=
  match d !! k with
  | Some v => ret v
  | None => raise KeyError
  end.

(** ** Core message processing and command handler *)

Section Handlers.

(** [AUTH_USERS] is loaded at start and changed only from the shell menu;
    [sys] are the names of the bell system; [net] is the access token and
    what the network answers while the message is handled. *)
Variable AUTH_USERS : gmap string string.
Variable sys : bell_system.
Variable net : network.

Definition is_authorized (number : string) : bool :=
  bool_decide (is_Some (AUTH_USERS !! number)).

Definition get_role (number : string) : string :=
  default "teacher" (AUTH_USERS !! number).

Definition model_map : list (string * string) :=
  [("1", "alloy"); ("2", "nova"); ("3", "onyx"); ("4", "offline")].

(** The closure [run_announce] of the session handler. *)
Definition run_announce (model announce_text : string) : list call :=
  if String.eqb model "offline" then [speak_offline_local announce_text]
  else [tts_openai_online announce_text model ("announce_" +:+ model +:+ ".mp3")].

Definition handle_session_message (sender : string) (session : session)
    (msg : message) : M unit :=
  let expect := session.(expect) in
  let data := session.(data) in
  if String.eqb expect "announce_model" then
    if negb (Py.eq_opt (msg_type msg) "text") then
      send_whatsapp_text sender "Please send model number 1/2/3/4 as text."
    else
      let choice := Py.strip (text_body msg) in
      if negb (Py.in_tuple choice ["1"; "2"; "3"; "4"]) then
        send_whatsapp_text sender "Invalid choice. Send 1,2,3 or 4."
      else
        match dict_get model_map choice with
        | None => raise KeyError
        | Some model =>
            let announce_text := default "" (data !! "announce_text") in
            thread_start (run_announce model announce_text) ;;
            send_whatsapp_text sender ("Announcement played using model " +:+ choice) ;;
            clear_session sender
        end
  else if String.eqb expect "announce_wait_voice" then
    if negb (Py.eq_opt (msg_type msg) "audio") then
      send_whatsapp_text sender "Please send a voice note (audio message)."
    else
      let media_id := audio_id msg in
      um <- get_media_url net media_id ;;
      match um with
      | (Some (String c u), mime) =>
          let url := String c u in
          path <- download_media_file net url media_id mime ;;
          if negb (Py.truthy path) then
            send_whatsapp_text sender "Failed to download voice." ;;
            clear_session sender
          else
            thread_start [play_audio_blocking (default "" path)] ;;
            send_whatsapp_text sender "Voice announcement received and played." ;;
            clear_session sender
      | _ =>
          send_whatsapp_text sender "Failed to get media URL." ;;
          clear_session sender
      end
  else
    (* other session types can be added *)
    send_whatsapp_text sender "Session expired or unknown." ;;
    clear_session sender.

(** The block under [lower.startswith("/bellmode")]. *)
Definition bellmode_command (now : Q) (sender lower role : string) : M unit :=
  if negb (Py.in_tuple role ["teacher"; "developer"]) then
    send_whatsapp_text sender "Not allowed."
  else
    let parts := Py.split_max 2 lower in
    if (length parts =? 1)%nat then
      send_whatsapp_text sender bellmode_usage
    else
      p1 <- item parts 1 ;;
      if String.eqb p1 "today" then
        send_whatsapp_text sender bell_today_prompt ;;
        set_session now sender "bell_today_input" ∅
      else if String.eqb p1 "use" && (3 <=? length parts)%nat then
        p2 <- item parts 2 ;;
        let name := Py.strip p2 in
        sched <- get_schedule name ;;
        match sched with
        | [] => send_whatsapp_text sender ("Schedule '" +:+ name +:+ "' not found.")
        | _ =>
            thread_start [ringBell sched false] ;;
            send_whatsapp_text sender ("Started schedule '" +:+ name +:+ "'")
        end
      else
        send_whatsapp_text sender "Unknown bellmode command.".

(** The closure [both] of the assembly block; it reads the two entries of
    [cfg] on the worker, one after the other. *)
Definition both (cfg : gmap string string) : list call :=
  match cfg !! "prayer" with
  | None => []
  | Some p =>
      play_audio_blocking p ::
      match cfg !! "birthday" with
      | None => []
      | Some b => [play_audio_blocking b]
      end
  end.

(** The block under [lower.startswith("/assembly")]. *)
Definition assembly_command (sender lower role : string) : M unit :=
  if negb (Py.in_tuple role ["teacher"; "developer"]) then
    send_whatsapp_text sender "Not allowed."
  else
    let parts := Py.split lower in
    if (length parts =? 1)%nat then
      send_whatsapp_text sender assembly_usage
    else
      cmd <- item parts 1 ;;
      let cfg := today_cfg sys in
      if String.eqb cmd "1" then
        f <- getitem cfg "prayer" ;;
        thread_start [play_audio_blocking f] ;;
        send_whatsapp_text sender "Playing prayer."
      else if String.eqb cmd "2" then
        f <- getitem cfg "birthday" ;;
        thread_start [play_audio_blocking f] ;;
        send_whatsapp_text sender "Playing birthday song."
      else if String.eqb cmd "3" then
        thread_start [play_audio_blocking (NATIONAL_ANTHEM_FILE sys)] ;;
        send_whatsapp_text sender "Playing national anthem."
      else if String.eqb cmd "4" then
        if Py.truthy (EXTRA1_FILE sys) then
          thread_start [play_audio_blocking (default "" (EXTRA1_FILE sys))] ;;
          send_whatsapp_text sender "Playing Extra 1."
        else
          send_whatsapp_text sender "Extra 1 not set."
      else if String.eqb cmd "5" then
        if Py.truthy (EXTRA2_FILE sys) then
          thread_start [play_audio_blocking (default "" (EXTRA2_FILE sys))] ;;
          send_whatsapp_text sender "Playing Extra 2."
        else
          send_whatsapp_text sender "Extra 2 not set."
      else if String.eqb cmd "6" then
        thread_start [ring_assembly_bell 5] ;;
        send_whatsapp_text sender "Rung assembly bell for 5 seconds."
      else if String.eqb cmd "11" then
        thread_start (both cfg) ;;
        send_whatsapp_text sender "Played prayer + birthday."
      else
        send_whatsapp_text sender "Unknown assembly option.".

(** The block under [lower.startswith("/announcement") or
    lower.startswith("/announce")]. *)
Definition announce_command (now : Q) (sender lower role : string) : M unit :=
  if negb (Py.in_tuple role ["admin"; "developer"]) then
    send_whatsapp_text sender "Not allowed."
  else
    let parts := Py.split_max 2 lower in
    if (2 <=? length parts)%nat && Py.eq_opt (parts !! 1%nat) "text" then
      let msg := if (3 <=? length parts)%nat then default "" (parts !! 2%nat) else "" in
      if negb (Py.truthy (Some msg)) then
        send_whatsapp_text sender "Usage: /announce text <your message>"
      else
        set_session now sender "announce_model" {[ "announce_text" := msg ]} ;;
        send_whatsapp_text sender voice_model_prompt
    else if (2 <=? length parts)%nat && Py.eq_opt (parts !! 1%nat) "voice" then
      set_session now sender "announce_wait_voice" ∅ ;;
      send_whatsapp_text sender voice_note_prompt
    else
      send_whatsapp_text sender announce_usage.

(** The block under [lower.startswith("/settings")]. *)
Definition settings_command (sender lower role : string) : M unit :=
  if negb (String.eqb role "developer") then
    send_whatsapp_text sender "Not allowed."
  else
    let parts := Py.split_max 2 lower in
    if (length parts =? 1)%nat then
      send_whatsapp_text sender settings_usage
    else
      sub <- item parts 1 ;;
      if String.eqb sub "setwa" && (3 <=? length parts)%nat then
        p2 <- item parts 2 ;;
        if negb (Py.contains "|" p2) then
          send_whatsapp_text sender "Use: /settings setwa PHONE_ID|ACCESS_TOKEN"
        else
          pt <- unpack2 (Py.split_sep1 "|" p2) ;;
          emit (WaConfigSaved (Py.strip pt.1) (Py.strip pt.2)) ;;
          emit WaConfigReloaded ;;
          send_whatsapp_text sender "WhatsApp config saved."
      else if String.eqb sub "setopenai" && (3 <=? length parts)%nat then
        p2 <- item parts 2 ;;
        let key := Py.strip p2 in
        emit (OpenAIKeyWritten key) ;;
        emit OpenAIClientInit ;;
        send_whatsapp_text sender "OpenAI key saved & loaded."
      else
        send_whatsapp_text sender "Unknown settings command.".

(** [[t.strip() for t in times.split(",") if t.strip()]] *)
Definition parse_times (times : string) : list string :=
  map Py.strip
    (filter (fun t => Py.truthy (Some (Py.strip t)) = true) (Py.split_sep "," times)).

(** The block under [lower.startswith("/schedule") and role == "developer"]. *)
Definition schedule_command (sender lower : string) : M unit :=
  let parts := Py.split_max 2 lower in
  let cmd := if (2 <=? length parts)%nat then default "" (parts !! 1%nat) else "" in
  if String.eqb cmd "list" then
    names <- list_schedule_names ;;
    send_whatsapp_text sender
      ("Saved schedules: " +:+
       match names with [] => "(none)" | _ => Py.join ", " names end)
  else if String.eqb cmd "create" && (3 <=? length parts)%nat then
    p2 <- item parts 2 ;;
    if negb (Py.contains "|" p2) then
      send_whatsapp_text sender "Use: /schedule create NAME|HH:MM,HH:MM"
    else
      nt <- unpack2 (Py.split_sep1 "|" p2) ;;
      let name := nt.1 in
      let times := parse_times nt.2 in
      update_schedule (Py.strip name) times ;;
      send_whatsapp_text sender ("Schedule '" +:+ Py.strip name +:+ "' created.")
  else if String.eqb cmd "delete" && (3 <=? length parts)%nat then
    p2 <- item parts 2 ;;
    let name := Py.strip p2 in
    delete_schedule name ;;
    send_whatsapp_text sender ("Deleted schedule '" +:+ name +:+ "'.")
  else if String.eqb cmd "rename" && (3 <=? length parts)%nat then
    p2 <- item parts 2 ;;
    if negb (Py.contains "|" p2) then
      send_whatsapp_text sender "Use: /schedule rename OLD|NEW"
    else
      on <- unpack2 (Py.split_sep1 "|" p2) ;;
      rename_schedule (Py.strip on.1) (Py.strip on.2) ;;
      send_whatsapp_text sender
        ("Renamed '" +:+ Py.strip on.1 +:+ "' -> '" +:+ Py.strip on.2 +:+ "'")
  else
    send_whatsapp_text sender "Schedule commands for developer: list/create/rename/delete".

(** [now] is the reading of [time.time()] in [set_session], for the
    commands that open a session. *)
Definition handle_slash_command (now : Q) (sender body : string) : M unit :=
  let lower := Py.strip body in
  let role := get_role sender in
  (* what follows the [/help] block, which is left without a reply when the
     role is none of the three *)
  let after_help : M unit :=
    if Py.startswith lower "/about" then
      send_whatsapp_text sender (Py.take 1500 (ABOUT_US_TEXT sys))
    else if Py.startswith lower "/bellmode" then
      bellmode_command now sender lower role
    else if Py.startswith lower "/assembly" then
      assembly_command sender lower role
    else if Py.startswith lower "/announcement" || Py.startswith lower "/announce" then
      announce_command now sender lower role
    else if Py.startswith lower "/settings" then
      settings_command sender lower role
    else if Py.startswith lower "/schedule" && String.eqb role "developer" then
      schedule_command sender lower
    else
      send_whatsapp_text sender "Unknown command. Type /help"
  in
  if String.eqb lower "/help" then
    if String.eqb role "teacher" then send_whatsapp_text sender help_teacher
    else if String.eqb role "admin" then send_whatsapp_text sender help_admin
    else if String.eqb role "developer" then send_whatsapp_text sender help_developer
    else after_help
  else after_help.

(** [t_get] is the reading of [time.time()] in [get_session] and [t_set]
    the one in [set_session]; each is taken at most once per message. *)
Definition process_incoming_message (t_get t_set : Q) (msg : message) : M unit :=
  match normalize_number (msg_from msg) with
  | Some (String c f) =>
      let sender := String c f in
      session <- get_session t_get sender ;;
      match session with
      | Some session => handle_session_message sender session msg
      | None =>
          if Py.eq_opt (msg_type msg) "text" then
            let body := Py.strip (text_body msg) in
            if negb (Py.startswith body "/") then
              send_whatsapp_text sender
                "Welcome to JOTHI WhatsApp bot. Type /help to see commands."
            else
              handle_slash_command t_set sender body
          else if Py.eq_opt (msg_type msg) "audio" then
            send_whatsapp_text sender
              "To use a voice note for announcement, please send /announce voice first."
          else
            send_whatsapp_text sender "Message type not supported. Use /help"
      end
  | _ => ret tt
  end.

End Handlers.

(** ** The command handler of [whatsapp_server.py] *)

Module Server.

Definition help_text : string :=
  lines ["JOTHI Bot commands:"; "/help - show this message";
         "/announce <text> - announce (via offline voice)";
         "/schedule list - list saved schedules"; "/about - about JOTHI"].

(** [verify_webhook()] *)
Definition verify_webhook (VERIFY_TOKEN : string) (mode token challenge : option string)
  : option string * Z :=
  if Py.eq_opt mode "subscribe" && Py.eq_opt token VERIFY_TOKEN
  then (challenge, 200%Z)
  else (Some "Forbidden", 403%Z).

(** [handle_command(text, sender)]: the lines it prints and the reply it
    returns. *)
Definition handle_command (text sender : string) : list string * string :=
  let lower := Py.strip (Py.lower text) in
  if Py.in_tuple lower ["/help"; "help"] then ([], help_text)
  else if Py.startswith lower "/announce " then
    let msg := Py.strip (String.substring 10 (String.length text - 10) text) in
    (["[announce] from " +:+ sender +:+ "  ->  " +:+ msg], "Announcement played.")
  else if Py.startswith lower "/schedule" then
    let cmd := Py.split lower in
    if (2 <=? length cmd)%nat && Py.eq_opt (cmd !! 1%nat) "list"
    then ([], "Saved schedules: Regular Day")
    else ([], "Unknown schedule command.")
  else if String.eqb lower "/about" || String.eqb lower "about" then
    ([], "JOTHI Bot - School Bell System")
  else ([], "Unknown command. Type /help for commands.").

End Server.

(** ** Vocabulary of the properties *)

(** An input that the voice-model continuation refuses: anything but a text
    message, or a text that, without its surrounding blanks, is none of the
    four choices. *)
Definition malformed_choice (msg : message) : Prop :=
  msg_type msg <> Some "text"
  \/ Py.in_tuple (Py.strip (text_body msg)) ["1"; "2"; "3"; "4"] = false.

(** The re-prompt for such an input. *)
Definition reprompt (msg : message) : string :=
  if Py.eq_opt (msg_type msg) "text" then "Invalid choice. Send 1,2,3 or 4."
  else "Please send model number 1/2/3/4 as text.".

(** A text message from [sender] with body [b]. *)
Definition text_message (sender b : string) : message :=
  Message (Some sender) (Some "text") (Some (TextPart (Some b))) None.

(** An audio message from [sender] with media id [mid]. *)
Definition audio_message (sender mid : string) : message :=
  Message (Some sender) (Some "audio") None (Some (AudioPart (Some mid))).

(** ** Text files: credentials and authorized numbers *)

Module PyText.

(** The characters at which [str.splitlines] ends a line: LF, VT, FF, CR,
    FS, GS, RS and NEL. *)
Definition is_linebreak (c : ascii) : bool :=
  let n := N_of_ascii c in
  (((10 <=? n) && (n <=? 13)) || ((28 <=? n) && (n <=? 30)) || (n =? 133))%N.

(** [s.splitlines()]: CR LF ends one line; a text that ends with a line
    break has no empty last line. *)
Fixpoint splitlines (s : string) : list string :=
  match s with
  | EmptyString => []
  | String c s' =>
      if is_linebreak c then
        match s' with
        | String d s'' =>
            if ((N_of_ascii c =? 13) && (N_of_ascii d =? 10))%N
            then EmptyString :: splitlines s''
            else EmptyString :: splitlines s'
        | EmptyString => [EmptyString]
        end
      else
        match splitlines s' with
        | [] => [String c EmptyString]
        | l :: ls => String c l :: ls
        end
  end.

(** No character of [s] ends a line. *)
Fixpoint one_line (s : string) : bool :=
  match s with
  | EmptyString => true
  | String c s' => negb (is_linebreak c) && one_line s'
  end.

(** [s.lstrip(c)] for a one-character string [c]. *)
Fixpoint lstrip_char (c : ascii) (s : string) : string :=
  match s with
  | EmptyString => EmptyString
  | String d s' => if Ascii.eqb d c then lstrip_char c s' else s
  end.

End PyText.

(** [save_wa_config(phone_id, access_token)]: the text written to
    [wa_config.txt]. *)
Definition save_wa_config (phone_id access_token : string) : string :=
  "PHONE_NUMBER_ID=" +:+ phone_id +:+ nl +:+ "ACCESS_TOKEN=" +:+ access_token +:+ nl.

(** One turn of the loop of [load_wa_config].  The unpacking of
    [line.split("=", 1)] always finds two parts, since the line holds the
    sign. *)
Definition load_wa_line (cfg : list (string * option string)) (line : string)
  : list (string * option string) :=
  if Py.contains "=" line then
    match Py.split_sep1 "=" line with
    | [k; v] => dict_set cfg (Py.strip k) (Some (Py.strip v))
    | _ => cfg
    end
  else cfg.

(** [load_wa_config()]: [file] is the text of [wa_config.txt], [None] when
    the file does not exist. *)
Definition load_wa_config (file : option string) : list (string * option string) :=
  let cfg := [("PHONE_NUMBER_ID", None); ("ACCESS_TOKEN", None)] in
  match file with
  | None => cfg
  | Some text => fold_left load_wa_line (PyText.splitlines text) cfg
  end.

(** One turn of the loop of [load_authorized_numbers]. *)
Definition load_authorized_line (d : list (string * string)) (line : string)
  : list (string * string) :=
  let s := Py.strip line in
  match s with
  | EmptyString => d
  | _ =>
      if Py.contains ":" s then
        match Py.split_sep1 ":" s with
        | [num; role] => dict_set d (Py.strip num) (Py.strip role)
        | _ => d
        end
      else dict_set d s "teacher"
  end.

(** [load_authorized_numbers()]: [file] is the text of
    [authorized_numbers.txt], [None] when the file does not exist. *)
Definition load_authorized_numbers (file : option string) : list (string * string) :=
  match file with
  | None => []
  | Some text => fold_left load_authorized_line (PyText.splitlines text) []
  end.

(** [save_authorized_numbers(d)]: the text written to
    [authorized_numbers.txt]. *)
Definition save_authorized_numbers (d : list (string * string)) : string :=
  Py.join nl (map (fun e => e.1 +:+ ":" +:+ e.2) d).

(** An entry that the file of authorized numbers can hold: number and role
    on one line, without blanks at their ends, and no colon in the number. *)
Definition storable (e : string * string) : Prop :=
  Py.strip e.1 = e.1 /\ Py.strip e.2 = e.2 /\ Py.contains ":" e.1 = false
  /\ PyText.one_line e.1 = true /\ PyText.one_line e.2 = true.

(** ** The request that sends a reply *)

(** What [send_whatsapp_text] posts. *)
Record text_request := TextRequest {
  request_url : string;
  request_authorization : string;
  request_to : string;
  request_text : string;
}.

(** The body of [send_whatsapp_text] up to the post: no request when the
    phone number id or the access token is missing. *)
Definition send_request (PHONE_NUMBER_ID ACCESS_TOKEN : option string)
    (to_number text : string) : option text_request :=
  if negb (Py.truthy PHONE_NUMBER_ID) || negb (Py.truthy ACCESS_TOKEN) then None
  else
    Some (TextRequest
            ("https://graph.facebook.com/v20.0/" +:+ Py.str PHONE_NUMBER_ID +:+ "/messages")
            ("Bearer " +:+ Py.str ACCESS_TOKEN)
            (PyText.lstrip_char "+" to_number)
            text).

(** ** The message handler of [whatsapp_server.py] *)

Module ServerMessages.

Section Server.

Variable AUTHORIZED_USERS : gmap string string.
Variable net : network.

Definition is_authorized (number : string) : bool :=
  bool_decide (is_Some (AUTHORIZED_USERS !! number)).

Definition get_role (number : string) : option string := AUTHORIZED_USERS !! number.

(** The token is missing, or still the placeholder. *)
Definition no_token : bool :=
  negb (Py.truthy (ACCESS_TOKEN net))
  || Py.contains_str "YOUR_WHATSAPP_TOKEN" (Py.str (ACCESS_TOKEN net)).

(** [get_media_url(media_id)]: the pair it returns and the requests it
    makes. *)
Definition get_media_url (media_id : string)
  : (option string * option string) * list event :=
  if no_token then ((None, None), [])
  else
    let r := media_meta net (Some media_id) in
    if (meta_status r =? 200)%Z
    then ((json_url r, json_mime_type r), [MediaUrlRequested (Some media_id)])
    else ((None, None), [MediaUrlRequested (Some media_id)]).

(** [download_media_file(url, media_id, mime_type)]: errors inside the
    [try] block, such as a missing MIME type, end in [None]. *)
Definition download_media_file (url media_id : string) (mime_type : option string)
  : option string * list event :=
  if no_token then (None, [])
  else if (download_status net url =? 200)%Z then
    match mime_type with
    | None => (None, [MediaDownloadRequested url])
    | Some mime =>
        let ext :=
          if Py.contains_str "ogg" mime then ".ogg"
          else if Py.contains_str "mpeg" mime then ".mp3"
          else ".bin" in
        let out := "media_" +:+ media_id +:+ ext in
        (Some out, [MediaDownloadRequested url; FileWritten out])
    end
  else (None, [MediaDownloadRequested url]).

(** [process_whatsapp_message(msg, value)]: what it does to the outside. *)
Definition process_whatsapp_message (msg : message) : list event :=
  match msg_from msg with
  | Some (String c f) =>
      let sender := String c f in
      let wa_number := if Py.startswith sender "+" then sender else "+" +:+ sender in
      if negb (is_authorized wa_number) then
        [Sent wa_number "You are not authorized to use this bot."]
      else if Py.eq_opt (msg_type msg) "text" then
        let text := text_body msg in
        let reply := (Server.handle_command (Py.strip text) wa_number).2 in
        if Py.truthy (Some reply) then [Sent wa_number reply] else []
      else if Py.eq_opt (msg_type msg) "audio" then
        match audio_id msg with
        | Some (String c' m) =>
            let media_id := String c' m in
            let '((media_url, mime_type), ev1) := get_media_url media_id in
            match media_url with
            | Some (String c'' u) =>
                let '(path, ev2) := download_media_file (String c'' u) media_id mime_type in
                ev1 ++ ev2 ++ [Sent wa_number "Voice received and saved."]
            | _ => ev1 ++ [Sent wa_number "Failed to download audio."]
            end
        | _ => [Sent wa_number "No media id found in audio."]
        end
      else [Sent wa_number "Message type not supported yet."]
  | _ => []
  end.

End Server.

End ServerMessages.

(** ** Frames: what a handler may do to the store and to the outside *)

(** [keeps R m]: in every run of [m], the store before, the store after and
    the events emitted are related by [R]. *)
Definition keeps {A} (R : store -> store -> list event -> Prop) (m : M A) : Prop :=
  forall st, R st (store_of (m st)) (events_of (m st)).

(** The three states a session is opened with. *)
Definition session_states : list string :=
  ["bell_today_input"; "announce_model"; "announce_wait_voice"].

(** [R] admits the steps a handler takes for [sender]: doing nothing, one
    step after another, a reply to [sender], an event that is not a reply,
    opening or removing the session of [sender], and, for a developer only,
    a new schedule table. *)
Record frame (AUTH : gmap string string) (sender : string)
    (R : store -> store -> list event -> Prop) : Prop := Frame {
  frame_refl : forall st, R st st [];
  frame_trans : forall st1 st2 st3 ev1 ev2,
    R st1 st2 ev1 -> R st2 st3 ev2 -> R st1 st3 (ev1 ++ ev2);
  frame_sent : forall st text, R st st [Sent sender text];
  frame_quiet : forall st e,
    (forall to text, e <> Sent to text) -> R st st [e];
  frame_set : forall st now state d,
    In state session_states ->
    R st (Store (<[sender := Session state d now]> (SESSIONS st)) (BELL_SCHEDULES st)) [];
  frame_clear : forall st,
    R st (Store (delete sender (SESSIONS st)) (BELL_SCHEDULES st)) [];
  frame_sched : get_role AUTH sender = "developer" ->
    forall st sch, R st (Store (SESSIONS st) sch) [];
}.

(** [sends n m]: a run of [m] that returns has sent exactly [n] replies, and
    a run that raises has sent at most [n]. *)
Definition sends {A} (n : nat) (m : M A) : Prop :=
  forall st,
    match result_of (m st) with
    | Returned _ => length (replies (events_of (m st))) = n
    | Raised _ => length (replies (events_of (m st))) <= n
    end.

(** [threadless m]: no run of [m] starts a worker thread. *)
Definition threadless {A} (m : M A) : Prop :=
  forall st, started (events_of (m st)) = [].

(** * Properties *)

(** ** The embedding on sample inputs *)

Example split_max_keeps_remainder :
  Py.split_max 2 "/announce text Good  morning " = ["/announce"; "text"; "Good  morning "].
Proof. reflexivity. Qed.

Example split_max_short : Py.split_max 2 "/bellmode   use" = ["/bellmode"; "use"].
Proof. reflexivity. Qed.

Example split_runs : Py.split " /assembly  11 x " = ["/assembly"; "11"; "x"].
Proof. reflexivity. Qed.

Example split_sep_keeps_empty :
  Py.split_sep "," "09:00,,10:15," = ["09:00"; ""; "10:15"; ""].
Proof. reflexivity. Qed.

Example split_sep1_once : Py.split_sep1 "|" "a|b|c" = ["a"; "b|c"].
Proof. reflexivity. Qed.

Example strip_both_ends : Py.strip "  a b  " = "a b".
Proof. reflexivity. Qed.

Example lower_ascii : Py.lower "/HeLp Me" = "/help me".
Proof. reflexivity. Qed.

Example normalize_adds_plus :
  normalize_number (Some "919812345678") = Some "+919812345678"
  /\ normalize_number (Some "+919812345678") = Some "+919812345678"
  /\ normalize_number (Some "") = Some ""
  /\ normalize_number None = None.
Proof. repeat split. Qed.

(** A teacher starts a saved schedule: the ring action gets exactly its
    times. *)
Example bellmode_use_regular_day :
  process_incoming_message ∅ (BellSystem "" ∅ "" None None)
    (Network None (fun _ => MetaResponse 404 None None) (fun _ => 404%Z)) 1000 1001
    (text_message "919812345678" "/bellmode use Regular Day")
    (Store ∅ [("Regular Day", ["08:30"; "09:30"])])
  = (Returned tt, Store ∅ [("Regular Day", ["08:30"; "09:30"])],
     [Started [ringBell ["08:30"; "09:30"] false];
      Sent "+919812345678" "Started schedule 'Regular Day'"]).
Proof. vm_compute. reflexivity. Qed.

(** A developer creates a schedule and lists the names. *)
Example schedule_create_then_list :
  let AUTH : gmap string string := {[ "+911" := "developer" ]} in
  let sys := BellSystem "" ∅ "" None None in
  let net := Network None (fun _ => MetaResponse 404 None None) (fun _ => 404%Z) in
  let r1 := process_incoming_message AUTH sys net 1000 1001
              (text_message "911" "/schedule create Sports Day|09:00,10:15")
              (Store ∅ [("Regular Day", ["08:30"; "09:30"])]) in
  let r2 := process_incoming_message AUTH sys net 1002 1003
              (text_message "911" "/schedule list") (store_of r1) in
  BELL_SCHEDULES (store_of r1)
  = [("Regular Day", ["08:30"; "09:30"]); ("Sports Day", ["09:00"; "10:15"])]
  /\ events_of r1 = [Sent "+911" "Schedule 'Sports Day' created."]
  /\ events_of r2 = [Sent "+911" "Saved schedules: Regular Day, Sports Day"].
Proof. vm_compute. repeat split. Qed.

(** A teacher may not announce: the reply is the refusal and no session is
    stored. *)
Example teacher_announcement_refused :
  process_incoming_message ∅ (BellSystem "" ∅ "" None None)
    (Network None (fun _ => MetaResponse 404 None None) (fun _ => 404%Z)) 1000 1001
    (text_message "919812345678" "/announcement text X") (Store ∅ [])
  = (Returned tt, Store ∅ [], [Sent "+919812345678" "Not allowed."]).
Proof. vm_compute. reflexivity. Qed.

(** A voice note that resolves and downloads is played on a worker. *)
Example voice_note_played :
  let st := Store {[ "+911" := Session "announce_wait_voice" ∅ 1000 ]} [] in
  let net := Network (Some "tok")
               (fun _ => MetaResponse 200 (Some "https://cdn/x") (Some "audio/ogg"))
               (fun _ => 200%Z) in
  events_of (process_incoming_message ∅ (BellSystem "" ∅ "" None None) net 1100 1101
               (audio_message "911" "MEDIA1") st)
  = [MediaUrlRequested (Some "MEDIA1"); MediaDownloadRequested "https://cdn/x";
     FileWritten "wa_media_MEDIA1.ogg";
     Started [play_audio_blocking "wa_media_MEDIA1.ogg"];
     Sent "+911" "Voice announcement received and played."].
Proof. vm_compute. reflexivity. Qed.

(** ** Clock comparisons *)

Lemma Qgtb_true (a b : Q) : Qgtb a b = true <-> (b < a)%Q.
Proof.
  unfold Qgtb. rewrite negb_true_iff, <- not_true_iff_false, Qle_bool_iff.
  split; [apply Qnot_le_lt | apply Qlt_not_le].
Qed.

Lemma Qgtb_false (a b : Q) : Qgtb a b = false <-> (a <= b)%Q.
Proof. unfold Qgtb. rewrite negb_false_iff. apply Qle_bool_iff. Qed.

(** ** Running the session store *)

Lemma bind_returned {A B} (m : M A) (k : A -> M B) st a st1 ev1 :
  m st = (Returned a, st1, ev1) ->
  bind m k st = (result_of (k a st1), store_of (k a st1), ev1 ++ events_of (k a st1)).
Proof.
  intros Hm. unfold bind, result_of, store_of, events_of. rewrite Hm.
  destruct (k a st1) as [[r st2] ev2]. reflexivity.
Qed.

Lemma run_eta {A} (r : outcome A * store * list event) :
  (result_of r, store_of r, events_of r) = r.
Proof. destruct r as [[? ?] ?]. reflexivity. Qed.

Lemma get_session_absent now sender st :
  SESSIONS st !! sender = None ->
  get_session now sender st = (Returned None, st, []).
Proof. intros H. unfold get_session, bind, read, ret. simpl. rewrite H. reflexivity. Qed.

Lemma get_session_live now sender st s :
  SESSIONS st !! sender = Some s ->
  (now - ts s <= 300)%Q ->
  get_session now sender st = (Returned (Some s), st, []).
Proof.
  intros H Hlive. apply Qgtb_false in Hlive.
  unfold get_session, bind, read, ret. simpl. rewrite H, Hlive. reflexivity.
Qed.

Lemma get_session_expired now sender st s :
  SESSIONS st !! sender = Some s ->
  (300 < now - ts s)%Q ->
  get_session now sender st
  = (Returned None, Store (delete sender (SESSIONS st)) (BELL_SCHEDULES st), []).
Proof.
  intros H Hold. apply Qgtb_true in Hold.
  unfold get_session, bind, read, ret, clear_session, write. simpl.
  rewrite H, Hold. reflexivity.
Qed.

Lemma set_session_run now sender state d st :
  set_session now sender state d st
  = (Returned tt,
     Store (<[sender := Session state d now]> (SESSIONS st)) (BELL_SCHEDULES st), []).
Proof. reflexivity. Qed.

(** ** C2: the lifetime of a session *)

(** C2, as the code has it.  A session that [set_session] created for
    [sender] at clock reading [t] is returned by [get_session] at reading
    [now], with the store untouched, as long as [now - t <= 300]; once
    [now - t > 300] the read returns [None] and removes the entry.  At
    exactly 300 seconds the session is still returned. *)
Theorem C2_session_ttl (st : store) (sender state : string)
    (d : gmap string string) (t now : Q) :
  let s := Session state d t in
  let st1 := store_of (set_session t sender state d st) in
  ((now - t <= 300)%Q ->
     get_session now sender st1 = (Returned (Some s), st1, []))
  /\ ((300 < now - t)%Q ->
     get_session now sender st1
     = (Returned None, Store (delete sender (SESSIONS st1)) (BELL_SCHEDULES st1), [])
     /\ SESSIONS (store_of (get_session now sender st1)) !! sender = None)
  /\ get_session (t + 300) sender st1 = (Returned (Some s), st1, []).
Proof.
  intros s st1.
  assert (Hl : SESSIONS st1 !! sender = Some s).
  { unfold st1. rewrite set_session_run. unfold store_of. simpl. apply lookup_insert_eq. }
  split; [| split].
  - intros Hlive. apply get_session_live; assumption.
  - intros Hold. rewrite (get_session_expired now sender st1 s Hl Hold).
    split; [reflexivity |]. unfold store_of. simpl. apply lookup_delete_eq.
  - apply get_session_live; [assumption |]. simpl.
    apply Qle_lteq. right. ring.
Qed.

Lemma C2_session_ttl_witness :
  let st := Store ∅ [] in
  let st1 := store_of (set_session 1000 "+911" "announce_model" ∅ st) in
  get_session 1200 "+911" st1 = (Returned (Some (Session "announce_model" ∅ 1000)), st1, [])
  /\ SESSIONS (store_of (get_session 1301 "+911" st1)) !! "+911" = None.
Proof.
  intros st st1.
  pose proof (C2_session_ttl st "+911" "announce_model" ∅ 1000 1200) as [H1 _].
  pose proof (C2_session_ttl st "+911" "announce_model" ∅ 1000 1301) as [_ [H2 _]].
  split.
  - apply H1. vm_compute. discriminate.
  - apply H2. vm_compute. reflexivity.
Defined.

(** C2 as stated fails at the boundary: 300 seconds after its creation the
    session is still returned by the read, and it is still in the store. *)
Lemma C2_counterexample :
  ~ (forall (st : store) (sender state : string) (d : gmap string string) (t now : Q),
       (300 <= now - t)%Q ->
       result_of (get_session now sender (store_of (set_session t sender state d st)))
       = Returned None).
Proof.
  intros H.
  specialize (H (Store ∅ []) "+911" "announce_model" ∅ 0%Q 300%Q).
  assert (Hle : (300 <= 300 - 0)%Q) by (vm_compute; discriminate).
  specialize (H Hle). vm_compute in H. discriminate H.
Qed.

(** ** Comparisons with a value that may be [None] *)

Lemma eq_opt_true (o : option string) (x : string) :
  Py.eq_opt o x = true <-> o = Some x.
Proof.
  destruct o as [y|]; simpl.
  - rewrite String.eqb_eq. split; congruence.
  - split; discriminate.
Qed.

Lemma eq_opt_false (o : option string) (x : string) :
  Py.eq_opt o x = false <-> o <> Some x.
Proof.
  rewrite <- not_true_iff_false, eq_opt_true. reflexivity.
Qed.

(** ** C7: the verification handshake *)

(** C7, as the code has it.  [verify] answers with the challenge, as it
    was given, and status 200 exactly when [hub.mode] is [subscribe] and the
    token equals the configured secret; in every other case it answers
    [Forbidden] with status 403.  [verify_webhook] of the server module is
    the same function. *)
Theorem C7_verify_handshake (VERIFY_TOKEN : string) (mode token chal : option string) :
  (verify VERIFY_TOKEN mode token chal = (chal, 200%Z)
   <-> mode = Some "subscribe" /\ token = Some VERIFY_TOKEN)
  /\ (~ (mode = Some "subscribe" /\ token = Some VERIFY_TOKEN) ->
      verify VERIFY_TOKEN mode token chal = (Some "Forbidden", 403%Z))
  /\ Server.verify_webhook VERIFY_TOKEN mode token chal
     = verify VERIFY_TOKEN mode token chal.
Proof.
  unfold verify, Server.verify_webhook.
  destruct (Py.eq_opt mode "subscribe" && Py.eq_opt token VERIFY_TOKEN) eqn:E.
  - apply andb_true_iff in E as [Em Et]. apply eq_opt_true in Em, Et.
    split; [tauto |]. split; [tauto | reflexivity].
  - assert (Hn : ~ (mode = Some "subscribe" /\ token = Some VERIFY_TOKEN)).
    { intros [Hm Ht]. apply eq_opt_true in Hm, Ht. rewrite Hm, Ht in E. discriminate E. }
    split; [| split; [reflexivity | reflexivity]].
    split; [intros H; inversion H | tauto].
Qed.

Lemma C7_verify_handshake_witness :
  verify "JOTHI_VERIFY" (Some "subscribe") (Some "JOTHI_VERIFY") (Some "1158201444")
  = (Some "1158201444", 200%Z)
  /\ verify "JOTHI_VERIFY" (Some "subscribe") (Some "guess") (Some "1158201444")
     = (Some "Forbidden", 403%Z).
Proof.
  split.
  - destruct (C7_verify_handshake "JOTHI_VERIFY" (Some "subscribe")
                (Some "JOTHI_VERIFY") (Some "1158201444")) as [[_ H] _].
    apply H. split; reflexivity.
  - destruct (C7_verify_handshake "JOTHI_VERIFY" (Some "subscribe")
                (Some "guess") (Some "1158201444")) as [_ [H _]].
    apply H. intros [_ Ht]. discriminate Ht.
Defined.

(** C7 as stated fails: the right token alone is not enough.  Without
    [hub.mode=subscribe] the request is refused although the token equals
    the secret. *)
Lemma C7_counterexample :
  ~ (forall (VERIFY_TOKEN : string) (mode token chal : option string),
       verify VERIFY_TOKEN mode token chal = (chal, 200%Z)
       <-> token = Some VERIFY_TOKEN).
Proof.
  intros H.
  destruct (H "JOTHI_VERIFY" None (Some "JOTHI_VERIFY") (Some "1158201444")) as [_ H2].
  specialize (H2 eq_refl). vm_compute in H2. discriminate H2.
Qed.

(** ** The dispatcher's three ways *)

Lemma process_live AUTH sys net t_get t_set msg st sender s :
  normalize_number (msg_from msg) = Some sender ->
  sender <> "" ->
  SESSIONS st !! sender = Some s ->
  (t_get - ts s <= 300)%Q ->
  process_incoming_message AUTH sys net t_get t_set msg st
  = handle_session_message net sender s msg st.
Proof.
  intros Hn Hne Hs Hlive. unfold process_incoming_message. rewrite Hn.
  destruct sender as [| c f]; [congruence |].
  rewrite (bind_returned _ _ _ _ _ _ (get_session_live _ _ _ _ Hs Hlive)).
  simpl. apply run_eta.
Qed.

Lemma process_idle_slash AUTH sys net t_get t_set msg st sender :
  normalize_number (msg_from msg) = Some sender ->
  sender <> "" ->
  SESSIONS st !! sender = None ->
  msg_type msg = Some "text" ->
  Py.startswith (Py.strip (text_body msg)) "/" = true ->
  process_incoming_message AUTH sys net t_get t_set msg st
  = handle_slash_command AUTH sys t_set sender (Py.strip (text_body msg)) st.
Proof.
  intros Hn Hne Hs Ht Hsl. unfold process_incoming_message. rewrite Hn.
  destruct sender as [| c f]; [congruence |].
  rewrite (bind_returned _ _ _ _ _ _ (get_session_absent _ _ _ Hs)).
  rewrite Ht. simpl Py.eq_opt. cbv iota. rewrite Hsl. simpl negb. cbv iota.
  simpl app. apply run_eta.
Qed.

Lemma startswith_app (s p : string) :
  Py.startswith s p = true <-> exists r, s = p +:+ r.
Proof.
  unfold Py.startswith. revert s.
  induction p as [| a p IH]; intros s.
  - split; [exists s; reflexivity | destruct s; reflexivity].
  - destruct s as [| b s]; cbn [String.prefix String.append].
    + split; [discriminate | intros [r Hr]; discriminate Hr].
    + destruct (Ascii.ascii_dec a b) as [-> | Hab].
      * rewrite IH.
        split; intros [r Hr]; exists r;
          change (String b p +:+ r) with (String b (p +:+ r)) in *; congruence.
      * split; [discriminate |].
        intros [r Hr]. change (String a p +:+ r) with (String a (p +:+ r)) in Hr.
        congruence.
Qed.

Lemma slash_not_a_choice (x : string) :
  Py.startswith x "/" = true -> Py.in_tuple x ["1"; "2"; "3"; "4"] = false.
Proof.
  intros H. apply startswith_app in H as [r ->]. reflexivity.
Qed.

(** ** C1: a live session pre-empts command parsing *)

(** C1.  When the sender of a message has a session that has not expired,
    [process_incoming_message] does exactly what [handle_session_message]
    does with that session: the role table, the bell system and the text of
    the message play no part in the routing.  In particular a text that
    starts with the slash, such as [/help], sent while a voice-model choice
    is awaited, gets the invalid-choice reply and leaves the store as it
    was. *)
Theorem C1_session_preempts_commands
    (AUTH : gmap string string) (sys : bell_system) (net : network)
    (t_get t_set : Q) (msg : message) (st : store) (sender : string) (s : session) :
  normalize_number (msg_from msg) = Some sender ->
  sender <> "" ->
  SESSIONS st !! sender = Some s ->
  (t_get - ts s <= 300)%Q ->
  process_incoming_message AUTH sys net t_get t_set msg st
  = handle_session_message net sender s msg st
  /\ (expect s = "announce_model" ->
      msg_type msg = Some "text" ->
      Py.startswith (Py.strip (text_body msg)) "/" = true ->
      process_incoming_message AUTH sys net t_get t_set msg st
      = (Returned tt, st, [Sent sender "Invalid choice. Send 1,2,3 or 4."])).
Proof.
  intros Hn Hne Hs Hlive.
  rewrite (process_live AUTH sys net t_get t_set msg st sender s Hn Hne Hs Hlive).
  split; [reflexivity |].
  intros He Ht Hsl. unfold handle_session_message.
  rewrite He, Ht. simpl String.eqb. simpl Py.eq_opt. cbv iota. simpl negb. cbv iota.
  rewrite (slash_not_a_choice _ Hsl). reflexivity.
Qed.

Lemma C1_session_preempts_commands_witness :
  let st := Store {[ "+911" := Session "announce_model" {[ "announce_text" := "Good morning" ]} 1000 ]} [] in
  let msg := Message (Some "911") (Some "text") (Some (TextPart (Some "/help"))) None in
  process_incoming_message ∅ (BellSystem "" ∅ "" None None)
    (Network None (fun _ => MetaResponse 404 None None) (fun _ => 404%Z)) 1100 1101 msg st
  = (Returned tt, st, [Sent "+911" "Invalid choice. Send 1,2,3 or 4."]).
Proof.
  intros st msg.
  assert (Hn : normalize_number (msg_from msg) = Some "+911") by reflexivity.
  assert (Hne : "+911" <> "") by discriminate.
  assert (Hs : SESSIONS st !! "+911"
               = Some (Session "announce_model" {[ "announce_text" := "Good morning" ]} 1000))
    by (vm_compute; reflexivity).
  assert (Hlive : (1100 - 1000 <= 300)%Q) by (vm_compute; discriminate).
  destruct (C1_session_preempts_commands ∅ (BellSystem "" ∅ "" None None)
              (Network None (fun _ => MetaResponse 404 None None) (fun _ => 404%Z))
              1100 1101 msg st "+911" _ Hn Hne Hs Hlive) as [_ H].
  apply H; reflexivity.
Defined.

(** ** C8: a malformed voice-model choice *)

Lemma announce_model_malformed net sender s msg st :
  expect s = "announce_model" ->
  malformed_choice msg ->
  handle_session_message net sender s msg st
  = (Returned tt, st, [Sent sender (reprompt msg)]).
Proof.
  intros He Hbad. unfold handle_session_message, reprompt. rewrite He.
  change (String.eqb "announce_model" "announce_model") with true. cbv iota.
  destruct (Py.eq_opt (msg_type msg) "text") eqn:Et; simpl negb; cbv iota.
  - destruct Hbad as [Hty | Hch].
    + apply eq_opt_true in Et. contradiction.
    + rewrite Hch. reflexivity.
  - reflexivity.
Qed.

(** C8.  While a voice-model choice is awaited and the session is live, a
    message that is not a text, or a text that is none of the four choices,
    gets the re-prompt and nothing else: no thread is started and the store,
    so the session with its expected state and payload, is what it was.
    Sending the same message again gets the same re-prompt and again leaves
    the session as it was. *)
Theorem C8_malformed_choice_reprompts
    (AUTH : gmap string string) (sys : bell_system) (net : network)
    (t1 t1' t2 t2' : Q) (msg : message) (st : store) (sender : string) (s : session) :
  normalize_number (msg_from msg) = Some sender ->
  sender <> "" ->
  SESSIONS st !! sender = Some s ->
  expect s = "announce_model" ->
  (t1 - ts s <= 300)%Q ->
  (t2 - ts s <= 300)%Q ->
  malformed_choice msg ->
  let r1 := process_incoming_message AUTH sys net t1 t1' msg st in
  let r2 := process_incoming_message AUTH sys net t2 t2' msg (store_of r1) in
  r1 = (Returned tt, st, [Sent sender (reprompt msg)])
  /\ r2 = (Returned tt, st, [Sent sender (reprompt msg)])
  /\ SESSIONS (store_of r1) !! sender = Some s
  /\ SESSIONS (store_of r2) !! sender = Some s.
Proof.
  intros Hn Hne Hs He Hl1 Hl2 Hbad r1 r2.
  assert (H1 : r1 = (Returned tt, st, [Sent sender (reprompt msg)])).
  { unfold r1. rewrite (process_live AUTH sys net t1 t1' msg st sender s); try assumption.
    apply announce_model_malformed; assumption. }
  assert (H2 : r2 = (Returned tt, st, [Sent sender (reprompt msg)])).
  { unfold r2. rewrite H1. unfold store_of. simpl.
    rewrite (process_live AUTH sys net t2 t2' msg st sender s); try assumption.
    apply announce_model_malformed; assumption. }
  rewrite H1, H2. unfold store_of. simpl. auto.
Qed.

Lemma C8_malformed_choice_reprompts_witness :
  let st := Store {[ "+911" := Session "announce_model" {[ "announce_text" := "Good morning" ]} 1000 ]} [] in
  let msg := text_message "911" "five" in
  let net := Network None (fun _ => MetaResponse 404 None None) (fun _ => 404%Z) in
  let sys := BellSystem "" ∅ "" None None in
  let r1 := process_incoming_message ∅ sys net 1100 1101 msg st in
  let r2 := process_incoming_message ∅ sys net 1200 1201 msg (store_of r1) in
  r1 = (Returned tt, st, [Sent "+911" "Invalid choice. Send 1,2,3 or 4."])
  /\ r2 = (Returned tt, st, [Sent "+911" "Invalid choice. Send 1,2,3 or 4."])
  /\ SESSIONS (store_of r1) !! "+911"
     = Some (Session "announce_model" {[ "announce_text" := "Good morning" ]} 1000)
  /\ SESSIONS (store_of r2) !! "+911"
     = Some (Session "announce_model" {[ "announce_text" := "Good morning" ]} 1000).
Proof.
  intros st msg net sys.
  assert (Hn : normalize_number (msg_from msg) = Some "+911") by reflexivity.
  assert (Hne : "+911" <> "") by discriminate.
  assert (Hs : SESSIONS st !! "+911"
               = Some (Session "announce_model" {[ "announce_text" := "Good morning" ]} 1000))
    by (vm_compute; reflexivity).
  assert (Hl1 : (1100 - 1000 <= 300)%Q) by (vm_compute; discriminate).
  assert (Hl2 : (1200 - 1000 <= 300)%Q) by (vm_compute; discriminate).
  assert (Hbad : malformed_choice msg) by (right; reflexivity).
  exact (C8_malformed_choice_reprompts ∅ sys net 1100 1101 1200 1201 msg st "+911" _
           Hn Hne Hs eq_refl Hl1 Hl2 Hbad).
Defined.

(** ** C9: a media failure while a voice note is awaited *)

Lemma get_media_url_run net mid st :
  exists url mime evs,
    get_media_url net mid st = (Returned (url, mime), st, evs)
    /\ (evs = [] \/ evs = [MediaUrlRequested mid]).
Proof.
  unfold get_media_url.
  destruct (Py.truthy (ACCESS_TOKEN net)); simpl negb; cbv iota.
  - unfold bind, emit, ret.
    destruct (meta_status (media_meta net mid) =? 200)%Z; eauto 10.
  - unfold ret. eauto 10.
Qed.

Lemma download_media_file_refused net u mid mime st :
  download_status net u <> 200%Z ->
  download_media_file net u mid mime st
  = (Returned None, st, [MediaDownloadRequested u]).
Proof.
  intros Hst. apply Z.eqb_neq in Hst.
  unfold download_media_file, bind, emit, ret. rewrite Hst. reflexivity.
Qed.

Lemma voice_url_failure net sender s msg st url mime evs :
  expect s = "announce_wait_voice" ->
  msg_type msg = Some "audio" ->
  get_media_url net (audio_id msg) st = (Returned (url, mime), st, evs) ->
  Py.truthy url = false ->
  handle_session_message net sender s msg st
  = (Returned tt, Store (delete sender (SESSIONS st)) (BELL_SCHEDULES st),
     evs ++ [Sent sender "Failed to get media URL."]).
Proof.
  intros He Ht Hg Hu. unfold handle_session_message. rewrite He, Ht.
  change (String.eqb "announce_wait_voice" "announce_model") with false.
  change (String.eqb "announce_wait_voice" "announce_wait_voice") with true.
  change (negb (Py.eq_opt (Some "audio") "audio")) with false. cbv iota.
  rewrite (bind_returned _ _ _ _ _ _ Hg).
  destruct url as [[| c u] |]; try discriminate Hu; reflexivity.
Qed.

Lemma voice_download_failure net sender s msg st u mime evs :
  expect s = "announce_wait_voice" ->
  msg_type msg = Some "audio" ->
  get_media_url net (audio_id msg) st = (Returned (Some u, mime), st, evs) ->
  u <> "" ->
  download_status net u <> 200%Z ->
  handle_session_message net sender s msg st
  = (Returned tt, Store (delete sender (SESSIONS st)) (BELL_SCHEDULES st),
     evs ++ [MediaDownloadRequested u; Sent sender "Failed to download voice."]).
Proof.
  intros He Ht Hg Hu Hd. unfold handle_session_message. rewrite He, Ht.
  change (String.eqb "announce_wait_voice" "announce_model") with false.
  change (String.eqb "announce_wait_voice" "announce_wait_voice") with true.
  change (negb (Py.eq_opt (Some "audio") "audio")) with false. cbv iota.
  rewrite (bind_returned _ _ _ _ _ _ Hg).
  destruct u as [| c u]; [congruence |]. cbv iota beta.
  rewrite (bind_returned _ _ _ _ _ _
             (download_media_file_refused net (String c u) (audio_id msg) mime st Hd)).
  reflexivity.
Qed.

(** A download that fails by an error: when it is answered with status 200
    but the media endpoint gave no MIME type, ["ogg" in mime_type] raises
    inside [download_media_file], before anything is replied, and the
    session stays. *)
Lemma voice_download_type_error net sender s msg st u evs :
  expect s = "announce_wait_voice" ->
  msg_type msg = Some "audio" ->
  get_media_url net (audio_id msg) st = (Returned (Some u, None), st, evs) ->
  u <> "" ->
  download_status net u = 200%Z ->
  handle_session_message net sender s msg st
  = (Raised TypeError, st, evs ++ [MediaDownloadRequested u]).
Proof.
  intros He Ht Hg Hu Hd. unfold handle_session_message. rewrite He, Ht.
  change (String.eqb "announce_wait_voice" "announce_model") with false.
  change (String.eqb "announce_wait_voice" "announce_wait_voice") with true.
  change (negb (Py.eq_opt (Some "audio") "audio")) with false. cbv iota.
  rewrite (bind_returned _ _ _ _ _ _ Hg).
  destruct u as [| c u]; [congruence |]. cbv iota beta.
  unfold bind at 1, download_media_file, bind, emit, raise. rewrite Hd. reflexivity.
Qed.

(** C9, as the code has it.  While a voice note is awaited and the session
    is live, the handler clears the session only for the two failures it
    tests itself: an audio message whose media URL cannot be resolved gets
    the reply [Failed to get media URL.], and one whose download is answered
    with a status other than 200 gets the reply [Failed to download voice.];
    in both cases the sender's session is removed and no thread is started.
    A download that fails by an error is not handled: when the download is
    answered with status 200 and the media endpoint gave no MIME type,
    [download_media_file] raises [TypeError]; the run ends there with no
    reply at all, no thread, and the store as it was, so the session is left
    open and every later message of the sender within its lifetime is still
    taken as the awaited voice note.  The [download_media_file] of
    [whatsapp_server.py] catches the same error and returns [None]. *)
Theorem C9_download_error_leaves_session_open
    (AUTH : gmap string string) (sys : bell_system) (net : network)
    (t_get t_set : Q) (msg : message) (st : store) (sender : string) (s : session)
    (url mime : option string) (evs : list event) :
  normalize_number (msg_from msg) = Some sender ->
  sender <> "" ->
  SESSIONS st !! sender = Some s ->
  expect s = "announce_wait_voice" ->
  (t_get - ts s <= 300)%Q ->
  msg_type msg = Some "audio" ->
  get_media_url net (audio_id msg) st = (Returned (url, mime), st, evs) ->
  let r := process_incoming_message AUTH sys net t_get t_set msg st in
  let cleared := Store (delete sender (SESSIONS st)) (BELL_SCHEDULES st) in
  (Py.truthy url = false ->
     r = (Returned tt, cleared, evs ++ [Sent sender "Failed to get media URL."])
     /\ started (events_of r) = []
     /\ SESSIONS (store_of r) !! sender = None)
  /\ (forall u, url = Some u -> u <> "" -> download_status net u <> 200%Z ->
     r = (Returned tt, cleared,
          evs ++ [MediaDownloadRequested u; Sent sender "Failed to download voice."])
     /\ started (events_of r) = []
     /\ SESSIONS (store_of r) !! sender = None)
  /\ (forall u, url = Some u -> u <> "" -> download_status net u = 200%Z ->
      mime = None ->
     r = (Raised TypeError, st, evs ++ [MediaDownloadRequested u])
     /\ replies (events_of r) = []
     /\ started (events_of r) = []
     /\ SESSIONS (store_of r) !! sender = Some s
     /\ (forall (t1 t2 : Q) (msg' : message),
           normalize_number (msg_from msg') = Some sender ->
           (t1 - ts s <= 300)%Q ->
           process_incoming_message AUTH sys net t1 t2 msg' (store_of r)
           = handle_session_message net sender s msg' (store_of r))
     /\ (ServerMessages.no_token net = false ->
         forall mid : string,
           ServerMessages.download_media_file net u mid None
           = (None, [MediaDownloadRequested u])))
  /\ (evs = [] \/ evs = [MediaUrlRequested (audio_id msg)])
  /\ "Failed to get media URL." <> "Failed to download voice.".
Proof.
  intros Hn Hne Hs He Hlive Ht Hg r cleared.
  assert (Hevs : evs = [] \/ evs = [MediaUrlRequested (audio_id msg)]).
  { destruct (get_media_url_run net (audio_id msg) st) as (u' & m' & e' & Hg' & He').
    rewrite Hg in Hg'. injection Hg' as _ _ ->. exact He'. }
  assert (Hr : r = handle_session_message net sender s msg st).
  { unfold r. apply process_live; assumption. }
  split; [| split; [| split; [| split; [exact Hevs | discriminate]]]].
  - intros Hu.
    rewrite Hr, (voice_url_failure net sender s msg st url mime evs He Ht Hg Hu).
    split; [reflexivity |]. unfold store_of, events_of. simpl.
    split; [| apply lookup_delete_eq].
    destruct Hevs as [-> | ->]; reflexivity.
  - intros u -> Hu Hd.
    rewrite Hr, (voice_download_failure net sender s msg st u mime evs He Ht Hg Hu Hd).
    split; [reflexivity |]. unfold store_of, events_of. simpl.
    split; [| apply lookup_delete_eq].
    destruct Hevs as [-> | ->]; reflexivity.
  - intros u -> Hu Hd ->.
    rewrite Hr, (voice_download_type_error net sender s msg st u evs He Ht Hg Hu Hd).
    unfold store_of, events_of. cbn [fst snd].
    split; [reflexivity |].
    split; [destruct Hevs as [-> | ->]; reflexivity |].
    split; [destruct Hevs as [-> | ->]; reflexivity |].
    split; [exact Hs |].
    split.
    + intros t1 t2 msg' Hn' Hl'. apply process_live; assumption.
    + intros Htok mid. unfold ServerMessages.download_media_file.
      rewrite Htok. apply Z.eqb_eq in Hd. rewrite Hd. reflexivity.
Qed.

Lemma C9_download_error_leaves_session_open_witness :
  let s := Session "announce_wait_voice" ∅ 1000 in
  let st := Store {[ "+911" := s ]} [] in
  let msg := audio_message "911" "MEDIA1" in
  let sys := BellSystem "" ∅ "" None None in
  let net1 := Network (Some "tok") (fun _ => MetaResponse 500 None None) (fun _ => 200%Z) in
  let net2 := Network (Some "tok")
                (fun _ => MetaResponse 200 (Some "https://cdn/x") (Some "audio/ogg"))
                (fun _ => 404%Z) in
  let net3 := Network (Some "tok")
                (fun _ => MetaResponse 200 (Some "https://cdn/x") None)
                (fun _ => 200%Z) in
  process_incoming_message ∅ sys net1 1100 1101 msg st
  = (Returned tt, Store (delete "+911" (SESSIONS st)) [],
     [MediaUrlRequested (Some "MEDIA1"); Sent "+911" "Failed to get media URL."])
  /\ process_incoming_message ∅ sys net2 1100 1101 msg st
     = (Returned tt, Store (delete "+911" (SESSIONS st)) [],
        [MediaUrlRequested (Some "MEDIA1"); MediaDownloadRequested "https://cdn/x";
         Sent "+911" "Failed to download voice."])
  /\ process_incoming_message ∅ sys net3 1100 1101 msg st
     = (Raised TypeError, st,
        [MediaUrlRequested (Some "MEDIA1"); MediaDownloadRequested "https://cdn/x"])
  /\ SESSIONS (store_of (process_incoming_message ∅ sys net3 1100 1101 msg st)) !! "+911"
     = Some s
  /\ process_incoming_message ∅ sys net3 1200 1201 (text_message "911" "/help")
       (store_of (process_incoming_message ∅ sys net3 1100 1101 msg st))
     = handle_session_message net3 "+911" s (text_message "911" "/help")
         (store_of (process_incoming_message ∅ sys net3 1100 1101 msg st))
  /\ ServerMessages.download_media_file net3 "https://cdn/x" "MEDIA1" None
     = (None, [MediaDownloadRequested "https://cdn/x"]).
Proof.
  intros s st msg sys net1 net2 net3.
  assert (Hn : normalize_number (msg_from msg) = Some "+911") by reflexivity.
  assert (Hne : "+911" <> "") by discriminate.
  assert (Hs : SESSIONS st !! "+911" = Some s) by (vm_compute; reflexivity).
  assert (Hlive : (1100 - 1000 <= 300)%Q) by (vm_compute; discriminate).
  assert (Hu : "https://cdn/x" <> "") by discriminate.
  split; [| split].
  - destruct (C9_download_error_leaves_session_open ∅ sys net1 1100 1101 msg st "+911" _
                None None [MediaUrlRequested (Some "MEDIA1")]
                Hn Hne Hs eq_refl Hlive eq_refl eq_refl) as [H _].
    destruct (H eq_refl) as [Hr _]. exact Hr.
  - destruct (C9_download_error_leaves_session_open ∅ sys net2 1100 1101 msg st "+911" _
                (Some "https://cdn/x") (Some "audio/ogg")
                [MediaUrlRequested (Some "MEDIA1")]
                Hn Hne Hs eq_refl Hlive eq_refl eq_refl) as [_ [H _]].
    assert (Hd : download_status net2 "https://cdn/x" <> 200%Z) by (simpl; lia).
    destruct (H "https://cdn/x" eq_refl Hu Hd) as [Hr _]. exact Hr.
  - destruct (C9_download_error_leaves_session_open ∅ sys net3 1100 1101 msg st "+911" _
                (Some "https://cdn/x") None
                [MediaUrlRequested (Some "MEDIA1")]
                Hn Hne Hs eq_refl Hlive eq_refl eq_refl) as [_ [_ [H _]]].
    destruct (H "https://cdn/x" eq_refl Hu eq_refl eq_refl)
      as (Hr & _ & _ & Hopen & Hnext & Hsrv).
    split; [exact Hr |].
    split; [exact Hopen |].
    split.
    + apply Hnext; [reflexivity | vm_compute; discriminate].
    + apply Hsrv. reflexivity.
Defined.

(** ** C6: an announcement by text, then the choice of a voice *)

(** C6, as the code has it.  An admin without a pending session sends
    [/announce text Good morning]: the reply lists the four numbered voice
    choices and the store holds a session awaiting the voice model, with the
    body [Good morning], stamped with the clock reading of its creation.
    When the same sender sends [2] while that session is live, a thread is
    started that runs the online voice [nova] on the stored text, the reply
    is [Announcement played using model 2] (without a full stop), and the
    session is removed. *)
Theorem C6_announce_text_then_choice
    (AUTH : gmap string string) (sys : bell_system) (net : network)
    (t1 t1' t2 t2' : Q) (msg1 msg2 : message) (st : store) (sender : string) :
  normalize_number (msg_from msg1) = Some sender ->
  normalize_number (msg_from msg2) = Some sender ->
  sender <> "" ->
  get_role AUTH sender = "admin" ->
  SESSIONS st !! sender = None ->
  msg_type msg1 = Some "text" ->
  text_body msg1 = "/announce text Good morning" ->
  msg_type msg2 = Some "text" ->
  text_body msg2 = "2" ->
  (t2 - t1' <= 300)%Q ->
  let awaiting :=
    Session "announce_model" {[ "announce_text" := "Good morning" ]} t1' in
  let st1 := Store (<[sender := awaiting]> (SESSIONS st)) (BELL_SCHEDULES st) in
  let r1 := process_incoming_message AUTH sys net t1 t1' msg1 st in
  let r2 := process_incoming_message AUTH sys net t2 t2' msg2 (store_of r1) in
  r1 = (Returned tt, st1,
        [Sent sender
           (lines ["Choose voice model for announcement:"; "1. Alloy (online)";
                   "2. Nova (online)"; "3. Onyx (online)"; "4. Offline local";
                   "Send 1/2/3/4 now."])])
  /\ r2 = (Returned tt, Store (delete sender (SESSIONS st1)) (BELL_SCHEDULES st),
           [Started [tts_openai_online "Good morning" "nova" "announce_nova.mp3"];
            Sent sender "Announcement played using model 2"])
  /\ SESSIONS (store_of r2) !! sender = None.
Proof.
  intros Hn1 Hn2 Hne Hrole Hs Ht1 Hb1 Ht2 Hb2 Hlive awaiting st1 r1 r2.
  assert (H1 : r1 = (Returned tt, st1, [Sent sender voice_model_prompt])).
  { unfold r1. rewrite (process_idle_slash AUTH sys net t1 t1' msg1 st sender);
      try assumption; [| rewrite Hb1; reflexivity].
    rewrite Hb1. unfold handle_slash_command. rewrite Hrole. reflexivity. }
  assert (Hs1 : SESSIONS st1 !! sender = Some awaiting) by apply lookup_insert_eq.
  assert (H2 : r2 = (Returned tt, Store (delete sender (SESSIONS st1)) (BELL_SCHEDULES st),
                     [Started [tts_openai_online "Good morning" "nova" "announce_nova.mp3"];
                      Sent sender "Announcement played using model 2"])).
  { unfold r2. rewrite H1. unfold store_of. simpl fst. simpl snd.
    rewrite (process_live AUTH sys net t2 t2' msg2 st1 sender awaiting);
      try assumption.
    unfold handle_session_message. rewrite Ht2, Hb2. reflexivity. }
  split; [exact H1 |]. split; [exact H2 |].
  rewrite H2. unfold store_of. simpl. apply lookup_delete_eq.
Qed.

Lemma C6_announce_text_then_choice_witness :
  let AUTH : gmap string string := {[ "+919876543210" := "admin" ]} in
  let sys := BellSystem "" ∅ "" None None in
  let net := Network None (fun _ => MetaResponse 404 None None) (fun _ => 404%Z) in
  let r1 := process_incoming_message AUTH sys net 1000 1001
              (text_message "919876543210" "/announce text Good morning") (Store ∅ []) in
  let r2 := process_incoming_message AUTH sys net 1030 1031
              (text_message "919876543210" "2") (store_of r1) in
  events_of r2
  = [Started [tts_openai_online "Good morning" "nova" "announce_nova.mp3"];
     Sent "+919876543210" "Announcement played using model 2"]
  /\ SESSIONS (store_of r2) !! "+919876543210" = None.
Proof.
  intros AUTH sys net r1 r2.
  assert (Hrole : get_role AUTH "+919876543210" = "admin") by (vm_compute; reflexivity).
  assert (Hs : SESSIONS (Store ∅ []) !! "+919876543210" = None) by (vm_compute; reflexivity).
  assert (Hne : "+919876543210" <> "") by discriminate.
  assert (Hlive : (1030 - 1001 <= 300)%Q) by (vm_compute; discriminate).
  destruct (C6_announce_text_then_choice AUTH sys net 1000 1001 1030 1031
              (text_message "919876543210" "/announce text Good morning")
              (text_message "919876543210" "2") (Store ∅ []) "+919876543210"
              eq_refl eq_refl Hne Hrole Hs eq_refl eq_refl eq_refl eq_refl Hlive)
    as (_ & H2 & H3).
  split; [| exact H3].
  unfold r2, r1. rewrite H2. reflexivity.
Defined.

(** C6 as stated fails on the text of the confirmation: the reply that the
    code sends after the choice [2] has no full stop at its end. *)
Lemma C6_counterexample :
  let AUTH : gmap string string := {[ "+919876543210" := "admin" ]} in
  let sys := BellSystem "" ∅ "" None None in
  let net := Network None (fun _ => MetaResponse 404 None None) (fun _ => 404%Z) in
  let r1 := process_incoming_message AUTH sys net 1000 1001
              (text_message "919876543210" "/announce text Good morning") (Store ∅ []) in
  let r2 := process_incoming_message AUTH sys net 1030 1031
              (text_message "919876543210" "2") (store_of r1) in
  replies (events_of r2) = [("+919876543210", "Announcement played using model 2")]
  /\ replies (events_of r2) <> [("+919876543210", "Announcement played using model 2.")].
Proof.
  split.
  - vm_compute. reflexivity.
  - vm_compute. discriminate.
Qed.

(** ** C4: today's bell times *)

(** C4, what the code does.  A teacher or developer without a pending
    session sends [/bellmode today]: the prompt for today's times is sent
    and a session expecting [bell_today_input] is stored.  The next message
    of that sender, whatever it is, is routed to the session continuation,
    which has no case for that state: the reply is
    [Session expired or unknown.], the session is removed, and no thread is
    started, so the times are not taken and no bell is scheduled. *)
Theorem C4_bellmode_today_reply_dropped
    (AUTH : gmap string string) (sys : bell_system) (net : network)
    (t1 t1' t2 t2' : Q) (msg1 msg2 : message) (st : store) (sender : string) :
  normalize_number (msg_from msg1) = Some sender ->
  normalize_number (msg_from msg2) = Some sender ->
  sender <> "" ->
  get_role AUTH sender = "teacher" \/ get_role AUTH sender = "developer" ->
  SESSIONS st !! sender = None ->
  msg_type msg1 = Some "text" ->
  text_body msg1 = "/bellmode today" ->
  (t2 - t1' <= 300)%Q ->
  let expecting := Session "bell_today_input" ∅ t1' in
  let st1 := Store (<[sender := expecting]> (SESSIONS st)) (BELL_SCHEDULES st) in
  let r1 := process_incoming_message AUTH sys net t1 t1' msg1 st in
  let r2 := process_incoming_message AUTH sys net t2 t2' msg2 (store_of r1) in
  r1 = (Returned tt, st1, [Sent sender bell_today_prompt])
  /\ r2 = (Returned tt, Store (delete sender (SESSIONS st1)) (BELL_SCHEDULES st),
           [Sent sender "Session expired or unknown."])
  /\ started (events_of r2) = []
  /\ SESSIONS (store_of r2) !! sender = None.
Proof.
  intros Hn1 Hn2 Hne Hrole Hs Ht1 Hb1 Hlive expecting st1 r1 r2.
  assert (H1 : r1 = (Returned tt, st1, [Sent sender bell_today_prompt])).
  { unfold r1. rewrite (process_idle_slash AUTH sys net t1 t1' msg1 st sender);
      try assumption; [| rewrite Hb1; reflexivity].
    rewrite Hb1. unfold handle_slash_command.
    destruct Hrole as [-> | ->]; reflexivity. }
  assert (Hs1 : SESSIONS st1 !! sender = Some expecting) by apply lookup_insert_eq.
  assert (H2 : r2 = (Returned tt, Store (delete sender (SESSIONS st1)) (BELL_SCHEDULES st),
                     [Sent sender "Session expired or unknown."])).
  { unfold r2. rewrite H1. unfold store_of. simpl fst. simpl snd.
    rewrite (process_live AUTH sys net t2 t2' msg2 st1 sender expecting);
      try assumption.
    reflexivity. }
  split; [exact H1 |]. split; [exact H2 |].
  rewrite H2. unfold store_of, events_of. simpl.
  split; [reflexivity | apply lookup_delete_eq].
Qed.

Lemma C4_bellmode_today_reply_dropped_witness :
  let sys := BellSystem "" ∅ "" None None in
  let net := Network None (fun _ => MetaResponse 404 None None) (fun _ => 404%Z) in
  let r1 := process_incoming_message ∅ sys net 1000 1001
              (text_message "919812345678" "/bellmode today") (Store ∅ []) in
  let r2 := process_incoming_message ∅ sys net 1030 1031
              (text_message "919812345678" "09:00,10:30,12:00") (store_of r1) in
  events_of r2 = [Sent "+919812345678" "Session expired or unknown."]
  /\ started (events_of r2) = []
  /\ SESSIONS (store_of r2) !! "+919812345678" = None.
Proof.
  intros sys net r1 r2.
  assert (Hrole : get_role ∅ "+919812345678" = "teacher"
                  \/ get_role ∅ "+919812345678" = "developer")
    by (left; vm_compute; reflexivity).
  assert (Hs : SESSIONS (Store ∅ []) !! "+919812345678" = None) by (vm_compute; reflexivity).
  assert (Hne : "+919812345678" <> "") by discriminate.
  assert (Hlive : (1030 - 1001 <= 300)%Q) by (vm_compute; discriminate).
  destruct (C4_bellmode_today_reply_dropped ∅ sys net 1000 1001 1030 1031
              (text_message "919812345678" "/bellmode today")
              (text_message "919812345678" "09:00,10:30,12:00") (Store ∅ [])
              "+919812345678" eq_refl eq_refl Hne Hrole Hs eq_refl eq_refl Hlive)
    as (_ & H2 & H3 & H4).
  split; [| split; [exact H3 | exact H4]].
  unfold r2, r1. rewrite H2. reflexivity.
Defined.

(** ** Stripping blanks *)

Lemma lstrip_head (s : string) :
  match Py.lstrip s with
  | EmptyString => True
  | String c _ => Py.isspace c = false
  end.
Proof.
  induction s as [| c s IH]; simpl; [exact I |].
  destruct (Py.isspace c) eqn:E; [exact IH | exact E].
Qed.

Lemma lstrip_fixed (s : string) :
  match s with
  | EmptyString => True
  | String c _ => Py.isspace c = false
  end ->
  Py.lstrip s = s.
Proof. destruct s as [| c s]; simpl; [reflexivity |]. intros ->. reflexivity. Qed.

Lemma rstrip_head (c : ascii) (s : string) :
  Py.isspace c = false -> exists r, Py.rstrip (String c s) = String c r.
Proof.
  intros Hc. simpl. destruct (Py.rstrip s) as [| d r].
  - rewrite Hc. eauto.
  - eauto.
Qed.

Lemma rstrip_idem (s : string) : Py.rstrip (Py.rstrip s) = Py.rstrip s.
Proof.
  induction s as [| c s IH]; [reflexivity |].
  simpl. destruct (Py.rstrip s) as [| d r] eqn:E.
  - destruct (Py.isspace c) eqn:Hc; [reflexivity |]. simpl. rewrite Hc. reflexivity.
  - change (Py.rstrip (String c (String d r)))
      with (match Py.rstrip (String d r) with
            | EmptyString => if Py.isspace c then EmptyString else String c EmptyString
            | String a b => String c (String a b)
            end).
    rewrite IH. reflexivity.
Qed.

Lemma lstrip_rstrip (s : string) : Py.lstrip (Py.rstrip s) = Py.rstrip (Py.lstrip s).
Proof.
  induction s as [| c s IH]; [reflexivity |].
  destruct (Py.isspace c) eqn:Hc.
  - change (Py.lstrip (String c s)) with (if Py.isspace c then Py.lstrip s else String c s).
    rewrite Hc, <- IH. simpl. destruct (Py.rstrip s) as [| d r].
    + rewrite Hc. reflexivity.
    + simpl. rewrite Hc. reflexivity.
  - change (Py.lstrip (String c s)) with (if Py.isspace c then Py.lstrip s else String c s).
    rewrite Hc. destruct (rstrip_head c s Hc) as [r ->]. simpl. rewrite Hc. reflexivity.
Qed.

Lemma strip_idem (s : string) : Py.strip (Py.strip s) = Py.strip s.
Proof.
  unfold Py.strip. rewrite lstrip_rstrip.
  rewrite (lstrip_fixed (Py.lstrip s) (lstrip_head s)).
  apply rstrip_idem.
Qed.

Lemma append_nonempty (p s : string) : s <> "" -> p +:+ s <> "".
Proof. destruct p; simpl; [tauto | discriminate]. Qed.

Lemma rstrip_app (p s : string) :
  Py.rstrip s <> "" -> Py.rstrip (p +:+ s) = p +:+ Py.rstrip s.
Proof.
  intros Hs. induction p as [| c p IH]; [reflexivity |].
  change (String c p +:+ s) with (String c (p +:+ s)).
  change (String c p +:+ Py.rstrip s) with (String c (p +:+ Py.rstrip s)).
  simpl. rewrite IH.
  pose proof (append_nonempty p _ Hs) as Hne.
  destruct (p +:+ Py.rstrip s); [congruence | reflexivity].
Qed.

(** ** The role gates of [handle_slash_command] *)

(** Rewrites the stripped body into its known prefix and what follows. *)
Ltac split_prefix Hp r :=
  let E := fresh "E" in
  let Hp' := fresh "Hp" in
  pose proof Hp as Hp';
  apply startswith_app in Hp' as [r E];
  rewrite E in Hp.

Section Gates.

Variable AUTH : gmap string string.
Variable sys : bell_system.
Variables (now : Q) (sender body : string) (st : store).

Lemma bellmode_denied :
  Py.startswith (Py.strip body) "/bellmode" = true ->
  Py.in_tuple (get_role AUTH sender) ["teacher"; "developer"] = false ->
  handle_slash_command AUTH sys now sender body st
  = (Returned tt, st, [Sent sender "Not allowed."]).
Proof.
  intros Hp Hr. split_prefix Hp r.
  unfold handle_slash_command, bellmode_command. rewrite E, Hp, Hr. reflexivity.
Qed.

Lemma assembly_denied :
  Py.startswith (Py.strip body) "/assembly" = true ->
  Py.in_tuple (get_role AUTH sender) ["teacher"; "developer"] = false ->
  handle_slash_command AUTH sys now sender body st
  = (Returned tt, st, [Sent sender "Not allowed."]).
Proof.
  intros Hp Hr. split_prefix Hp r.
  unfold handle_slash_command, assembly_command. rewrite E, Hp, Hr. reflexivity.
Qed.

Lemma announce_denied :
  Py.startswith (Py.strip body) "/announce" = true ->
  Py.in_tuple (get_role AUTH sender) ["admin"; "developer"] = false ->
  handle_slash_command AUTH sys now sender body st
  = (Returned tt, st, [Sent sender "Not allowed."]).
Proof.
  intros Hp Hr. split_prefix Hp r.
  unfold handle_slash_command, announce_command. rewrite E, Hp, Hr.
  destruct (Py.startswith ("/announce" +:+ r) "/announcement"); reflexivity.
Qed.

Lemma settings_denied :
  Py.startswith (Py.strip body) "/settings" = true ->
  get_role AUTH sender <> "developer" ->
  handle_slash_command AUTH sys now sender body st
  = (Returned tt, st, [Sent sender "Not allowed."]).
Proof.
  intros Hp Hr. split_prefix Hp r. apply String.eqb_neq in Hr.
  unfold handle_slash_command, settings_command. rewrite E, Hp, Hr. reflexivity.
Qed.

Lemma schedule_denied :
  Py.startswith (Py.strip body) "/schedule" = true ->
  get_role AUTH sender <> "developer" ->
  handle_slash_command AUTH sys now sender body st
  = (Returned tt, st, [Sent sender "Unknown command. Type /help"]).
Proof.
  intros Hp Hr. split_prefix Hp r. apply String.eqb_neq in Hr.
  unfold handle_slash_command. rewrite E, Hp, Hr. reflexivity.
Qed.

End Gates.

Lemma startswith_slash (s p : string) :
  Py.startswith s p = true -> Py.startswith p "/" = true -> Py.startswith s "/" = true.
Proof.
  intros Hs Hp. apply startswith_app in Hs as [r ->].
  apply startswith_app in Hp as [q ->]. apply startswith_app.
  exists (q +:+ r). reflexivity.
Qed.

(** ** C3: denial of a gated command *)

(** C3, where the code departs from it.  A sender whose role is not
    [developer], with no pending session, sends a text that starts with
    [/schedule]: the only reply is [Unknown command. Type /help], the reply
    of a command that does not exist, and not [Not allowed.]; nothing is
    started and the store is unchanged.  (The gates of [/bellmode],
    [/assembly], [/announce] and [/settings] do answer [Not allowed.]: see
    [bellmode_denied], [assembly_denied], [announce_denied] and
    [settings_denied].) *)
Theorem C3_schedule_denial_reads_unknown_command
    (AUTH : gmap string string) (sys : bell_system) (net : network)
    (t_get t_set : Q) (msg : message) (st : store) (sender : string) :
  normalize_number (msg_from msg) = Some sender ->
  sender <> "" ->
  SESSIONS st !! sender = None ->
  msg_type msg = Some "text" ->
  Py.startswith (Py.strip (text_body msg)) "/schedule" = true ->
  get_role AUTH sender <> "developer" ->
  process_incoming_message AUTH sys net t_get t_set msg st
  = (Returned tt, st, [Sent sender "Unknown command. Type /help"])
  /\ replies (events_of (process_incoming_message AUTH sys net t_get t_set msg st))
     <> [(sender, "Not allowed.")].
Proof.
  intros Hn Hne Hs Ht Hp Hrole.
  assert (H : process_incoming_message AUTH sys net t_get t_set msg st
              = (Returned tt, st, [Sent sender "Unknown command. Type /help"])).
  { rewrite (process_idle_slash AUTH sys net t_get t_set msg st sender);
      try assumption; [| apply (startswith_slash _ _ Hp); reflexivity].
    apply schedule_denied; [rewrite strip_idem; exact Hp | exact Hrole]. }
  split; [exact H |]. rewrite H. unfold events_of, replies. simpl.
  intros E. injection E as E. discriminate E.
Qed.

Lemma C3_schedule_denial_reads_unknown_command_witness :
  process_incoming_message ∅ (BellSystem "" ∅ "" None None)
    (Network None (fun _ => MetaResponse 404 None None) (fun _ => 404%Z)) 1000 1001
    (text_message "919812345678" "/schedule list")
    (Store ∅ [("Regular Day", ["08:30"; "09:30"])])
  = (Returned tt, Store ∅ [("Regular Day", ["08:30"; "09:30"])],
     [Sent "+919812345678" "Unknown command. Type /help"]).
Proof.
  assert (Hs : SESSIONS (Store ∅ [("Regular Day", ["08:30"; "09:30"])]) !! "+919812345678"
               = None) by (vm_compute; reflexivity).
  assert (Hne : "+919812345678" <> "") by discriminate.
  assert (Hrole : get_role ∅ "+919812345678" <> "developer") by (vm_compute; discriminate).
  destruct (C3_schedule_denial_reads_unknown_command ∅ (BellSystem "" ∅ "" None None)
              (Network None (fun _ => MetaResponse 404 None None) (fun _ => 404%Z))
              1000 1001 (text_message "919812345678" "/schedule list")
              (Store ∅ [("Regular Day", ["08:30"; "09:30"])]) "+919812345678"
              eq_refl Hne Hs eq_refl eq_refl Hrole) as [H _].
  exact H.
Defined.

(** ** C5: the case of a command name *)

Lemma server_help_any_case (text sender : string) :
  Py.strip (Py.lower text) = "/help" ->
  Server.handle_command text sender = ([], Server.help_text).
Proof. intros H. unfold Server.handle_command. rewrite H. reflexivity. Qed.

(** C5, where the code departs from it.  In [whatsapp_integration.py] the
    name of a command is compared as it was typed: for a teacher without a
    pending session [/help] gets the teacher's help text, while [/HELP] and
    [/Help] get [Unknown command. Type /help].  The handler of
    [whatsapp_server.py] lowers the text first and answers the three alike;
    the text of an announcement keeps its casing there. *)
Theorem C5_command_name_case
    (AUTH : gmap string string) (sys : bell_system) (net : network)
    (t_get t_set : Q) (st : store) (f sender : string) :
  normalize_number (Some f) = Some sender ->
  sender <> "" ->
  SESSIONS st !! sender = None ->
  get_role AUTH sender = "teacher" ->
  let run b := process_incoming_message AUTH sys net t_get t_set (text_message f b) st in
  run "/help" = (Returned tt, st, [Sent sender help_teacher])
  /\ run "/HELP" = (Returned tt, st, [Sent sender "Unknown command. Type /help"])
  /\ run "/Help" = (Returned tt, st, [Sent sender "Unknown command. Type /help"])
  /\ Server.handle_command "/HELP" sender = Server.handle_command "/help" sender
  /\ Server.handle_command "/Help" sender = Server.handle_command "/help" sender
  /\ Server.handle_command "/ANNOUNCE Good Morning" sender
     = (["[announce] from " +:+ sender +:+ "  ->  Good Morning"], "Announcement played.").
Proof.
  intros Hn Hne Hs Hrole run.
  assert (Hrun : forall b, Py.startswith (Py.strip b) "/" = true ->
                 run b = handle_slash_command AUTH sys t_set sender (Py.strip b) st).
  { intros b Hb. unfold run.
    apply (process_idle_slash AUTH sys net t_get t_set (text_message f b) st sender);
      try assumption; reflexivity. }
  split; [| split; [| split; [| split; [| split]]]].
  - rewrite Hrun by reflexivity. unfold handle_slash_command. rewrite Hrole. reflexivity.
  - rewrite Hrun by reflexivity. unfold handle_slash_command. rewrite Hrole. reflexivity.
  - rewrite Hrun by reflexivity. unfold handle_slash_command. rewrite Hrole. reflexivity.
  - rewrite !server_help_any_case; reflexivity.
  - rewrite !server_help_any_case; reflexivity.
  - reflexivity.
Qed.

Lemma C5_command_name_case_witness :
  let sys := BellSystem "" ∅ "" None None in
  let net := Network None (fun _ => MetaResponse 404 None None) (fun _ => 404%Z) in
  process_incoming_message ∅ sys net 1000 1001
    (text_message "919812345678" "/HELP") (Store ∅ [])
  = (Returned tt, Store ∅ [], [Sent "+919812345678" "Unknown command. Type /help"])
  /\ process_incoming_message ∅ sys net 1000 1001
       (text_message "919812345678" "/help") (Store ∅ [])
     = (Returned tt, Store ∅ [], [Sent "+919812345678" help_teacher]).
Proof.
  intros sys net.
  assert (Hs : SESSIONS (Store ∅ []) !! "+919812345678" = None) by (vm_compute; reflexivity).
  assert (Hne : "+919812345678" <> "") by discriminate.
  assert (Hrole : get_role ∅ "+919812345678" = "teacher") by (vm_compute; reflexivity).
  destruct (C5_command_name_case ∅ sys net 1000 1001 (Store ∅ []) "919812345678"
              "+919812345678" eq_refl Hne Hs Hrole) as (H1 & H2 & _).
  split; [exact H2 | exact H1].
Defined.

(** ** C10: a schedule without times *)

Lemma split_bellmode_use (X : string) :
  Py.lstrip X <> "" ->
  Py.split_max 2 ("/bellmode use " +:+ X) = ["/bellmode"; "use"; Py.lstrip X].
Proof.
  intros HX.
  assert (E : Py.split_max 2 ("/bellmode use " +:+ X)
              = "/bellmode" :: "use" ::
                match Py.lstrip X with
                | EmptyString => []
                | String a b => [String a b]
                end)
    by reflexivity.
  rewrite E. destruct (Py.lstrip X); [congruence | reflexivity].
Qed.

Lemma strip_bellmode_use (NAME : string) :
  Py.strip NAME <> "" ->
  Py.strip ("/bellmode use " +:+ NAME) = "/bellmode use " +:+ Py.rstrip NAME.
Proof.
  intros HN.
  assert (Hr : Py.rstrip NAME <> "").
  { intros E. apply HN. unfold Py.strip. rewrite <- lstrip_rstrip, E. reflexivity. }
  unfold Py.strip.
  change (Py.lstrip ("/bellmode use " +:+ NAME)) with ("/bellmode use " +:+ NAME).
  apply rstrip_app. exact Hr.
Qed.

Lemma bellmode_use_parts now sender lower role c0 p2 st :
  Py.split_max 2 lower = [c0; "use"; p2] ->
  Py.in_tuple role ["teacher"; "developer"] = true ->
  bellmode_command now sender lower role st
  = match default [] (dict_get (BELL_SCHEDULES st) (Py.strip p2)) with
    | [] =>
        (Returned tt, st,
         [Sent sender ("Schedule '" +:+ Py.strip p2 +:+ "' not found.")])
    | sched =>
        (Returned tt, st,
         [Started [ringBell sched false];
          Sent sender ("Started schedule '" +:+ Py.strip p2 +:+ "'")])
    end.
Proof.
  intros Hparts Hin. unfold bellmode_command. rewrite Hparts, Hin.
  unfold bind, item, get_schedule, read, ret. simpl.
  destruct (dict_get (BELL_SCHEDULES st) (Py.strip p2)) as [[| t ts] |]; reflexivity.
Qed.

(** What [/bellmode use NAME] does for a teacher or developer: the name
    looked up is [NAME] without its surrounding blanks. *)
Lemma bellmode_use_run AUTH sys now sender NAME st :
  get_role AUTH sender = "teacher" \/ get_role AUTH sender = "developer" ->
  Py.strip NAME <> "" ->
  handle_slash_command AUTH sys now sender (Py.strip ("/bellmode use " +:+ NAME)) st
  = match default [] (dict_get (BELL_SCHEDULES st) (Py.strip NAME)) with
    | [] =>
        (Returned tt, st,
         [Sent sender ("Schedule '" +:+ Py.strip NAME +:+ "' not found.")])
    | sched =>
        (Returned tt, st,
         [Started [ringBell sched false];
          Sent sender ("Started schedule '" +:+ Py.strip NAME +:+ "'")])
    end.
Proof.
  intros Hrole HN.
  assert (HX : Py.lstrip (Py.rstrip NAME) = Py.strip NAME) by apply lstrip_rstrip.
  assert (Hp : Py.startswith ("/bellmode use " +:+ Py.rstrip NAME) "/bellmode" = true).
  { apply startswith_app. exists (" use " +:+ Py.rstrip NAME). reflexivity. }
  assert (Hin : Py.in_tuple (get_role AUTH sender) ["teacher"; "developer"] = true)
    by (destruct Hrole as [-> | ->]; reflexivity).
  assert (Hparts : Py.split_max 2 ("/bellmode use " +:+ Py.rstrip NAME)
                   = ["/bellmode"; "use"; Py.strip NAME]).
  { rewrite split_bellmode_use by (rewrite HX; exact HN). rewrite HX. reflexivity. }
  unfold handle_slash_command.
  rewrite strip_idem, (strip_bellmode_use NAME HN), Hp.
  change (String.eqb ("/bellmode use " +:+ Py.rstrip NAME) "/help") with false.
  change (Py.startswith ("/bellmode use " +:+ Py.rstrip NAME) "/about") with false.
  cbv iota.
  rewrite (bellmode_use_parts now sender _ _ _ _ st Hparts Hin).
  rewrite strip_idem. reflexivity.
Qed.

(** C10.  A teacher or developer without a pending session sends
    [/bellmode use NAME].  When the schedule table maps the name to the
    empty list of times, the reply is the not-found message for that name,
    no thread is started and the store is unchanged; a table without the
    name gets the same reply, so the two cases cannot be told apart by what
    the dispatcher does. *)
Theorem C10_empty_schedule_reads_not_found
    (AUTH : gmap string string) (sys : bell_system) (net : network)
    (t_get t_set : Q) (msg : message) (st st' : store) (sender NAME : string) :
  normalize_number (msg_from msg) = Some sender ->
  sender <> "" ->
  get_role AUTH sender = "teacher" \/ get_role AUTH sender = "developer" ->
  msg_type msg = Some "text" ->
  text_body msg = "/bellmode use " +:+ NAME ->
  Py.strip NAME <> "" ->
  SESSIONS st !! sender = None ->
  SESSIONS st' !! sender = None ->
  dict_get (BELL_SCHEDULES st) (Py.strip NAME) = Some [] ->
  dict_get (BELL_SCHEDULES st') (Py.strip NAME) = None ->
  let not_found := [Sent sender ("Schedule '" +:+ Py.strip NAME +:+ "' not found.")] in
  process_incoming_message AUTH sys net t_get t_set msg st = (Returned tt, st, not_found)
  /\ process_incoming_message AUTH sys net t_get t_set msg st' = (Returned tt, st', not_found)
  /\ started not_found = [].
Proof.
  intros Hn Hne Hrole Ht Hb HN Hs Hs' Hd Hd' not_found.
  assert (Hsl : Py.startswith (Py.strip (text_body msg)) "/" = true).
  { rewrite Hb, (strip_bellmode_use NAME HN). apply startswith_app.
    exists ("bellmode use " +:+ Py.rstrip NAME). reflexivity. }
  split; [| split; [| reflexivity]].
  - rewrite (process_idle_slash AUTH sys net t_get t_set msg st sender); try assumption.
    rewrite Hb, (bellmode_use_run AUTH sys t_set sender NAME st Hrole HN), Hd.
    reflexivity.
  - rewrite (process_idle_slash AUTH sys net t_get t_set msg st' sender); try assumption.
    rewrite Hb, (bellmode_use_run AUTH sys t_set sender NAME st' Hrole HN), Hd'.
    reflexivity.
Qed.

Lemma C10_empty_schedule_reads_not_found_witness :
  let sys := BellSystem "" ∅ "" None None in
  let net := Network None (fun _ => MetaResponse 404 None None) (fun _ => 404%Z) in
  let regular := ("Regular Day", ["08:30"; "09:30"]) in
  let st := Store ∅ [regular; ("Holiday", [])] in
  let st' := Store ∅ [regular] in
  let msg := text_message "919812345678" "/bellmode use Holiday" in
  process_incoming_message ∅ sys net 1000 1001 msg st
  = (Returned tt, st, [Sent "+919812345678" "Schedule 'Holiday' not found."])
  /\ process_incoming_message ∅ sys net 1000 1001 msg st'
     = (Returned tt, st', [Sent "+919812345678" "Schedule 'Holiday' not found."]).
Proof.
  intros sys net regular st st' msg.
  assert (Hne : "+919812345678" <> "") by discriminate.
  assert (Hrole : get_role ∅ "+919812345678" = "teacher"
                  \/ get_role ∅ "+919812345678" = "developer")
    by (left; vm_compute; reflexivity).
  assert (HN : Py.strip "Holiday" <> "") by (vm_compute; discriminate).
  assert (Hs : SESSIONS st !! "+919812345678" = None) by (vm_compute; reflexivity).
  assert (Hs' : SESSIONS st' !! "+919812345678" = None) by (vm_compute; reflexivity).
  destruct (C10_empty_schedule_reads_not_found ∅ sys net 1000 1001 msg st st'
              "+919812345678" "Holiday" eq_refl Hne Hrole eq_refl eq_refl HN Hs Hs'
              eq_refl eq_refl) as (H1 & H2 & _).
  split; [exact H1 | exact H2].
Defined.

(** * Further properties of the code *)

(** ** Frames of the handlers *)

Section Frames.

Variable AUTH : gmap string string.
Variable sender : string.
Variable R : store -> store -> list event -> Prop.
Hypothesis F : frame AUTH sender R.

Lemma keeps_ret {A} (a : A) : keeps R (ret a).
Proof. intros st. apply (frame_refl _ _ _ F). Qed.

Lemma keeps_raise {A} (e : exn) : keeps R (@raise A e).
Proof. intros st. apply (frame_refl _ _ _ F). Qed.

Lemma keeps_read {A} (f : store -> A) : keeps R (read f).
Proof. intros st. apply (frame_refl _ _ _ F). Qed.

Lemma keeps_bind {A B} (m : M A) (k : A -> M B) :
  keeps R m -> (forall a, keeps R (k a)) -> keeps R (bind m k).
Proof.
  intros Hm Hk st. specialize (Hm st). unfold keeps, bind, store_of, events_of in *.
  destruct (m st) as [[[a | e] st1] ev1]; simpl in *.
  - specialize (Hk a st1). destruct (k a st1) as [[r st2] ev2]; simpl in *.
    eapply (frame_trans _ _ _ F); eassumption.
  - exact Hm.
Qed.

Lemma keeps_send (text : string) : keeps R (send_whatsapp_text sender text).
Proof. intros st. apply (frame_sent _ _ _ F). Qed.

Lemma keeps_emit (e : event) :
  (forall to text, e <> Sent to text) -> keeps R (emit e).
Proof. intros He st. apply (frame_quiet _ _ _ F). exact He. Qed.

Lemma keeps_thread_start (target : list call) : keeps R (thread_start target).
Proof. apply keeps_emit. discriminate. Qed.

Lemma keeps_set_session now state d :
  In state session_states -> keeps R (set_session now sender state d).
Proof. intros Hs st. apply (frame_set _ _ _ F). exact Hs. Qed.

Lemma keeps_clear_session : keeps R (clear_session sender).
Proof. intros st. apply (frame_clear _ _ _ F). Qed.

Lemma keeps_item l i : keeps R (item l i).
Proof. unfold item. destruct (l !! i); [apply keeps_ret | apply keeps_raise]. Qed.

Lemma keeps_unpack2 l : keeps R (unpack2 l).
Proof.
  unfold unpack2. destruct l as [| a [| b [| c l]]];
    first [apply keeps_ret | apply keeps_raise].
Qed.

Lemma keeps_getitem d k : keeps R (getitem d k).
Proof. unfold getitem. destruct (d !! k); [apply keeps_ret | apply keeps_raise]. Qed.

Lemma keeps_get_session now : keeps R (get_session now sender).
Proof.
  unfold get_session. apply keeps_bind; [apply keeps_read |]. intros tbl.
  destruct (tbl !! sender) as [s |]; [| apply keeps_ret].
  destruct (Qgtb (now - ts s) 300); [| apply keeps_ret].
  apply keeps_bind; [apply keeps_clear_session | intros; apply keeps_ret].
Qed.

Lemma keeps_get_media_url net mid : keeps R (get_media_url net mid).
Proof.
  unfold get_media_url. destruct (negb (Py.truthy (ACCESS_TOKEN net))); [apply keeps_ret |].
  apply keeps_bind; [apply keeps_emit; discriminate |]. intros _.
  destruct (meta_status (media_meta net mid) =? 200)%Z; apply keeps_ret.
Qed.

Lemma keeps_download_media_file net url mid mime :
  keeps R (download_media_file net url mid mime).
Proof.
  unfold download_media_file. apply keeps_bind; [apply keeps_emit; discriminate |].
  intros _. destruct (download_status net url =? 200)%Z; [| apply keeps_ret].
  destruct mime; [| apply keeps_raise].
  apply keeps_bind; [apply keeps_emit; discriminate | intros; apply keeps_ret].
Qed.

Ltac keeps_step :=
  first
    [ apply keeps_ret | apply keeps_raise | apply keeps_read
    | apply keeps_send | apply keeps_thread_start
    | apply keeps_clear_session | apply keeps_item | apply keeps_unpack2
    | apply keeps_getitem | apply keeps_get_media_url
    | apply keeps_download_media_file
    | apply keeps_set_session; simpl; tauto
    | apply keeps_emit; discriminate
    | apply keeps_bind; [| intros ?]
    | match goal with
      | |- keeps _ (if ?c then _ else _) => destruct c
      | |- keeps _ (match ?x with _ => _ end) => destruct x
      end ].

Lemma keeps_handle_session_message net s msg :
  keeps R (handle_session_message net sender s msg).
Proof. unfold handle_session_message. cbv zeta. repeat keeps_step. Qed.

Lemma keeps_bellmode_command now lower role :
  keeps R (bellmode_command now sender lower role).
Proof. unfold bellmode_command, get_schedule. cbv zeta. repeat keeps_step. Qed.

Lemma keeps_assembly_command sys lower role :
  keeps R (assembly_command sys sender lower role).
Proof. unfold assembly_command. cbv zeta. repeat keeps_step. Qed.

Lemma keeps_announce_command now lower role :
  keeps R (announce_command now sender lower role).
Proof. unfold announce_command. cbv zeta. repeat keeps_step. Qed.

Lemma keeps_settings_command lower role :
  keeps R (settings_command sender lower role).
Proof. unfold settings_command. cbv zeta. repeat keeps_step. Qed.

Lemma keeps_write_schedules (f : store -> list (string * list string)) :
  get_role AUTH sender = "developer" ->
  keeps R (write (fun st => Store (SESSIONS st) (f st))).
Proof. intros Hd st. apply (frame_sched _ _ _ F Hd). Qed.

Lemma keeps_schedule_command lower :
  get_role AUTH sender = "developer" ->
  keeps R (schedule_command sender lower).
Proof.
  intros Hd.
  unfold schedule_command, list_schedule_names, update_schedule, delete_schedule,
    rename_schedule.
  cbv zeta.
  repeat first
    [ apply (keeps_write_schedules (fun st => dict_set (BELL_SCHEDULES st) _ _)); exact Hd
    | apply (keeps_write_schedules (fun st => dict_del (BELL_SCHEDULES st) _)); exact Hd
    | apply (keeps_write_schedules
               (fun st => dict_set (dict_del (BELL_SCHEDULES st) _) _ _)); exact Hd
    | keeps_step ].
Qed.

Lemma keeps_handle_slash_command sys now body :
  keeps R (handle_slash_command AUTH sys now sender body).
Proof.
  unfold handle_slash_command. cbv zeta.
  assert (Hafter : keeps R
    (if Py.startswith (Py.strip body) "/about" then
       send_whatsapp_text sender (Py.take 1500 (ABOUT_US_TEXT sys))
     else if Py.startswith (Py.strip body) "/bellmode" then
       bellmode_command now sender (Py.strip body) (get_role AUTH sender)
     else if Py.startswith (Py.strip body) "/assembly" then
       assembly_command sys sender (Py.strip body) (get_role AUTH sender)
     else if Py.startswith (Py.strip body) "/announcement"
             || Py.startswith (Py.strip body) "/announce" then
       announce_command now sender (Py.strip body) (get_role AUTH sender)
     else if Py.startswith (Py.strip body) "/settings" then
       settings_command sender (Py.strip body) (get_role AUTH sender)
     else if Py.startswith (Py.strip body) "/schedule"
             && String.eqb (get_role AUTH sender) "developer" then
       schedule_command sender (Py.strip body)
     else
       send_whatsapp_text sender "Unknown command. Type /help")).
  { destruct (Py.startswith (Py.strip body) "/about"); [apply keeps_send |].
    destruct (Py.startswith (Py.strip body) "/bellmode");
      [apply keeps_bellmode_command |].
    destruct (Py.startswith (Py.strip body) "/assembly");
      [apply keeps_assembly_command |].
    destruct (Py.startswith (Py.strip body) "/announcement"
              || Py.startswith (Py.strip body) "/announce");
      [apply keeps_announce_command |].
    destruct (Py.startswith (Py.strip body) "/settings");
      [apply keeps_settings_command |].
    destruct (Py.startswith (Py.strip body) "/schedule"
              && String.eqb (get_role AUTH sender) "developer") eqn:E;
      [| apply keeps_send].
    apply andb_true_iff in E as [_ E]. apply String.eqb_eq in E.
    apply keeps_schedule_command. exact E. }
  destruct (String.eqb (Py.strip body) "/help"); [| exact Hafter].
  destruct (String.eqb (get_role AUTH sender) "teacher"); [apply keeps_send |].
  destruct (String.eqb (get_role AUTH sender) "admin"); [apply keeps_send |].
  destruct (String.eqb (get_role AUTH sender) "developer"); [apply keeps_send |].
  exact Hafter.
Qed.

End Frames.

(** Every step that [process_incoming_message] takes for a message of
    [sender] is one of the steps of a frame for [sender]. *)
Lemma keeps_process_incoming_message AUTH sys net t_get t_set msg sender R :
  frame AUTH sender R ->
  normalize_number (msg_from msg) = Some sender ->
  keeps R (process_incoming_message AUTH sys net t_get t_set msg).
Proof.
  intros F Hn. unfold process_incoming_message. rewrite Hn.
  destruct sender as [| c f]; [apply (keeps_ret AUTH _ R F) |].
  apply (keeps_bind AUTH _ R F); [apply (keeps_get_session AUTH _ R F) |].
  intros [s |]; [apply (keeps_handle_session_message AUTH _ R F) |].
  destruct (Py.eq_opt (msg_type msg) "text").
  - destruct (negb (Py.startswith (Py.strip (text_body msg)) "/"));
      [apply (keeps_send AUTH _ R F) | apply (keeps_handle_slash_command AUTH _ R F)].
  - destruct (Py.eq_opt (msg_type msg) "audio"); apply (keeps_send AUTH _ R F).
Qed.

Lemma process_without_sender AUTH sys net t_get t_set msg st :
  ~ Py.truthy (normalize_number (msg_from msg)) = true ->
  process_incoming_message AUTH sys net t_get t_set msg st = (Returned tt, st, []).
Proof.
  intros H. unfold process_incoming_message.
  destruct (normalize_number (msg_from msg)) as [[| c f] |]; try reflexivity.
  exfalso. apply H. reflexivity.
Qed.

(** ** X1: the sessions of other senders *)

Lemma isolation_frame AUTH sender :
  frame AUTH sender
    (fun st st' _ => forall other, other <> sender ->
       SESSIONS st' !! other = SESSIONS st !! other).
Proof.
  constructor; simpl.
  - reflexivity.
  - intros st1 st2 st3 _ _ H12 H23 other Ho. rewrite (H23 other Ho). apply H12, Ho.
  - reflexivity.
  - reflexivity.
  - intros st now state d _ other Ho. apply lookup_insert_ne. congruence.
  - intros st other Ho. apply lookup_delete_ne. congruence.
  - reflexivity.
Qed.

(** X1.  Handling a message changes no session but the sender's: for every
    identity that is not the normalized sender of the message, the session
    store holds after the run what it held before. *)
Theorem X1_other_sessions_untouched
    (AUTH : gmap string string) (sys : bell_system) (net : network)
    (t_get t_set : Q) (msg : message) (st : store) (other : string) :
  normalize_number (msg_from msg) <> Some other ->
  SESSIONS (store_of (process_incoming_message AUTH sys net t_get t_set msg st)) !! other
  = SESSIONS st !! other.
Proof.
  intros Hne.
  destruct (normalize_number (msg_from msg)) as [sender |] eqn:Hn.
  - apply (keeps_process_incoming_message AUTH sys net t_get t_set msg sender _
             (isolation_frame AUTH sender) Hn st).
    congruence.
  - rewrite process_without_sender; [reflexivity |]. rewrite Hn. discriminate.
Qed.

Lemma X1_other_sessions_untouched_witness :
  let waiting := Session "announce_wait_voice" ∅ 1000 in
  let st := Store {[ "+911" := Session "announce_model" {[ "announce_text" := "Hi" ]} 1000;
                     "+922" := waiting ]} [] in
  SESSIONS (store_of (process_incoming_message ∅ (BellSystem "" ∅ "" None None)
                        (Network None (fun _ => MetaResponse 404 None None) (fun _ => 404%Z))
                        1100 1101 (text_message "911" "4") st)) !! "+922"
  = Some waiting.
Proof.
  intros waiting st.
  rewrite (X1_other_sessions_untouched ∅ (BellSystem "" ∅ "" None None)
             (Network None (fun _ => MetaResponse 404 None None) (fun _ => 404%Z))
             1100 1101 (text_message "911" "4") st "+922").
  - vm_compute. reflexivity.
  - vm_compute. discriminate.
Defined.

(** ** X2: who may change the schedule table *)

Lemma schedules_frame AUTH sender :
  get_role AUTH sender <> "developer" ->
  frame AUTH sender (fun st st' _ => BELL_SCHEDULES st' = BELL_SCHEDULES st).
Proof.
  intros Hr. constructor; simpl.
  - reflexivity.
  - congruence.
  - reflexivity.
  - reflexivity.
  - reflexivity.
  - reflexivity.
  - congruence.
Qed.

(** X2.  Only a developer's message changes the schedule table: when the
    role of the sender is not [developer], whatever the message and whatever
    session is pending, the table after the run is the table before. *)
Theorem X2_schedules_changed_by_developer_only
    (AUTH : gmap string string) (sys : bell_system) (net : network)
    (t_get t_set : Q) (msg : message) (st : store) :
  (forall sender, normalize_number (msg_from msg) = Some sender ->
                  get_role AUTH sender <> "developer") ->
  BELL_SCHEDULES (store_of (process_incoming_message AUTH sys net t_get t_set msg st))
  = BELL_SCHEDULES st.
Proof.
  intros Hrole.
  destruct (normalize_number (msg_from msg)) as [sender |] eqn:Hn.
  - apply (keeps_process_incoming_message AUTH sys net t_get t_set msg sender _
             (schedules_frame AUTH sender (Hrole sender eq_refl)) Hn st).
  - rewrite process_without_sender; [reflexivity |]. rewrite Hn. discriminate.
Qed.

Lemma X2_schedules_changed_by_developer_only_witness :
  let AUTH : gmap string string := {[ "+911" := "admin" ]} in
  let table := [("Regular Day", ["08:30"; "09:30"])] in
  BELL_SCHEDULES
    (store_of (process_incoming_message AUTH (BellSystem "" ∅ "" None None)
                 (Network None (fun _ => MetaResponse 404 None None) (fun _ => 404%Z))
                 1100 1101 (text_message "911" "/schedule delete Regular Day")
                 (Store ∅ table)))
  = table.
Proof.
  intros AUTH table.
  apply (X2_schedules_changed_by_developer_only AUTH (BellSystem "" ∅ "" None None)
           (Network None (fun _ => MetaResponse 404 None None) (fun _ => 404%Z))
           1100 1101 (text_message "911" "/schedule delete Regular Day") (Store ∅ table)).
  intros sender H. injection H as <-. vm_compute. discriminate.
Defined.

(** ** X3: the states of the stored sessions *)

Lemma states_frame AUTH sender :
  frame AUTH sender
    (fun st st' _ =>
       (forall o s, SESSIONS st !! o = Some s -> In (expect s) session_states) ->
       (forall o s, SESSIONS st' !! o = Some s -> In (expect s) session_states)).
Proof.
  constructor; simpl.
  - auto.
  - intros st1 st2 st3 _ _ H12 H23 H. apply H23, H12, H.
  - auto.
  - auto.
  - intros st now state d Hs H o s. destruct (decide (o = sender)) as [-> | Hne].
    + rewrite lookup_insert_eq. intros [= <-]. exact Hs.
    + rewrite lookup_insert_ne by congruence. apply H.
  - intros st H o s Hl. apply lookup_delete_Some in Hl as [_ Hl]. eapply H, Hl.
  - auto.
Qed.

(** X3.  The expected state of a stored session is always one of
    [bell_today_input], [announce_model] and [announce_wait_voice]: when
    that holds of every session before a message is handled, it holds of
    every session after it. *)
Theorem X3_session_states_closed
    (AUTH : gmap string string) (sys : bell_system) (net : network)
    (t_get t_set : Q) (msg : message) (st : store) :
  (forall o s, SESSIONS st !! o = Some s -> In (expect s) session_states) ->
  forall o s,
    SESSIONS (store_of (process_incoming_message AUTH sys net t_get t_set msg st)) !! o
    = Some s ->
    In (expect s) session_states.
Proof.
  intros Hinv.
  destruct (normalize_number (msg_from msg)) as [sender |] eqn:Hn.
  - apply (keeps_process_incoming_message AUTH sys net t_get t_set msg sender _
             (states_frame AUTH sender) Hn st Hinv).
  - rewrite process_without_sender; [exact Hinv |]. rewrite Hn. discriminate.
Qed.

Lemma X3_session_states_closed_witness :
  let AUTH : gmap string string := {[ "+911" := "admin" ]} in
  let st := Store {[ "+922" := Session "bell_today_input" ∅ 1000 ]} [] in
  let r := process_incoming_message AUTH (BellSystem "" ∅ "" None None)
             (Network None (fun _ => MetaResponse 404 None None) (fun _ => 404%Z))
             1100 1101 (text_message "911" "/announce voice") st in
  SESSIONS (store_of r) !! "+911" = Some (Session "announce_wait_voice" ∅ 1101)
  /\ In (expect (Session "announce_wait_voice" ∅ 1101)) session_states.
Proof.
  intros AUTH st r.
  assert (Hl : SESSIONS (store_of r) !! "+911" = Some (Session "announce_wait_voice" ∅ 1101))
    by (vm_compute; reflexivity).
  split; [exact Hl |].
  apply (X3_session_states_closed AUTH (BellSystem "" ∅ "" None None)
           (Network None (fun _ => MetaResponse 404 None None) (fun _ => 404%Z))
           1100 1101 (text_message "911" "/announce voice") st) with (o := "+911");
    [| exact Hl].
  intros o s H. simpl in H. apply lookup_singleton_Some in H as [_ <-].
  simpl. tauto.
Defined.

(** ** X4: the replies to a message *)

Lemma replies_app (ev1 ev2 : list event) :
  replies (ev1 ++ ev2) = replies ev1 ++ replies ev2.
Proof. unfold replies. apply omap_app. Qed.

Lemma started_app (ev1 ev2 : list event) :
  started (ev1 ++ ev2) = started ev1 ++ started ev2.
Proof. unfold started. apply omap_app. Qed.

Lemma sends_ret {A} (a : A) : sends 0 (ret a).
Proof. intros st. reflexivity. Qed.

Lemma sends_raise {A} (n : nat) (e : exn) : sends n (@raise A e).
Proof. intros st. simpl. lia. Qed.

Lemma sends_read {A} (f : store -> A) : sends 0 (read f).
Proof. intros st. reflexivity. Qed.

Lemma sends_write (f : store -> store) : sends 0 (write f).
Proof. intros st. reflexivity. Qed.

Lemma sends_emit (e : event) :
  (forall to text, e <> Sent to text) -> sends 0 (emit e).
Proof. intros He st. destruct e; try reflexivity. exfalso. eapply He. reflexivity. Qed.

Lemma sends_reply (to text : string) : sends 1 (emit (Sent to text)).
Proof. intros st. reflexivity. Qed.

Lemma sends_bind {A B} (n k : nat) (m : M A) (f : A -> M B) :
  sends n m -> (forall a, sends k (f a)) -> sends (n + k) (bind m f).
Proof.
  intros Hm Hf st. specialize (Hm st). unfold sends, bind, result_of, events_of in *.
  destruct (m st) as [[[a | e] st1] ev1]; simpl in *.
  - specialize (Hf a st1). destruct (f a st1) as [[[b | e] st2] ev2]; simpl in *;
      rewrite replies_app, length_app; lia.
  - lia.
Qed.

Ltac sends_open :=
  unfold send_whatsapp_text, thread_start, set_session, clear_session, item,
    getitem, unpack2, get_schedule, list_schedule_names, update_schedule,
    delete_schedule, rename_schedule, get_media_url, download_media_file,
    get_session;
  cbv zeta.

Ltac sends_case :=
  match goal with
  | |- sends _ (if ?c then _ else _) => destruct c
  | |- sends _ (match ?x with _ => _ end) => destruct x
  end.

Ltac sends_zero :=
  repeat first
    [ apply sends_ret | apply sends_raise | apply sends_read | apply sends_write
    | apply sends_emit; discriminate
    | apply (sends_bind 0 0); [| intros ?]
    | sends_case ].

Ltac sends_one :=
  repeat first
    [ apply sends_reply | apply sends_raise
    | apply (sends_bind 0 1); [solve [sends_zero] | intros ?]
    | apply (sends_bind 1 0); [| intros ?; solve [sends_zero]]
    | sends_case ].

Lemma sends_handle_session_message net sender s msg :
  sends 1 (handle_session_message net sender s msg).
Proof. unfold handle_session_message. sends_open. sends_one. Qed.

Lemma sends_handle_slash_command AUTH sys now sender body :
  sends 1 (handle_slash_command AUTH sys now sender body).
Proof.
  unfold handle_slash_command, bellmode_command, assembly_command, announce_command,
    settings_command, schedule_command.
  sends_open. sends_one.
Qed.

Lemma sends_process_incoming_message AUTH sys net t_get t_set msg :
  Py.truthy (normalize_number (msg_from msg)) = true ->
  sends 1 (process_incoming_message AUTH sys net t_get t_set msg).
Proof.
  intros Hn. unfold process_incoming_message.
  destruct (normalize_number (msg_from msg)) as [[| c f] |]; try discriminate Hn.
  apply (sends_bind 0 1); [unfold get_session; sends_open; sends_zero |].
  intros [s |]; [apply sends_handle_session_message |].
  destruct (Py.eq_opt (msg_type msg) "text").
  - destruct (negb (Py.startswith (Py.strip (text_body msg)) "/"));
      [apply sends_reply | apply sends_handle_slash_command].
  - destruct (Py.eq_opt (msg_type msg) "audio"); apply sends_reply.
Qed.

Lemma addressing_frame AUTH sender :
  frame AUTH sender
    (fun _ _ evs => forall to text, In (to, text) (replies evs) -> to = sender).
Proof.
  constructor; simpl.
  - tauto.
  - intros _ _ _ ev1 ev2 H1 H2 to text. rewrite replies_app, in_app_iff.
    intros [H | H]; eauto.
  - intros _ text to text' [[= <- _] | []]. reflexivity.
  - intros _ e He to text. destruct e; simpl; try tauto. exfalso. eapply He. reflexivity.
  - tauto.
  - tauto.
  - tauto.
Qed.

(** X4.  A message with a sender gets at most one reply, exactly one when
    the handler returns, and every reply goes to the normalized sender of
    the message, whatever the session, the role and the content. *)
Theorem X4_one_reply_to_the_sender
    (AUTH : gmap string string) (sys : bell_system) (net : network)
    (t_get t_set : Q) (msg : message) (st : store) (sender : string) :
  normalize_number (msg_from msg) = Some sender ->
  sender <> "" ->
  let r := process_incoming_message AUTH sys net t_get t_set msg st in
  (forall to text, In (to, text) (replies (events_of r)) -> to = sender)
  /\ length (replies (events_of r)) <= 1
  /\ (result_of r = Returned tt -> length (replies (events_of r)) = 1).
Proof.
  intros Hn Hne r.
  assert (Ht : Py.truthy (normalize_number (msg_from msg)) = true).
  { rewrite Hn. destruct sender; [congruence | reflexivity]. }
  pose proof (sends_process_incoming_message AUTH sys net t_get t_set msg Ht st) as Hs.
  fold r in Hs.
  split; [| split].
  - apply (keeps_process_incoming_message AUTH sys net t_get t_set msg sender _
             (addressing_frame AUTH sender) Hn st).
  - destruct (result_of r); lia.
  - intros Hr. rewrite Hr in Hs. exact Hs.
Qed.

Lemma X4_one_reply_to_the_sender_witness :
  let AUTH : gmap string string := {[ "+911" := "developer" ]} in
  let r := process_incoming_message AUTH (BellSystem "" ∅ "" None None)
             (Network None (fun _ => MetaResponse 404 None None) (fun _ => 404%Z))
             1100 1101 (text_message "911" "/schedule rename Old|New") (Store ∅ []) in
  length (replies (events_of r)) <= 1.
Proof.
  intros AUTH r.
  assert (Hne : "+911" <> "") by discriminate.
  destruct (X4_one_reply_to_the_sender AUTH (BellSystem "" ∅ "" None None)
              (Network None (fun _ => MetaResponse 404 None None) (fun _ => 404%Z))
              1100 1101 (text_message "911" "/schedule rename Old|New") (Store ∅ [])
              "+911" eq_refl Hne) as (_ & H & _).
  exact H.
Defined.

(** ** X5: what a role may set off with a fresh command *)

Lemma threadless_ret {A} (a : A) : threadless (ret a).
Proof. intros st. reflexivity. Qed.

Lemma threadless_raise {A} (e : exn) : threadless (@raise A e).
Proof. intros st. reflexivity. Qed.

Lemma threadless_read {A} (f : store -> A) : threadless (read f).
Proof. intros st. reflexivity. Qed.

Lemma threadless_write (f : store -> store) : threadless (write f).
Proof. intros st. reflexivity. Qed.

Lemma threadless_emit (e : event) :
  (forall target, e <> Started target) -> threadless (emit e).
Proof. intros He st. destruct e; try reflexivity. exfalso. eapply He. reflexivity. Qed.

Lemma threadless_bind {A B} (m : M A) (f : A -> M B) :
  threadless m -> (forall a, threadless (f a)) -> threadless (bind m f).
Proof.
  intros Hm Hf st. specialize (Hm st). unfold threadless, bind, events_of in *.
  destruct (m st) as [[[a | e] st1] ev1]; simpl in *; [| exact Hm].
  specialize (Hf a st1). destruct (f a st1) as [[r st2] ev2]; simpl in *.
  rewrite started_app, Hm, Hf. reflexivity.
Qed.

Ltac threadless_go :=
  repeat first
    [ apply threadless_ret | apply threadless_raise | apply threadless_read
    | apply threadless_write | apply threadless_emit; discriminate
    | apply threadless_bind; [| intros ?]
    | match goal with
      | |- threadless (if ?c then _ else _) => destruct c
      | |- threadless (match ?x with _ => _ end) => destruct x
      end ].

Lemma threadless_unless_bell_role AUTH sys now sender body :
  Py.in_tuple (get_role AUTH sender) ["teacher"; "developer"] = false ->
  threadless (handle_slash_command AUTH sys now sender body).
Proof.
  intros Hr.
  unfold handle_slash_command, bellmode_command, assembly_command. rewrite Hr.
  unfold announce_command, settings_command, schedule_command. sends_open.
  simpl negb. cbv iota. threadless_go.
Qed.

Lemma outside_roles (role : string) :
  Py.in_tuple role ["teacher"; "admin"; "developer"] = false ->
  String.eqb role "teacher" = false /\ String.eqb role "admin" = false
  /\ String.eqb role "developer" = false.
Proof.
  unfold Py.in_tuple. simpl.
  destruct (String.eqb role "teacher"), (String.eqb role "admin"),
    (String.eqb role "developer"); simpl; intros H; try discriminate H; auto.
Qed.

Lemma unknown_role_only_replies AUTH sys now sender body st :
  Py.in_tuple (get_role AUTH sender) ["teacher"; "admin"; "developer"] = false ->
  exists text,
    handle_slash_command AUTH sys now sender body st = (Returned tt, st, [Sent sender text]).
Proof.
  intros Hr. apply outside_roles in Hr as (Ht & Ha & Hd).
  unfold handle_slash_command, bellmode_command, assembly_command, announce_command,
    settings_command, Py.in_tuple.
  cbv zeta. cbn [existsb]. rewrite Ht, Ha, Hd, andb_false_r.
  cbn [orb negb].
  destruct (String.eqb (Py.strip body) "/help");
    destruct (Py.startswith (Py.strip body) "/about");
    try (eexists; reflexivity);
    destruct (Py.startswith (Py.strip body) "/bellmode");
    try (eexists; reflexivity);
    destruct (Py.startswith (Py.strip body) "/assembly");
    try (eexists; reflexivity);
    destruct (Py.startswith (Py.strip body) "/announcement"
              || Py.startswith (Py.strip body) "/announce");
    try (eexists; reflexivity);
    destruct (Py.startswith (Py.strip body) "/settings");
    eexists; reflexivity.
Qed.

(** X5.  What a fresh slash command can set off depends on the role of the
    sender.  A role other than [teacher] and [developer] starts no worker
    thread, so neither a bell nor an assembly track.  A role that is none of
    [teacher], [admin] and [developer] changes nothing at all: the handler
    returns, the store is unchanged and the only event is one reply to the
    sender. *)
Theorem X5_fresh_command_needs_a_role
    (AUTH : gmap string string) (sys : bell_system) (now : Q)
    (sender body : string) (st : store) :
  let r := handle_slash_command AUTH sys now sender body st in
  (Py.in_tuple (get_role AUTH sender) ["teacher"; "developer"] = false ->
   started (events_of r) = [])
  /\ (Py.in_tuple (get_role AUTH sender) ["teacher"; "admin"; "developer"] = false ->
      exists text, r = (Returned tt, st, [Sent sender text])).
Proof.
  intros r. split.
  - intros Hr. apply (threadless_unless_bell_role AUTH sys now sender body Hr st).
  - intros Hr. apply unknown_role_only_replies. exact Hr.
Qed.

Lemma X5_fresh_command_needs_a_role_witness :
  let AUTH : gmap string string := {[ "+911" := "admin"; "+922" := "staff" ]} in
  let sys := BellSystem "" {[ "prayer" := "p.mp3" ]} "anthem.mp3" None None in
  started (events_of (handle_slash_command AUTH sys 1000 "+911" "/assembly 3" (Store ∅ [])))
  = []
  /\ exists text,
       handle_slash_command AUTH sys 1000 "+922" "/bellmode today" (Store ∅ [])
       = (Returned tt, Store ∅ [], [Sent "+922" text]).
Proof.
  intros AUTH sys. split.
  - destruct (X5_fresh_command_needs_a_role AUTH sys 1000 "+911" "/assembly 3" (Store ∅ []))
      as [H _].
    apply H. vm_compute. reflexivity.
  - destruct (X5_fresh_command_needs_a_role AUTH sys 1000 "+922" "/bellmode today"
                (Store ∅ [])) as [_ H].
    apply H. vm_compute. reflexivity.
Defined.

(** ** X6: a message that finds an expired session *)

(** X6.  A message of a sender whose session is older than 300 seconds is
    handled exactly as if the sender had no session: the run is the run on
    the store without that session, so the session is evicted first and the
    message is dispatched as a fresh one. *)
Theorem X6_expired_session_evicted_then_fresh
    (AUTH : gmap string string) (sys : bell_system) (net : network)
    (t_get t_set : Q) (msg : message) (st : store) (sender : string) (s : session) :
  normalize_number (msg_from msg) = Some sender ->
  sender <> "" ->
  SESSIONS st !! sender = Some s ->
  (300 < t_get - ts s)%Q ->
  process_incoming_message AUTH sys net t_get t_set msg st
  = process_incoming_message AUTH sys net t_get t_set msg
      (Store (delete sender (SESSIONS st)) (BELL_SCHEDULES st)).
Proof.
  intros Hn Hne Hs Hold. unfold process_incoming_message. rewrite Hn.
  destruct sender as [| c f]; [congruence |].
  rewrite (bind_returned _ _ _ _ _ _ (get_session_expired _ _ _ _ Hs Hold)).
  assert (Hgone : SESSIONS (Store (delete (String c f) (SESSIONS st)) (BELL_SCHEDULES st))
                  !! String c f = None) by apply lookup_delete_eq.
  rewrite (bind_returned _ _ _ _ _ _ (get_session_absent t_get _ _ Hgone)).
  reflexivity.
Qed.

Lemma X6_expired_session_evicted_then_fresh_witness :
  let st := Store {[ "+911" := Session "announce_model" {[ "announce_text" := "Hi" ]} 1000 ]} [] in
  process_incoming_message ∅ (BellSystem "" ∅ "" None None)
    (Network None (fun _ => MetaResponse 404 None None) (fun _ => 404%Z))
    1301 1302 (text_message "911" "2") st
  = (Returned tt, Store ∅ [],
     [Sent "+911" "Welcome to JOTHI WhatsApp bot. Type /help to see commands."]).
Proof.
  intros st.
  rewrite (X6_expired_session_evicted_then_fresh ∅ (BellSystem "" ∅ "" None None)
             (Network None (fun _ => MetaResponse 404 None None) (fun _ => 404%Z))
             1301 1302 (text_message "911" "2") st "+911"
             (Session "announce_model" {[ "announce_text" := "Hi" ]} 1000)).
  - vm_compute. reflexivity.
  - reflexivity.
  - discriminate.
  - vm_compute. reflexivity.
  - vm_compute. reflexivity.
Defined.

(** ** X7: messages that are no command, with no session pending *)

Lemma process_idle AUTH sys net t_get t_set msg st sender :
  normalize_number (msg_from msg) = Some sender ->
  sender <> "" ->
  SESSIONS st !! sender = None ->
  process_incoming_message AUTH sys net t_get t_set msg st
  = (if Py.eq_opt (msg_type msg) "text" then
       if negb (Py.startswith (Py.strip (text_body msg)) "/") then
         send_whatsapp_text sender
           "Welcome to JOTHI WhatsApp bot. Type /help to see commands."
       else handle_slash_command AUTH sys t_set sender (Py.strip (text_body msg))
     else if Py.eq_opt (msg_type msg) "audio" then
       send_whatsapp_text sender
         "To use a voice note for announcement, please send /announce voice first."
     else send_whatsapp_text sender "Message type not supported. Use /help") st.
Proof.
  intros Hn Hne Hs. unfold process_incoming_message. rewrite Hn.
  destruct sender as [| c f]; [congruence |].
  rewrite (bind_returned _ _ _ _ _ _ (get_session_absent _ _ _ Hs)).
  simpl app. apply run_eta.
Qed.

(** X7.  A message without a sender (no [from], or an empty one) is dropped:
    nothing is sent and the store is unchanged.  For a sender without a
    session, a text that does not start with the slash gets the welcome
    line, an audio message gets the hint to send [/announce voice] first,
    and every other type gets the not-supported line; in the three cases the
    store is unchanged and nothing else happens. *)
Theorem X7_idle_messages
    (AUTH : gmap string string) (sys : bell_system) (net : network)
    (t_get t_set : Q) (msg : message) (st : store) :
  let r := process_incoming_message AUTH sys net t_get t_set msg st in
  (Py.truthy (msg_from msg) = false -> r = (Returned tt, st, []))
  /\ (forall sender,
        normalize_number (msg_from msg) = Some sender -> sender <> "" ->
        SESSIONS st !! sender = None ->
        (msg_type msg = Some "text" ->
         Py.startswith (Py.strip (text_body msg)) "/" = false ->
         r = (Returned tt, st,
              [Sent sender "Welcome to JOTHI WhatsApp bot. Type /help to see commands."]))
        /\ (msg_type msg = Some "audio" ->
            r = (Returned tt, st,
                 [Sent sender
                    "To use a voice note for announcement, please send /announce voice first."]))
        /\ (msg_type msg <> Some "text" -> msg_type msg <> Some "audio" ->
            r = (Returned tt, st, [Sent sender "Message type not supported. Use /help"]))).
Proof.
  intros r. split.
  - intros Hf. unfold r. apply process_without_sender.
    destruct (msg_from msg) as [[| c f] |]; try discriminate Hf; simpl; discriminate.
  - intros sender Hn Hne Hs. unfold r.
    rewrite (process_idle AUTH sys net t_get t_set msg st sender Hn Hne Hs).
    split; [| split].
    + intros Ht Hsl. rewrite Ht, Hsl. reflexivity.
    + intros Ht. rewrite Ht. reflexivity.
    + intros Ht Ha. apply eq_opt_false in Ht, Ha. rewrite Ht, Ha. reflexivity.
Qed.

Lemma X7_idle_messages_witness :
  let sys := BellSystem "" ∅ "" None None in
  let net := Network None (fun _ => MetaResponse 404 None None) (fun _ => 404%Z) in
  process_incoming_message ∅ sys net 1000 1001 (Message (Some "") (Some "text") None None)
    (Store ∅ [])
  = (Returned tt, Store ∅ [], [])
  /\ process_incoming_message ∅ sys net 1000 1001 (text_message "911" "hello") (Store ∅ [])
     = (Returned tt, Store ∅ [],
        [Sent "+911" "Welcome to JOTHI WhatsApp bot. Type /help to see commands."])
  /\ process_incoming_message ∅ sys net 1000 1001 (audio_message "911" "M1") (Store ∅ [])
     = (Returned tt, Store ∅ [],
        [Sent "+911"
           "To use a voice note for announcement, please send /announce voice first."])
  /\ process_incoming_message ∅ sys net 1000 1001
       (Message (Some "911") (Some "image") None None) (Store ∅ [])
     = (Returned tt, Store ∅ [], [Sent "+911" "Message type not supported. Use /help"]).
Proof.
  intros sys net.
  assert (Hne : "+911" <> "") by discriminate.
  assert (Hs : SESSIONS (Store ∅ []) !! "+911" = None) by (vm_compute; reflexivity).
  split; [| split; [| split]].
  - destruct (X7_idle_messages ∅ sys net 1000 1001
                (Message (Some "") (Some "text") None None) (Store ∅ [])) as [H _].
    apply H. reflexivity.
  - destruct (X7_idle_messages ∅ sys net 1000 1001 (text_message "911" "hello")
                (Store ∅ [])) as [_ H].
    destruct (H "+911" eq_refl Hne Hs) as (H1 & _). apply H1; reflexivity.
  - destruct (X7_idle_messages ∅ sys net 1000 1001 (audio_message "911" "M1")
                (Store ∅ [])) as [_ H].
    destruct (H "+911" eq_refl Hne Hs) as (_ & H2 & _). apply H2; reflexivity.
  - destruct (X7_idle_messages ∅ sys net 1000 1001
                (Message (Some "911") (Some "image") None None) (Store ∅ [])) as [_ H].
    destruct (H "+911" eq_refl Hne Hs) as (_ & _ & H3). apply H3; discriminate.
Defined.

(** ** X8: a valid choice of the voice model *)

Lemma model_of_choice (choice model : string) :
  dict_get model_map choice = Some model ->
  Py.in_tuple choice ["1"; "2"; "3"; "4"] = true.
Proof.
  unfold model_map, Py.in_tuple. cbn [dict_get existsb].
  rewrite !(String.eqb_sym choice).
  destruct (String.eqb "1" choice); [reflexivity |].
  destruct (String.eqb "2" choice); [reflexivity |].
  destruct (String.eqb "3" choice); [reflexivity |].
  destruct (String.eqb "4" choice); [reflexivity | discriminate].
Qed.

(** X8.  While a voice-model choice is awaited and the session is live, a
    text that, without its surrounding blanks, is one of the choices of
    [model_map] starts one thread that voices the stored announcement text
    (the empty text when the session holds none) with the chosen model,
    confirms with the number of the choice and removes the session.  The
    choice [4] is the offline voice; the others are online voices that write
    [announce_<model>.mp3]. *)
Theorem X8_valid_choice_runs_announcement
    (AUTH : gmap string string) (sys : bell_system) (net : network)
    (t_get t_set : Q) (msg : message) (st : store) (sender : string) (s : session)
    (choice model : string) :
  normalize_number (msg_from msg) = Some sender ->
  sender <> "" ->
  SESSIONS st !! sender = Some s ->
  expect s = "announce_model" ->
  (t_get - ts s <= 300)%Q ->
  msg_type msg = Some "text" ->
  Py.strip (text_body msg) = choice ->
  dict_get model_map choice = Some model ->
  let text := default "" (data s !! "announce_text") in
  process_incoming_message AUTH sys net t_get t_set msg st
  = (Returned tt, Store (delete sender (SESSIONS st)) (BELL_SCHEDULES st),
     [Started (run_announce model text);
      Sent sender ("Announcement played using model " +:+ choice)])
  /\ (model = "offline" -> run_announce model text = [speak_offline_local text])
  /\ (model <> "offline" ->
      run_announce model text
      = [tts_openai_online text model ("announce_" +:+ model +:+ ".mp3")]).
Proof.
  intros Hn Hne Hs He Hlive Ht Hc Hm text.
  split; [| split].
  - rewrite (process_live AUTH sys net t_get t_set msg st sender s Hn Hne Hs Hlive).
    unfold handle_session_message. rewrite He, Ht, Hc, (model_of_choice _ _ Hm), Hm.
    reflexivity.
  - intros ->. reflexivity.
  - intros Hoff. unfold run_announce. apply String.eqb_neq in Hoff. rewrite Hoff.
    reflexivity.
Qed.

Lemma X8_valid_choice_runs_announcement_witness :
  let st := Store {[ "+911" := Session "announce_model" {[ "announce_text" := "Assembly at nine" ]} 1000 ]} [] in
  process_incoming_message ∅ (BellSystem "" ∅ "" None None)
    (Network None (fun _ => MetaResponse 404 None None) (fun _ => 404%Z))
    1100 1101 (text_message "911" " 4 ") st
  = (Returned tt, Store (delete "+911" (SESSIONS st)) [],
     [Started [speak_offline_local "Assembly at nine"];
      Sent "+911" "Announcement played using model 4"]).
Proof.
  intros st.
  assert (Hne : "+911" <> "") by discriminate.
  assert (Hs : SESSIONS st !! "+911"
               = Some (Session "announce_model" {[ "announce_text" := "Assembly at nine" ]} 1000))
    by (vm_compute; reflexivity).
  assert (Hlive : (1100 - 1000 <= 300)%Q) by (vm_compute; discriminate).
  destruct (X8_valid_choice_runs_announcement ∅ (BellSystem "" ∅ "" None None)
              (Network None (fun _ => MetaResponse 404 None None) (fun _ => 404%Z))
              1100 1101 (text_message "911" " 4 ") st "+911" _ "4" "offline"
              eq_refl Hne Hs eq_refl Hlive eq_refl eq_refl eq_refl) as [H _].
  exact H.
Defined.

(** ** X9: a voice note that arrives *)

(** X9.  While a voice note is awaited and the session is live, an audio
    message whose media URL resolves and whose download is answered with
    status 200 is saved under [wa_media_<id>] with the extension of its MIME
    type ([.ogg] when it mentions ogg, else [.mp3] when it mentions mpeg,
    else [.bin]); one thread is started that plays that file, the reply
    confirms, and the session is removed. *)
Theorem X9_voice_note_saved_and_played
    (AUTH : gmap string string) (sys : bell_system) (net : network)
    (t_get t_set : Q) (msg : message) (st : store) (sender : string) (s : session)
    (u mime : string) (evs : list event) :
  normalize_number (msg_from msg) = Some sender ->
  sender <> "" ->
  SESSIONS st !! sender = Some s ->
  expect s = "announce_wait_voice" ->
  (t_get - ts s <= 300)%Q ->
  msg_type msg = Some "audio" ->
  get_media_url net (audio_id msg) st = (Returned (Some u, Some mime), st, evs) ->
  u <> "" ->
  download_status net u = 200%Z ->
  let ext := if Py.contains_str "ogg" mime then ".ogg"
             else if Py.contains_str "mpeg" mime then ".mp3" else ".bin" in
  let out := "wa_media_" +:+ Py.str (audio_id msg) +:+ ext in
  process_incoming_message AUTH sys net t_get t_set msg st
  = (Returned tt, Store (delete sender (SESSIONS st)) (BELL_SCHEDULES st),
     evs ++ [MediaDownloadRequested u; FileWritten out;
             Started [play_audio_blocking out];
             Sent sender "Voice announcement received and played."]).
Proof.
  intros Hn Hne Hs He Hlive Ht Hg Hu Hd ext out.
  rewrite (process_live AUTH sys net t_get t_set msg st sender s Hn Hne Hs Hlive).
  unfold handle_session_message. rewrite He, Ht.
  change (String.eqb "announce_wait_voice" "announce_model") with false.
  change (String.eqb "announce_wait_voice" "announce_wait_voice") with true.
  change (negb (Py.eq_opt (Some "audio") "audio")) with false. cbv iota.
  rewrite (bind_returned _ _ _ _ _ _ Hg).
  destruct u as [| c u]; [congruence |]. cbv iota beta.
  assert (Hdl : download_media_file net (String c u) (audio_id msg) (Some mime) st
                = (Returned (Some out), st,
                   [MediaDownloadRequested (String c u); FileWritten out])).
  { unfold download_media_file, bind, emit, ret. rewrite Hd. reflexivity. }
  rewrite (bind_returned _ _ _ _ _ _ Hdl).
  assert (Hout : Py.truthy (Some out) = true) by reflexivity.
  rewrite Hout. reflexivity.
Qed.

Lemma X9_voice_note_saved_and_played_witness :
  let st := Store {[ "+911" := Session "announce_wait_voice" ∅ 1000 ]} [] in
  let net := Network (Some "tok")
               (fun _ => MetaResponse 200 (Some "https://cdn/x") (Some "audio/mpeg"))
               (fun _ => 200%Z) in
  process_incoming_message ∅ (BellSystem "" ∅ "" None None) net 1100 1101
    (audio_message "911" "M1") st
  = (Returned tt, Store (delete "+911" (SESSIONS st)) [],
     [MediaUrlRequested (Some "M1"); MediaDownloadRequested "https://cdn/x";
      FileWritten "wa_media_M1.mp3"; Started [play_audio_blocking "wa_media_M1.mp3"];
      Sent "+911" "Voice announcement received and played."]).
Proof.
  intros st net.
  assert (Hne : "+911" <> "") by discriminate.
  assert (Hs : SESSIONS st !! "+911" = Some (Session "announce_wait_voice" ∅ 1000))
    by (vm_compute; reflexivity).
  assert (Hlive : (1100 - 1000 <= 300)%Q) by (vm_compute; discriminate).
  assert (Hu : "https://cdn/x" <> "") by discriminate.
  exact (X9_voice_note_saved_and_played ∅ (BellSystem "" ∅ "" None None) net 1100 1101
           (audio_message "911" "M1") st "+911" _ "https://cdn/x" "audio/mpeg"
           [MediaUrlRequested (Some "M1")]
           eq_refl Hne Hs eq_refl Hlive eq_refl eq_refl Hu eq_refl).
Defined.

(** ** The schedule table as a dict *)

Lemma dict_get_set_eq {V} (d : list (string * V)) (k : string) (v : V) :
  dict_get (dict_set d k v) k = Some v.
Proof.
  induction d as [| [k' v'] d IH]; simpl.
  - rewrite String.eqb_refl. reflexivity.
  - destruct (String.eqb k' k) eqn:E; simpl; rewrite E; [reflexivity | exact IH].
Qed.

Lemma dict_get_set_ne {V} (d : list (string * V)) (k k0 : string) (v : V) :
  k0 <> k -> dict_get (dict_set d k v) k0 = dict_get d k0.
Proof.
  intros Hne. induction d as [| [k' v'] d IH]; simpl.
  - apply not_eq_sym, String.eqb_neq in Hne. rewrite Hne. reflexivity.
  - destruct (String.eqb k' k) eqn:E; simpl.
    + apply String.eqb_eq in E. subst k'.
      apply not_eq_sym, String.eqb_neq in Hne. rewrite Hne. reflexivity.
    + rewrite IH. reflexivity.
Qed.

Lemma dict_get_None_keys {V} (d : list (string * V)) (k : string) :
  dict_get d k = None <-> ~ In k (map fst d).
Proof.
  induction d as [| [k' v'] d IH]; simpl; [tauto |].
  destruct (String.eqb k' k) eqn:E.
  - apply String.eqb_eq in E. split; [discriminate | tauto].
  - apply String.eqb_neq in E. rewrite IH. tauto.
Qed.

Lemma dict_set_keys {V} (d : list (string * V)) (k : string) (v : V) :
  map fst (dict_set d k v)
  = match dict_get d k with
    | Some _ => map fst d
    | None => map fst d ++ [k]
    end.
Proof.
  induction d as [| [k' v'] d IH]; simpl; [reflexivity |].
  destruct (String.eqb k' k) eqn:E; simpl; [reflexivity |].
  rewrite IH. destruct (dict_get d k); reflexivity.
Qed.

Lemma dict_get_del_ne {V} (d : list (string * V)) (k k0 : string) :
  k0 <> k -> dict_get (dict_del d k) k0 = dict_get d k0.
Proof.
  intros Hne. induction d as [| [k' v'] d IH]; simpl; [reflexivity |].
  destruct (String.eqb k' k) eqn:E; simpl.
  - apply String.eqb_eq in E. subst k'.
    apply not_eq_sym, String.eqb_neq in Hne. rewrite Hne. reflexivity.
  - rewrite IH. reflexivity.
Qed.

Lemma dict_get_del_eq {V} (d : list (string * V)) (k : string) :
  List.NoDup (map fst d) -> dict_get (dict_del d k) k = None.
Proof.
  induction d as [| [k' v'] d IH]; simpl; [reflexivity |].
  intros Hnd. apply List.NoDup_cons_iff in Hnd as [Hk Hnd].
  destruct (String.eqb k' k) eqn:E; simpl.
  - apply String.eqb_eq in E. subst k'. apply dict_get_None_keys. exact Hk.
  - rewrite E. apply IH, Hnd.
Qed.

Lemma dict_del_keys_subset {V} (d : list (string * V)) (k k0 : string) :
  In k0 (map fst (dict_del d k)) -> In k0 (map fst d).
Proof.
  induction d as [| [k' v'] d IH]; simpl; [tauto |].
  destruct (String.eqb k' k); simpl; tauto.
Qed.

Lemma dict_del_NoDup {V} (d : list (string * V)) (k : string) :
  List.NoDup (map fst d) -> List.NoDup (map fst (dict_del d k)).
Proof.
  induction d as [| [k' v'] d IH]; simpl; [auto |].
  intros Hnd. apply List.NoDup_cons_iff in Hnd as [Hk Hnd].
  destruct (String.eqb k' k); simpl; [exact Hnd |].
  apply List.NoDup_cons_iff. split; [| apply IH, Hnd].
  intros Hin. apply Hk. eapply dict_del_keys_subset, Hin.
Qed.

Lemma dict_set_NoDup {V} (d : list (string * V)) (k : string) (v : V) :
  List.NoDup (map fst d) -> List.NoDup (map fst (dict_set d k v)).
Proof.
  intros Hnd. rewrite dict_set_keys. destruct (dict_get d k) eqn:E; [exact Hnd |].
  apply dict_get_None_keys in E.
  apply List.NoDup_app; [exact Hnd | |].
  - constructor; [simpl; tauto | constructor].
  - intros x Hx [<- | []]. apply E, Hx.
Qed.

(** ** Parsing a schedule command *)

Lemma strip_prefixed (c : ascii) (p ARG : string) :
  Py.isspace c = false ->
  Py.strip ARG <> "" ->
  Py.strip (String c p +:+ ARG) = String c p +:+ Py.rstrip ARG.
Proof.
  intros Hc HN.
  assert (Hr : Py.rstrip ARG <> "").
  { intros E. apply HN. unfold Py.strip. rewrite <- lstrip_rstrip, E. reflexivity. }
  unfold Py.strip.
  change (String c p +:+ ARG) with (String c (p +:+ ARG)).
  change (Py.lstrip (String c (p +:+ ARG)))
    with (if Py.isspace c then Py.lstrip (p +:+ ARG) else String c (p +:+ ARG)).
  rewrite Hc.
  change (String c (p +:+ ARG)) with (String c p +:+ ARG).
  apply rstrip_app. exact Hr.
Qed.

Lemma split_schedule_create (X : string) :
  Py.lstrip X <> "" ->
  Py.split_max 2 ("/schedule create " +:+ X) = ["/schedule"; "create"; Py.lstrip X].
Proof.
  intros HX.
  assert (E : Py.split_max 2 ("/schedule create " +:+ X)
              = "/schedule" :: "create" ::
                match Py.lstrip X with
                | EmptyString => []
                | String a b => [String a b]
                end)
    by reflexivity.
  rewrite E. destruct (Py.lstrip X); [congruence | reflexivity].
Qed.

Lemma split_schedule_delete (X : string) :
  Py.lstrip X <> "" ->
  Py.split_max 2 ("/schedule delete " +:+ X) = ["/schedule"; "delete"; Py.lstrip X].
Proof.
  intros HX.
  assert (E : Py.split_max 2 ("/schedule delete " +:+ X)
              = "/schedule" :: "delete" ::
                match Py.lstrip X with
                | EmptyString => []
                | String a b => [String a b]
                end)
    by reflexivity.
  rewrite E. destruct (Py.lstrip X); [congruence | reflexivity].
Qed.

Lemma split_schedule_rename (X : string) :
  Py.lstrip X <> "" ->
  Py.split_max 2 ("/schedule rename " +:+ X) = ["/schedule"; "rename"; Py.lstrip X].
Proof.
  intros HX.
  assert (E : Py.split_max 2 ("/schedule rename " +:+ X)
              = "/schedule" :: "rename" ::
                match Py.lstrip X with
                | EmptyString => []
                | String a b => [String a b]
                end)
    by reflexivity.
  rewrite E. destruct (Py.lstrip X); [congruence | reflexivity].
Qed.

Lemma split_sep1_two (c : ascii) (s a b : string) :
  Py.split_sep1 c s = [a; b] -> Py.contains c s = true.
Proof.
  revert a. induction s as [| d s IH]; intros a; simpl; [discriminate |].
  destruct (Ascii.eqb d c); [reflexivity |]. simpl.
  destruct (Py.split_sep1 c s) as [| w [| w2 [| w3 ws]]] eqn:E; try discriminate.
  intros [= <- <-]. apply (IH w). reflexivity.
Qed.

Lemma split_sep1_none (c : ascii) (s : string) :
  Py.contains c s = false -> Py.split_sep1 c s = [s].
Proof.
  induction s as [| d s IH]; simpl; [reflexivity |].
  destruct (Ascii.eqb d c); [discriminate |]. simpl. intros H. rewrite (IH H). reflexivity.
Qed.

(** A developer's text that starts with [/schedule] reaches the schedule
    block. *)
Lemma schedule_dispatch AUTH sys now sender body st :
  get_role AUTH sender = "developer" ->
  Py.startswith (Py.strip body) "/schedule" = true ->
  handle_slash_command AUTH sys now sender body st
  = schedule_command sender (Py.strip body) st.
Proof.
  intros Hd Hp. split_prefix Hp r.
  unfold handle_slash_command. rewrite E, Hp, Hd. reflexivity.
Qed.

Lemma process_schedule AUTH sys net t_get t_set msg st sender :
  normalize_number (msg_from msg) = Some sender ->
  sender <> "" ->
  SESSIONS st !! sender = None ->
  get_role AUTH sender = "developer" ->
  msg_type msg = Some "text" ->
  Py.startswith (Py.strip (text_body msg)) "/schedule" = true ->
  process_incoming_message AUTH sys net t_get t_set msg st
  = schedule_command sender (Py.strip (text_body msg)) st.
Proof.
  intros Hn Hne Hs Hd Ht Hp.
  rewrite (process_idle_slash AUTH sys net t_get t_set msg st sender);
    try assumption; [| apply (startswith_slash _ _ Hp); reflexivity].
  rewrite (schedule_dispatch AUTH sys t_set sender _ st Hd)
    by (rewrite strip_idem; exact Hp).
  rewrite strip_idem. reflexivity.
Qed.

(** ** The times of a schedule *)

Lemma parse_times_clean (times : string) :
  Forall (fun t => t <> "" /\ Py.strip t = t) (parse_times times).
Proof.
  unfold parse_times. induction (Py.split_sep "," times) as [| t l IH]; [constructor |].
  rewrite filter_cons. case_decide as Ht; [| exact IH].
  simpl. constructor; [| exact IH].
  split; [| apply strip_idem].
  intros E. rewrite E in Ht. discriminate Ht.
Qed.

Lemma split_sep_whole (c : ascii) (s : string) :
  Py.contains c s = false -> Py.split_sep c s = [s].
Proof.
  induction s as [| d s IH]; simpl; [reflexivity |].
  destruct (Ascii.eqb d c); [discriminate |]. simpl. intros H. rewrite (IH H). reflexivity.
Qed.

Lemma split_sep_app (c : ascii) (a rest : string) :
  Py.contains c a = false ->
  Py.split_sep c (a +:+ String c rest) = a :: Py.split_sep c rest.
Proof.
  induction a as [| d a IH]; intros Ha.
  - change ("" +:+ String c rest) with (String c rest). simpl.
    rewrite Ascii.eqb_refl. reflexivity.
  - change (String d a +:+ String c rest) with (String d (a +:+ String c rest)).
    simpl in Ha |- *. destruct (Ascii.eqb d c); [discriminate |]. simpl in Ha.
    rewrite (IH Ha). reflexivity.
Qed.

Lemma split_sep_join (c : ascii) (t : string) (ts : list string) :
  Forall (fun x => Py.contains c x = false) (t :: ts) ->
  Py.split_sep c (Py.join (String c EmptyString) (t :: ts)) = t :: ts.
Proof.
  revert t. induction ts as [| t' ts IH]; intros t Hall.
  - simpl. apply split_sep_whole. inversion Hall; assumption.
  - inversion Hall as [| ? ? Ht Hrest]; subst.
    change (Py.join (String c EmptyString) (t :: t' :: ts))
      with (t +:+ (String c EmptyString +:+ Py.join (String c EmptyString) (t' :: ts))).
    change (String c EmptyString +:+ Py.join (String c EmptyString) (t' :: ts))
      with (String c (Py.join (String c EmptyString) (t' :: ts))).
    rewrite (split_sep_app c t _ Ht), (IH t' Hrest). reflexivity.
Qed.

(** X10.  The times of a schedule are the comma-separated tokens of the
    text, each without its surrounding blanks, and tokens that are blank
    are left out: no stored time is empty or carries blanks at its ends.
    Tokens that are already clean (not empty, no surrounding blanks, no
    comma) come back exactly as they were joined, in the same order. *)
Theorem X10_parse_times
    (times : string) (ts : list string) :
  Forall (fun t => t <> "" /\ Py.strip t = t) (parse_times times)
  /\ (Forall (fun t => t <> "" /\ Py.strip t = t /\ Py.contains "," t = false) ts ->
      parse_times (Py.join "," ts) = ts).
Proof.
  split; [apply parse_times_clean |].
  intros Hall. unfold parse_times.
  destruct ts as [| t ts]; [reflexivity |].
  rewrite split_sep_join
    by (eapply Forall_impl; [exact Hall |]; intros x (_ & _ & Hx); exact Hx).
  induction Hall as [| x l (Hne & Hs & _) _ IH]; [reflexivity |].
  rewrite filter_cons. case_decide as Hd.
  - simpl. rewrite Hs. f_equal. exact IH.
  - exfalso. apply Hd. rewrite Hs. destruct x; [congruence | reflexivity].
Qed.

Lemma X10_parse_times_witness :
  parse_times (Py.join "," ["08:30"; "09:30"; "12:00"]) = ["08:30"; "09:30"; "12:00"].
Proof.
  destruct (X10_parse_times "" ["08:30"; "09:30"; "12:00"]) as [_ H].
  apply H. repeat constructor; discriminate.
Defined.

(** ** The schedule commands of a developer *)

Lemma schedule_create_parts sender lower c0 p2 name times st :
  Py.split_max 2 lower = [c0; "create"; p2] ->
  Py.split_sep1 "|" p2 = [name; times] ->
  schedule_command sender lower st
  = (Returned tt,
     Store (SESSIONS st) (dict_set (BELL_SCHEDULES st) (Py.strip name) (parse_times times)),
     [Sent sender ("Schedule '" +:+ Py.strip name +:+ "' created.")]).
Proof.
  intros Hparts Hsplit. pose proof (split_sep1_two _ _ _ _ Hsplit) as Hc.
  unfold schedule_command. rewrite Hparts.
  unfold bind, item, ret. simpl. rewrite Hc, Hsplit. reflexivity.
Qed.

Lemma schedule_create_usage sender lower c0 p2 st :
  Py.split_max 2 lower = [c0; "create"; p2] ->
  Py.contains "|" p2 = false ->
  schedule_command sender lower st
  = (Returned tt, st, [Sent sender "Use: /schedule create NAME|HH:MM,HH:MM"]).
Proof.
  intros Hparts Hc.
  unfold schedule_command. rewrite Hparts.
  unfold bind, item, ret. simpl. rewrite Hc. reflexivity.
Qed.

Lemma schedule_delete_parts sender lower c0 p2 st :
  Py.split_max 2 lower = [c0; "delete"; p2] ->
  schedule_command sender lower st
  = (Returned tt,
     Store (SESSIONS st) (dict_del (BELL_SCHEDULES st) (Py.strip p2)),
     [Sent sender ("Deleted schedule '" +:+ Py.strip p2 +:+ "'.")]).
Proof.
  intros Hparts. unfold schedule_command. rewrite Hparts. reflexivity.
Qed.

Lemma schedule_rename_parts sender lower c0 p2 old new st :
  Py.split_max 2 lower = [c0; "rename"; p2] ->
  Py.split_sep1 "|" p2 = [old; new] ->
  schedule_command sender lower st
  = match dict_get (BELL_SCHEDULES st) (Py.strip old) with
    | None => (Raised KeyError, st, [])
    | Some v =>
        (Returned tt,
         Store (SESSIONS st)
           (dict_set (dict_del (BELL_SCHEDULES st) (Py.strip old)) (Py.strip new) v),
         [Sent sender ("Renamed '" +:+ Py.strip old +:+ "' -> '" +:+ Py.strip new +:+ "'")])
    end.
Proof.
  intros Hparts Hsplit. pose proof (split_sep1_two _ _ _ _ Hsplit) as Hc.
  unfold schedule_command. rewrite Hparts.
  unfold bind, item, ret. simpl. rewrite Hc, Hsplit.
  unfold rename_schedule, bind, read, write, raise. simpl.
  destruct (dict_get (BELL_SCHEDULES st) (Py.strip old)); reflexivity.
Qed.

Lemma process_schedule_create AUTH sys net t_get t_set msg st sender ARG name times :
  normalize_number (msg_from msg) = Some sender ->
  sender <> "" ->
  SESSIONS st !! sender = None ->
  get_role AUTH sender = "developer" ->
  msg_type msg = Some "text" ->
  text_body msg = "/schedule create " +:+ ARG ->
  Py.strip ARG <> "" ->
  Py.split_sep1 "|" (Py.strip ARG) = [name; times] ->
  process_incoming_message AUTH sys net t_get t_set msg st
  = (Returned tt,
     Store (SESSIONS st) (dict_set (BELL_SCHEDULES st) (Py.strip name) (parse_times times)),
     [Sent sender ("Schedule '" +:+ Py.strip name +:+ "' created.")]).
Proof.
  intros Hn Hne Hs Hd Ht Hb HN Hsplit.
  assert (Hlow : Py.strip (text_body msg) = "/schedule create " +:+ Py.rstrip ARG).
  { rewrite Hb. apply (strip_prefixed "/" "schedule create " ARG eq_refl HN). }
  assert (Hparts : Py.split_max 2 (Py.strip (text_body msg))
                   = ["/schedule"; "create"; Py.strip ARG]).
  { rewrite Hlow, split_schedule_create by (rewrite lstrip_rstrip; exact HN).
    rewrite lstrip_rstrip. reflexivity. }
  assert (Hp : Py.startswith (Py.strip (text_body msg)) "/schedule" = true).
  { rewrite Hlow. apply startswith_app. exists (" create " +:+ Py.rstrip ARG).
    reflexivity. }
  rewrite (process_schedule AUTH sys net t_get t_set msg st sender Hn Hne Hs Hd Ht Hp).
  eapply schedule_create_parts; eassumption.
Qed.

(** X11.  A developer without a pending session sends
    [/schedule create ARG].  When [ARG], without its surrounding blanks,
    holds no bar, the reply is the usage line and the table is unchanged.
    Otherwise the text before the first bar, stripped, is the name and the
    text after it gives the times: the table maps the name to those times
    (a name already present keeps its place, a new one goes last), the other
    names keep their times, and the reply confirms the name. *)
Theorem X11_schedule_create
    (AUTH : gmap string string) (sys : bell_system) (net : network)
    (t_get t_set : Q) (msg : message) (st : store) (sender ARG : string) :
  normalize_number (msg_from msg) = Some sender ->
  sender <> "" ->
  SESSIONS st !! sender = None ->
  get_role AUTH sender = "developer" ->
  msg_type msg = Some "text" ->
  text_body msg = "/schedule create " +:+ ARG ->
  Py.strip ARG <> "" ->
  let r := process_incoming_message AUTH sys net t_get t_set msg st in
  (Py.contains "|" (Py.strip ARG) = false ->
   r = (Returned tt, st, [Sent sender "Use: /schedule create NAME|HH:MM,HH:MM"]))
  /\ (forall name times,
        Py.split_sep1 "|" (Py.strip ARG) = [name; times] ->
        let table := dict_set (BELL_SCHEDULES st) (Py.strip name) (parse_times times) in
        r = (Returned tt, Store (SESSIONS st) table,
             [Sent sender ("Schedule '" +:+ Py.strip name +:+ "' created.")])
        /\ dict_get table (Py.strip name) = Some (parse_times times)
        /\ (forall other, other <> Py.strip name ->
              dict_get table other = dict_get (BELL_SCHEDULES st) other)
        /\ map fst table
           = match dict_get (BELL_SCHEDULES st) (Py.strip name) with
             | Some _ => map fst (BELL_SCHEDULES st)
             | None => map fst (BELL_SCHEDULES st) ++ [Py.strip name]
             end).
Proof.
  intros Hn Hne Hs Hd Ht Hb HN r.
  assert (Hlow : Py.strip (text_body msg) = "/schedule create " +:+ Py.rstrip ARG).
  { rewrite Hb. apply (strip_prefixed "/" "schedule create " ARG eq_refl HN). }
  assert (Hparts : Py.split_max 2 (Py.strip (text_body msg))
                   = ["/schedule"; "create"; Py.strip ARG]).
  { rewrite Hlow, split_schedule_create by (rewrite lstrip_rstrip; exact HN).
    rewrite lstrip_rstrip. reflexivity. }
  assert (Hr : r = schedule_command sender (Py.strip (text_body msg)) st).
  { unfold r. apply process_schedule; try assumption.
    rewrite Hlow. apply startswith_app. exists (" create " +:+ Py.rstrip ARG). reflexivity. }
  split.
  - intros Hc. rewrite Hr. eapply schedule_create_usage; eassumption.
  - intros name times Hsplit table. split; [| split; [| split]].
    + rewrite Hr. eapply schedule_create_parts; eassumption.
    + apply dict_get_set_eq.
    + intros other Ho. apply dict_get_set_ne. exact Ho.
    + apply dict_set_keys.
Qed.

Lemma X11_schedule_create_witness :
  let AUTH : gmap string string := {[ "+911" := "developer" ]} in
  let st := Store ∅ [("Regular Day", ["08:30"; "09:30"])] in
  process_incoming_message AUTH (BellSystem "" ∅ "" None None)
    (Network None (fun _ => MetaResponse 404 None None) (fun _ => 404%Z))
    1000 1001 (text_message "911" "/schedule create Sports Day | 09:00, 10:15,") st
  = (Returned tt,
     Store ∅ [("Regular Day", ["08:30"; "09:30"]); ("Sports Day", ["09:00"; "10:15"])],
     [Sent "+911" "Schedule 'Sports Day' created."]).
Proof.
  intros AUTH st.
  assert (Hne : "+911" <> "") by discriminate.
  assert (Hs : SESSIONS st !! "+911" = None) by (vm_compute; reflexivity).
  assert (Hd : get_role AUTH "+911" = "developer") by (vm_compute; reflexivity).
  assert (HN : Py.strip "Sports Day | 09:00, 10:15," <> "") by (vm_compute; discriminate).
  destruct (X11_schedule_create AUTH (BellSystem "" ∅ "" None None)
              (Network None (fun _ => MetaResponse 404 None None) (fun _ => 404%Z))
              1000 1001 (text_message "911" "/schedule create Sports Day | 09:00, 10:15,")
              st "+911" "Sports Day | 09:00, 10:15," eq_refl Hne Hs Hd eq_refl eq_refl HN)
    as [_ H].
  destruct (H "Sports Day " " 09:00, 10:15," eq_refl) as [Hr _].
  exact Hr.
Defined.

(** X12.  A developer without a pending session sends
    [/schedule delete NAME]: the reply confirms the deletion whether or not
    the table had the name, the other names keep their times, and in a table
    of distinct names the name is gone afterwards, so [get_schedule] returns
    the empty list for it. *)
Theorem X12_schedule_delete
    (AUTH : gmap string string) (sys : bell_system) (net : network)
    (t_get t_set : Q) (msg : message) (st : store) (sender NAME : string) :
  normalize_number (msg_from msg) = Some sender ->
  sender <> "" ->
  SESSIONS st !! sender = None ->
  get_role AUTH sender = "developer" ->
  msg_type msg = Some "text" ->
  text_body msg = "/schedule delete " +:+ NAME ->
  Py.strip NAME <> "" ->
  let r := process_incoming_message AUTH sys net t_get t_set msg st in
  let table := dict_del (BELL_SCHEDULES st) (Py.strip NAME) in
  r = (Returned tt, Store (SESSIONS st) table,
       [Sent sender ("Deleted schedule '" +:+ Py.strip NAME +:+ "'.")])
  /\ (forall other, other <> Py.strip NAME ->
        dict_get table other = dict_get (BELL_SCHEDULES st) other)
  /\ (List.NoDup (map fst (BELL_SCHEDULES st)) ->
      get_schedule (Py.strip NAME) (store_of r) = (Returned [], store_of r, [])).
Proof.
  intros Hn Hne Hs Hd Ht Hb HN r table.
  assert (Hlow : Py.strip (text_body msg) = "/schedule delete " +:+ Py.rstrip NAME).
  { rewrite Hb. apply (strip_prefixed "/" "schedule delete " NAME eq_refl HN). }
  assert (Hparts : Py.split_max 2 (Py.strip (text_body msg))
                   = ["/schedule"; "delete"; Py.strip NAME]).
  { rewrite Hlow, split_schedule_delete by (rewrite lstrip_rstrip; exact HN).
    rewrite lstrip_rstrip. reflexivity. }
  assert (Hr : r = (Returned tt, Store (SESSIONS st) table,
                    [Sent sender ("Deleted schedule '" +:+ Py.strip NAME +:+ "'.")])).
  { assert (Hp : Py.startswith (Py.strip (text_body msg)) "/schedule" = true).
    { rewrite Hlow. apply startswith_app. exists (" delete " +:+ Py.rstrip NAME).
      reflexivity. }
    unfold r.
    rewrite (process_schedule AUTH sys net t_get t_set msg st sender Hn Hne Hs Hd Ht Hp).
    rewrite (schedule_delete_parts sender _ _ _ st Hparts), strip_idem. reflexivity. }
  split; [exact Hr |]. split.
  - intros other Ho. apply dict_get_del_ne. exact Ho.
  - intros Hnd. rewrite Hr. unfold store_of, get_schedule, read. simpl.
    unfold table. rewrite (dict_get_del_eq _ _ Hnd). reflexivity.
Qed.

Lemma X12_schedule_delete_witness :
  let AUTH : gmap string string := {[ "+911" := "developer" ]} in
  let st := Store ∅ [("Regular Day", ["08:30"; "09:30"]); ("Exam Day", ["10:00"])] in
  process_incoming_message AUTH (BellSystem "" ∅ "" None None)
    (Network None (fun _ => MetaResponse 404 None None) (fun _ => 404%Z))
    1000 1001 (text_message "911" "/schedule delete Regular Day") st
  = (Returned tt, Store ∅ [("Exam Day", ["10:00"])],
     [Sent "+911" "Deleted schedule 'Regular Day'."]).
Proof.
  intros AUTH st.
  assert (Hne : "+911" <> "") by discriminate.
  assert (Hs : SESSIONS st !! "+911" = None) by (vm_compute; reflexivity).
  assert (Hd : get_role AUTH "+911" = "developer") by (vm_compute; reflexivity).
  assert (HN : Py.strip "Regular Day" <> "") by (vm_compute; discriminate).
  destruct (X12_schedule_delete AUTH (BellSystem "" ∅ "" None None)
              (Network None (fun _ => MetaResponse 404 None None) (fun _ => 404%Z))
              1000 1001 (text_message "911" "/schedule delete Regular Day")
              st "+911" "Regular Day" eq_refl Hne Hs Hd eq_refl eq_refl HN)
    as [Hr _].
  exact Hr.
Defined.

(** X13.  A developer without a pending session sends
    [/schedule rename ARG], where [ARG], stripped, splits at its first bar
    into the old and the new name.  When the table has no schedule of the
    old name, the handler raises [KeyError]: no reply is sent and the table
    is unchanged.  Otherwise the times move to the new name and the reply
    names both. *)
Theorem X13_schedule_rename
    (AUTH : gmap string string) (sys : bell_system) (net : network)
    (t_get t_set : Q) (msg : message) (st : store) (sender ARG old new : string) :
  normalize_number (msg_from msg) = Some sender ->
  sender <> "" ->
  SESSIONS st !! sender = None ->
  get_role AUTH sender = "developer" ->
  msg_type msg = Some "text" ->
  text_body msg = "/schedule rename " +:+ ARG ->
  Py.strip ARG <> "" ->
  Py.split_sep1 "|" (Py.strip ARG) = [old; new] ->
  let r := process_incoming_message AUTH sys net t_get t_set msg st in
  (dict_get (BELL_SCHEDULES st) (Py.strip old) = None ->
   r = (Raised KeyError, st, []))
  /\ (forall times,
        dict_get (BELL_SCHEDULES st) (Py.strip old) = Some times ->
        let table :=
          dict_set (dict_del (BELL_SCHEDULES st) (Py.strip old)) (Py.strip new) times in
        r = (Returned tt, Store (SESSIONS st) table,
             [Sent sender
                ("Renamed '" +:+ Py.strip old +:+ "' -> '" +:+ Py.strip new +:+ "'")])
        /\ dict_get table (Py.strip new) = Some times
        /\ (List.NoDup (map fst (BELL_SCHEDULES st)) ->
            Py.strip old <> Py.strip new ->
            dict_get table (Py.strip old) = None)).
Proof.
  intros Hn Hne Hs Hd Ht Hb HN Hsplit r.
  assert (Hlow : Py.strip (text_body msg) = "/schedule rename " +:+ Py.rstrip ARG).
  { rewrite Hb. apply (strip_prefixed "/" "schedule rename " ARG eq_refl HN). }
  assert (Hparts : Py.split_max 2 (Py.strip (text_body msg))
                   = ["/schedule"; "rename"; Py.strip ARG]).
  { rewrite Hlow, split_schedule_rename by (rewrite lstrip_rstrip; exact HN).
    rewrite lstrip_rstrip. reflexivity. }
  assert (Hr : r = schedule_command sender (Py.strip (text_body msg)) st).
  { unfold r. apply process_schedule; try assumption.
    rewrite Hlow. apply startswith_app. exists (" rename " +:+ Py.rstrip ARG). reflexivity. }
  rewrite Hr, (schedule_rename_parts sender _ _ _ old new st Hparts Hsplit).
  split.
  - intros ->. reflexivity.
  - intros times ->. intros table. split; [reflexivity |]. split.
    + apply dict_get_set_eq.
    + intros Hnd Hon. unfold table. rewrite dict_get_set_ne by exact Hon.
      apply dict_get_del_eq. exact Hnd.
Qed.

Lemma X13_schedule_rename_witness :
  let AUTH : gmap string string := {[ "+911" := "developer" ]} in
  let st := Store ∅ [("Regular Day", ["08:30"; "09:30"])] in
  let sys := BellSystem "" ∅ "" None None in
  let net := Network None (fun _ => MetaResponse 404 None None) (fun _ => 404%Z) in
  process_incoming_message AUTH sys net 1000 1001
    (text_message "911" "/schedule rename Exam Day|Test Day") st
  = (Raised KeyError, st, [])
  /\ process_incoming_message AUTH sys net 1000 1001
       (text_message "911" "/schedule rename Regular Day|Normal Day") st
     = (Returned tt, Store ∅ [("Normal Day", ["08:30"; "09:30"])],
        [Sent "+911" "Renamed 'Regular Day' -> 'Normal Day'"]).
Proof.
  intros AUTH st sys net.
  assert (Hne : "+911" <> "") by discriminate.
  assert (Hs : SESSIONS st !! "+911" = None) by (vm_compute; reflexivity).
  assert (Hd : get_role AUTH "+911" = "developer") by (vm_compute; reflexivity).
  split.
  - assert (HN : Py.strip "Exam Day|Test Day" <> "") by (vm_compute; discriminate).
    destruct (X13_schedule_rename AUTH sys net 1000 1001
                (text_message "911" "/schedule rename Exam Day|Test Day") st "+911"
                "Exam Day|Test Day" "Exam Day" "Test Day"
                eq_refl Hne Hs Hd eq_refl eq_refl HN eq_refl) as [H _].
    apply H. reflexivity.
  - assert (HN : Py.strip "Regular Day|Normal Day" <> "") by (vm_compute; discriminate).
    destruct (X13_schedule_rename AUTH sys net 1000 1001
                (text_message "911" "/schedule rename Regular Day|Normal Day") st "+911"
                "Regular Day|Normal Day" "Regular Day" "Normal Day"
                eq_refl Hne Hs Hd eq_refl eq_refl HN eq_refl) as [_ H].
    destruct (H ["08:30"; "09:30"] eq_refl) as [Hr _]. exact Hr.
Defined.

(** ** Starting a saved schedule *)

Lemma process_bellmode_use AUTH sys net t_get t_set msg st sender NAME :
  normalize_number (msg_from msg) = Some sender ->
  sender <> "" ->
  SESSIONS st !! sender = None ->
  get_role AUTH sender = "teacher" \/ get_role AUTH sender = "developer" ->
  msg_type msg = Some "text" ->
  text_body msg = "/bellmode use " +:+ NAME ->
  Py.strip NAME <> "" ->
  process_incoming_message AUTH sys net t_get t_set msg st
  = match default [] (dict_get (BELL_SCHEDULES st) (Py.strip NAME)) with
    | [] =>
        (Returned tt, st,
         [Sent sender ("Schedule '" +:+ Py.strip NAME +:+ "' not found.")])
    | sched =>
        (Returned tt, st,
         [Started [ringBell sched false];
          Sent sender ("Started schedule '" +:+ Py.strip NAME +:+ "'")])
    end.
Proof.
  intros Hn Hne Hs Hrole Ht Hb HN.
  assert (Hsl : Py.startswith (Py.strip (text_body msg)) "/" = true).
  { rewrite Hb, (strip_bellmode_use NAME HN). apply startswith_app.
    exists ("bellmode use " +:+ Py.rstrip NAME). reflexivity. }
  rewrite (process_idle_slash AUTH sys net t_get t_set msg st sender Hn Hne Hs Ht Hsl).
  rewrite Hb. apply bellmode_use_run; assumption.
Qed.

(** X14.  A teacher or developer without a pending session sends
    [/bellmode use NAME] for a name that the table maps to at least one
    time: one thread is started that rings exactly the times of the table,
    in their order and not for today only; the reply names the schedule and
    the store is unchanged. *)
Theorem X14_bellmode_use_rings_the_schedule
    (AUTH : gmap string string) (sys : bell_system) (net : network)
    (t_get t_set : Q) (msg : message) (st : store) (sender NAME : string)
    (t : string) (ts : list string) :
  normalize_number (msg_from msg) = Some sender ->
  sender <> "" ->
  SESSIONS st !! sender = None ->
  get_role AUTH sender = "teacher" \/ get_role AUTH sender = "developer" ->
  msg_type msg = Some "text" ->
  text_body msg = "/bellmode use " +:+ NAME ->
  Py.strip NAME <> "" ->
  dict_get (BELL_SCHEDULES st) (Py.strip NAME) = Some (t :: ts) ->
  process_incoming_message AUTH sys net t_get t_set msg st
  = (Returned tt, st,
     [Started [ringBell (t :: ts) false];
      Sent sender ("Started schedule '" +:+ Py.strip NAME +:+ "'")]).
Proof.
  intros Hn Hne Hs Hrole Ht Hb HN Hd.
  rewrite (process_bellmode_use AUTH sys net t_get t_set msg st sender NAME
             Hn Hne Hs Hrole Ht Hb HN), Hd.
  reflexivity.
Qed.

Lemma X14_bellmode_use_rings_the_schedule_witness :
  let st := Store ∅ [("Regular Day", ["08:30"; "09:30"])] in
  process_incoming_message ∅ (BellSystem "" ∅ "" None None)
    (Network None (fun _ => MetaResponse 404 None None) (fun _ => 404%Z))
    1000 1001 (text_message "919812345678" "/bellmode use  Regular Day ") st
  = (Returned tt, st,
     [Started [ringBell ["08:30"; "09:30"] false];
      Sent "+919812345678" "Started schedule 'Regular Day'"]).
Proof.
  intros st.
  assert (Hne : "+919812345678" <> "") by discriminate.
  assert (Hs : SESSIONS st !! "+919812345678" = None) by (vm_compute; reflexivity).
  assert (Hrole : get_role ∅ "+919812345678" = "teacher"
                  \/ get_role ∅ "+919812345678" = "developer")
    by (left; vm_compute; reflexivity).
  assert (HN : Py.strip " Regular Day " <> "") by (vm_compute; discriminate).
  exact (X14_bellmode_use_rings_the_schedule ∅ (BellSystem "" ∅ "" None None)
           (Network None (fun _ => MetaResponse 404 None None) (fun _ => 404%Z))
           1000 1001 (text_message "919812345678" "/bellmode use  Regular Day ") st
           "+919812345678" " Regular Day " "08:30" ["09:30"]
           eq_refl Hne Hs Hrole eq_refl eq_refl HN eq_refl).
Defined.

(** X15.  A schedule that a developer creates can be started by a teacher
    or developer under the same name: the thread rings exactly the times
    that the create command stored.  When the create command gave no usable
    time (every token blank), the schedule is stored with no times and
    starting it answers that the schedule is not found. *)
Theorem X15_create_then_use
    (AUTH : gmap string string) (sys : bell_system) (net : network)
    (t1 t1' t2 t2' : Q) (msg1 msg2 : message) (st : store)
    (dev user ARG name times NAME : string) :
  normalize_number (msg_from msg1) = Some dev ->
  dev <> "" ->
  SESSIONS st !! dev = None ->
  get_role AUTH dev = "developer" ->
  msg_type msg1 = Some "text" ->
  text_body msg1 = "/schedule create " +:+ ARG ->
  Py.strip ARG <> "" ->
  Py.split_sep1 "|" (Py.strip ARG) = [name; times] ->
  normalize_number (msg_from msg2) = Some user ->
  user <> "" ->
  SESSIONS st !! user = None ->
  get_role AUTH user = "teacher" \/ get_role AUTH user = "developer" ->
  msg_type msg2 = Some "text" ->
  text_body msg2 = "/bellmode use " +:+ NAME ->
  Py.strip NAME <> "" ->
  Py.strip NAME = Py.strip name ->
  let r1 := process_incoming_message AUTH sys net t1 t1' msg1 st in
  let r2 := process_incoming_message AUTH sys net t2 t2' msg2 (store_of r1) in
  r2 = match parse_times times with
       | [] =>
           (Returned tt, store_of r1,
            [Sent user ("Schedule '" +:+ Py.strip name +:+ "' not found.")])
       | sched =>
           (Returned tt, store_of r1,
            [Started [ringBell sched false];
             Sent user ("Started schedule '" +:+ Py.strip name +:+ "'")])
       end.
Proof.
  intros Hn1 Hne1 Hs1 Hd Ht1 Hb1 HA Hsplit Hn2 Hne2 Hs2 Hrole Ht2 Hb2 HN Hsame r1 r2.
  assert (H1 : r1 = (Returned tt,
                     Store (SESSIONS st)
                       (dict_set (BELL_SCHEDULES st) (Py.strip name) (parse_times times)),
                     [Sent dev ("Schedule '" +:+ Py.strip name +:+ "' created.")])).
  { unfold r1. eapply process_schedule_create; eassumption. }
  unfold r2. rewrite H1. unfold store_of. simpl fst. simpl snd.
  rewrite (process_bellmode_use AUTH sys net t2 t2' msg2
             (Store (SESSIONS st)
                (dict_set (BELL_SCHEDULES st) (Py.strip name) (parse_times times)))
             user NAME Hn2 Hne2 Hs2 Hrole Ht2 Hb2 HN).
  simpl BELL_SCHEDULES. rewrite Hsame, dict_get_set_eq. reflexivity.
Qed.

Lemma X15_create_then_use_witness :
  let AUTH : gmap string string := {[ "+911" := "developer" ]} in
  let sys := BellSystem "" ∅ "" None None in
  let net := Network None (fun _ => MetaResponse 404 None None) (fun _ => 404%Z) in
  let r1 := process_incoming_message AUTH sys net 1000 1001
              (text_message "911" "/schedule create Sports Day|09:00,10:15") (Store ∅ []) in
  let r2 := process_incoming_message AUTH sys net 1010 1011
              (text_message "922" "/bellmode use Sports Day") (store_of r1) in
  r2 = (Returned tt, store_of r1,
        [Started [ringBell ["09:00"; "10:15"] false];
         Sent "+922" "Started schedule 'Sports Day'"]).
Proof.
  intros AUTH sys net r1 r2.
  assert (Hne1 : "+911" <> "") by discriminate.
  assert (Hne2 : "+922" <> "") by discriminate.
  assert (Hs1 : SESSIONS (Store ∅ []) !! "+911" = None) by (vm_compute; reflexivity).
  assert (Hs2 : SESSIONS (Store ∅ []) !! "+922" = None) by (vm_compute; reflexivity).
  assert (Hd : get_role AUTH "+911" = "developer") by (vm_compute; reflexivity).
  assert (Hrole : get_role AUTH "+922" = "teacher" \/ get_role AUTH "+922" = "developer")
    by (left; vm_compute; reflexivity).
  assert (HA : Py.strip "Sports Day|09:00,10:15" <> "") by (vm_compute; discriminate).
  assert (HN : Py.strip "Sports Day" <> "") by (vm_compute; discriminate).
  exact (X15_create_then_use AUTH sys net 1000 1001 1010 1011
           (text_message "911" "/schedule create Sports Day|09:00,10:15")
           (text_message "922" "/bellmode use Sports Day") (Store ∅ [])
           "+911" "+922" "Sports Day|09:00,10:15" "Sports Day" "09:00,10:15" "Sports Day"
           eq_refl Hne1 Hs1 Hd eq_refl eq_refl HA eq_refl
           eq_refl Hne2 Hs2 Hrole eq_refl eq_refl HN eq_refl).
Defined.

(** ** Lines of a text file *)

Lemma append_assoc (a b c : string) : (a +:+ b) +:+ c = a +:+ (b +:+ c).
Proof.
  induction a as [| x a IH]; [reflexivity |].
  change ((String x a +:+ b) +:+ c) with (String x ((a +:+ b) +:+ c)).
  change (String x a +:+ (b +:+ c)) with (String x (a +:+ (b +:+ c))).
  rewrite IH. reflexivity.
Qed.

Lemma splitlines_line (l rest : string) :
  PyText.one_line l = true ->
  PyText.splitlines (l +:+ nl +:+ rest) = l :: PyText.splitlines rest.
Proof.
  intros Hl. induction l as [| c l IH].
  - change ("" +:+ nl +:+ rest) with (String (ascii_of_nat 10) rest).
    destruct rest; reflexivity.
  - change (String c l +:+ nl +:+ rest) with (String c (l +:+ nl +:+ rest)).
    simpl in Hl. apply andb_true_iff in Hl as [Hc Hl]. apply negb_true_iff in Hc.
    change (PyText.splitlines (String c (l +:+ nl +:+ rest)))
      with (if PyText.is_linebreak c then
              match l +:+ nl +:+ rest with
              | String d s'' =>
                  if ((N_of_ascii c =? 13) && (N_of_ascii d =? 10))%N
                  then EmptyString :: PyText.splitlines s''
                  else EmptyString :: PyText.splitlines (l +:+ nl +:+ rest)
              | EmptyString => [EmptyString]
              end
            else
              match PyText.splitlines (l +:+ nl +:+ rest) with
              | [] => [String c EmptyString]
              | x :: ls => String c x :: ls
              end).
    rewrite Hc, (IH Hl). reflexivity.
Qed.

Lemma splitlines_whole (l : string) :
  PyText.one_line l = true -> l <> "" -> PyText.splitlines l = [l].
Proof.
  induction l as [| c l IH]; [congruence |].
  intros Hl _. simpl in Hl. apply andb_true_iff in Hl as [Hc Hl].
  apply negb_true_iff in Hc.
  change (PyText.splitlines (String c l))
    with (if PyText.is_linebreak c then
            match l with
            | String d s'' =>
                if ((N_of_ascii c =? 13) && (N_of_ascii d =? 10))%N
                then EmptyString :: PyText.splitlines s''
                else EmptyString :: PyText.splitlines l
            | EmptyString => [EmptyString]
            end
          else
            match PyText.splitlines l with
            | [] => [String c EmptyString]
            | x :: ls => String c x :: ls
            end).
  rewrite Hc. destruct l as [| d l]; [reflexivity |].
  rewrite (IH Hl) by discriminate. reflexivity.
Qed.

Lemma one_line_app (a b : string) :
  PyText.one_line (a +:+ b) = PyText.one_line a && PyText.one_line b.
Proof.
  induction a as [| c a IH]; [reflexivity |].
  change (String c a +:+ b) with (String c (a +:+ b)). simpl. rewrite IH.
  apply andb_assoc.
Qed.

(** ** X16: the credentials file *)

Lemma load_saved_wa_config (phone_id access_token : string) :
  PyText.one_line phone_id = true -> PyText.one_line access_token = true ->
  Py.strip phone_id = phone_id -> Py.strip access_token = access_token ->
  load_wa_config (Some (save_wa_config phone_id access_token))
  = [("PHONE_NUMBER_ID", Some phone_id); ("ACCESS_TOKEN", Some access_token)].
Proof.
  intros Hp Ht Hsp Hst. unfold load_wa_config, save_wa_config.
  assert (E : "PHONE_NUMBER_ID=" +:+ phone_id +:+ nl +:+ "ACCESS_TOKEN=" +:+ access_token +:+ nl
              = ("PHONE_NUMBER_ID=" +:+ phone_id) +:+ nl
                +:+ (("ACCESS_TOKEN=" +:+ access_token) +:+ nl +:+ "")).
  { rewrite !append_assoc. reflexivity. }
  rewrite E.
  rewrite splitlines_line by (rewrite one_line_app, Hp; reflexivity).
  rewrite splitlines_line by (rewrite one_line_app, Ht; reflexivity).
  assert (L1 : load_wa_line [("PHONE_NUMBER_ID", None); ("ACCESS_TOKEN", None)]
                 ("PHONE_NUMBER_ID=" +:+ phone_id)
               = [("PHONE_NUMBER_ID", Some (Py.strip phone_id)); ("ACCESS_TOKEN", None)])
    by reflexivity.
  assert (L2 : load_wa_line [("PHONE_NUMBER_ID", Some (Py.strip phone_id)); ("ACCESS_TOKEN", None)]
                 ("ACCESS_TOKEN=" +:+ access_token)
               = [("PHONE_NUMBER_ID", Some (Py.strip phone_id));
                  ("ACCESS_TOKEN", Some (Py.strip access_token))])
    by reflexivity.
  simpl fold_left. rewrite L1, L2, Hsp, Hst. reflexivity.
Qed.

(** X16.  What [save_wa_config] writes, [load_wa_config] reads back: for a
    phone number id and an access token that hold no line break and carry
    no blanks at their ends, loading the saved text gives exactly these two
    values (a value may hold the equals sign).  Without the file both
    entries are [None]. *)
Theorem X16_wa_config_round_trip (phone_id access_token : string) :
  load_wa_config None = [("PHONE_NUMBER_ID", None); ("ACCESS_TOKEN", None)]
  /\ (PyText.one_line phone_id = true -> PyText.one_line access_token = true ->
      Py.strip phone_id = phone_id -> Py.strip access_token = access_token ->
      load_wa_config (Some (save_wa_config phone_id access_token))
      = [("PHONE_NUMBER_ID", Some phone_id); ("ACCESS_TOKEN", Some access_token)]).
Proof.
  split; [reflexivity | apply load_saved_wa_config].
Qed.

Lemma X16_wa_config_round_trip_witness :
  load_wa_config (Some (save_wa_config "104857600123" "EAAG=x9 z"))
  = [("PHONE_NUMBER_ID", Some "104857600123"); ("ACCESS_TOKEN", Some "EAAG=x9 z")].
Proof.
  destruct (X16_wa_config_round_trip "104857600123" "EAAG=x9 z") as [_ H].
  apply H; reflexivity.
Defined.

(** ** Texts without blanks at their ends *)

Lemma lstrip_length (s : string) : String.length (Py.lstrip s) <= String.length s.
Proof.
  induction s as [| c s IH]; simpl; [lia |].
  destruct (Py.isspace c); simpl; lia.
Qed.

Lemma rstrip_length (s : string) : String.length (Py.rstrip s) <= String.length s.
Proof.
  induction s as [| c s IH]; simpl; [lia |].
  destruct (Py.rstrip s); [destruct (Py.isspace c) |]; simpl in *; lia.
Qed.

Lemma lstrip_same_length (s : string) :
  String.length (Py.lstrip s) = String.length s -> Py.lstrip s = s.
Proof.
  destruct s as [| c s]; [reflexivity |]. simpl.
  destruct (Py.isspace c); [| reflexivity].
  pose proof (lstrip_length s). simpl. lia.
Qed.

Lemma strip_fixed (s : string) :
  Py.strip s = s -> Py.lstrip s = s /\ Py.rstrip s = s.
Proof.
  intros H. unfold Py.strip in H.
  assert (Hl : Py.lstrip s = s).
  { apply lstrip_same_length.
    pose proof (rstrip_length (Py.lstrip s)). pose proof (lstrip_length s).
    rewrite H in *. lia. }
  rewrite Hl in H. auto.
Qed.

Lemma lstrip_app_fixed (a b : string) :
  a <> "" -> Py.lstrip a = a -> Py.lstrip (a +:+ b) = a +:+ b.
Proof.
  destruct a as [| c a]; [congruence |]. intros _ H.
  change (String c a +:+ b) with (String c (a +:+ b)).
  simpl in *. destruct (Py.isspace c); [| reflexivity].
  exfalso. pose proof (lstrip_length a) as Hlen. rewrite H in Hlen. simpl in Hlen. lia.
Qed.

(** ** X17: the file of authorized numbers *)

Lemma contains_app (c : ascii) (a b : string) :
  Py.contains c a = false -> Py.contains c (a +:+ String c b) = true.
Proof.
  induction a as [| d a IH]; intros Ha.
  - change ("" +:+ String c b) with (String c b). simpl.
    rewrite Ascii.eqb_refl. reflexivity.
  - change (String d a +:+ String c b) with (String d (a +:+ String c b)).
    simpl in *. destruct (Ascii.eqb d c); [discriminate |]. simpl in *. apply IH, Ha.
Qed.

Lemma split_sep1_app (c : ascii) (a b : string) :
  Py.contains c a = false -> Py.split_sep1 c (a +:+ String c b) = [a; b].
Proof.
  induction a as [| d a IH]; intros Ha.
  - change ("" +:+ String c b) with (String c b). simpl.
    rewrite Ascii.eqb_refl. reflexivity.
  - change (String d a +:+ String c b) with (String d (a +:+ String c b)).
    simpl in *. destruct (Ascii.eqb d c); [discriminate |]. simpl in *.
    rewrite (IH Ha). reflexivity.
Qed.

Lemma strip_entry_line (e : string * string) :
  storable e -> Py.strip (e.1 +:+ ":" +:+ e.2) = e.1 +:+ ":" +:+ e.2.
Proof.
  intros (H1 & H2 & _). apply strip_fixed in H1 as [Hl1 _].
  apply strip_fixed in H2 as [_ Hr2].
  assert (Hr : Py.rstrip (":" +:+ e.2) = ":" +:+ e.2).
  { change (":" +:+ e.2) with (String ":" e.2). simpl. rewrite Hr2.
    destruct e.2; reflexivity. }
  assert (Hne : Py.rstrip (":" +:+ e.2) <> "") by (rewrite Hr; discriminate).
  unfold Py.strip.
  assert (Hl : Py.lstrip (e.1 +:+ ":" +:+ e.2) = e.1 +:+ ":" +:+ e.2).
  { destruct e.1 as [| c n] eqn:E; [reflexivity |].
    apply lstrip_app_fixed; [discriminate | exact Hl1]. }
  rewrite Hl, (rstrip_app e.1 (":" +:+ e.2) Hne), Hr. reflexivity.
Qed.

Lemma load_authorized_entry (d : list (string * string)) (e : string * string) :
  storable e ->
  load_authorized_line d (e.1 +:+ ":" +:+ e.2) = dict_set d e.1 e.2.
Proof.
  intros He. pose proof He as (H1 & H2 & Hc & _).
  unfold load_authorized_line. rewrite (strip_entry_line e He).
  change (e.1 +:+ ":" +:+ e.2) with (e.1 +:+ String ":" e.2).
  rewrite (contains_app ":" e.1 e.2 Hc), (split_sep1_app ":" e.1 e.2 Hc), H1, H2.
  destruct (e.1 +:+ String ":" e.2) eqn:E; [| reflexivity].
  exfalso. destruct e.1; discriminate E.
Qed.

Lemma dict_set_fresh {V} (d : list (string * V)) (k : string) (v : V) :
  ~ In k (map fst d) -> dict_set d k v = d ++ [(k, v)].
Proof.
  induction d as [| [k' v'] d IH]; simpl; [reflexivity |].
  intros Hk. destruct (String.eqb k' k) eqn:E.
  - apply String.eqb_eq in E. tauto.
  - rewrite IH by tauto. reflexivity.
Qed.

Lemma load_entries (d acc : list (string * string)) :
  Forall storable d ->
  List.NoDup (map fst (acc ++ d)) ->
  fold_left load_authorized_line (map (fun e => e.1 +:+ ":" +:+ e.2) d) acc = acc ++ d.
Proof.
  revert acc. induction d as [| e d IH]; intros acc Hall Hnd.
  - simpl. rewrite app_nil_r. reflexivity.
  - inversion Hall as [| ? ? He Hd]; subst. simpl.
    rewrite (load_authorized_entry acc e He).
    assert (Hfresh : ~ In e.1 (map fst acc)).
    { rewrite map_app in Hnd. simpl in Hnd. apply List.NoDup_remove_2 in Hnd.
      intros Hin. apply Hnd. apply in_or_app. left. exact Hin. }
    rewrite (dict_set_fresh acc _ _ Hfresh).
    rewrite (IH (acc ++ [(e.1, e.2)]) Hd).
    + rewrite <- app_assoc. destruct e; reflexivity.
    + rewrite <- app_assoc. destruct e; exact Hnd.
Qed.

Lemma entry_lines (e : string * string) (d : list (string * string)) :
  Forall storable (e :: d) ->
  PyText.splitlines (Py.join nl (map (fun e => e.1 +:+ ":" +:+ e.2) (e :: d)))
  = map (fun e => e.1 +:+ ":" +:+ e.2) (e :: d).
Proof.
  revert e. induction d as [| e' d IH]; intros e Hall;
    inversion Hall as [| ? ? He Hd]; subst.
  - simpl. apply splitlines_whole.
    + destruct He as (_ & _ & _ & Ho1 & Ho2). rewrite !one_line_app, Ho1, Ho2. reflexivity.
    + destruct e.1; discriminate.
  - change (Py.join nl (map (fun e => e.1 +:+ ":" +:+ e.2) (e :: e' :: d)))
      with ((e.1 +:+ ":" +:+ e.2)
            +:+ (nl +:+ Py.join nl (map (fun e => e.1 +:+ ":" +:+ e.2) (e' :: d)))).
    rewrite splitlines_line.
    + rewrite (IH e' Hd). reflexivity.
    + destruct He as (_ & _ & _ & Ho1 & Ho2). rewrite !one_line_app, Ho1, Ho2. reflexivity.
Qed.

(** X17.  What [save_authorized_numbers] writes,
    [load_authorized_numbers] reads back, in the same order: for a table of
    distinct numbers whose numbers and roles hold no line break and carry
    no blanks at their ends, and whose numbers hold no colon, loading the
    saved text gives the table.  Without the file the table is empty, and a
    line that holds no colon registers its number, stripped, as
    [teacher]. *)
Theorem X17_authorized_numbers_round_trip
    (d : list (string * string)) (line : string) :
  load_authorized_numbers None = []
  /\ (Forall storable d -> List.NoDup (map fst d) ->
      load_authorized_numbers (Some (save_authorized_numbers d)) = d)
  /\ (PyText.one_line line = true -> Py.contains ":" (Py.strip line) = false ->
      Py.strip line <> "" ->
      load_authorized_numbers (Some line) = [(Py.strip line, "teacher")]).
Proof.
  split; [reflexivity |]. split.
  - intros Hall Hnd. unfold load_authorized_numbers, save_authorized_numbers.
    destruct d as [| e d]; [reflexivity |].
    rewrite (entry_lines e d Hall).
    apply (load_entries (e :: d) [] Hall). exact Hnd.
  - intros Ho Hc Hne. unfold load_authorized_numbers.
    assert (Hl : line <> "") by (intros ->; apply Hne; reflexivity).
    rewrite (splitlines_whole line Ho Hl). simpl.
    unfold load_authorized_line. rewrite Hc.
    destruct (Py.strip line); [congruence | reflexivity].
Qed.

Lemma X17_authorized_numbers_round_trip_witness :
  load_authorized_numbers
    (Some (save_authorized_numbers [("+919876543210", "admin"); ("+919812345678", "teacher")]))
  = [("+919876543210", "admin"); ("+919812345678", "teacher")]
  /\ load_authorized_numbers (Some " +919800000000 ") = [("+919800000000", "teacher")].
Proof.
  split.
  - destruct (X17_authorized_numbers_round_trip
                [("+919876543210", "admin"); ("+919812345678", "teacher")] "") as (_ & H & _).
    apply H.
    + repeat constructor.
    + repeat constructor; simpl; intuition discriminate.
  - destruct (X17_authorized_numbers_round_trip [] " +919800000000 ") as (_ & _ & H).
    apply H; [reflexivity | reflexivity | discriminate].
Defined.

(** ** X18: setting the credentials by message *)

Lemma split_settings_setwa (X : string) :
  Py.lstrip X <> "" ->
  Py.split_max 2 ("/settings setwa " +:+ X) = ["/settings"; "setwa"; Py.lstrip X].
Proof.
  intros HX.
  assert (E : Py.split_max 2 ("/settings setwa " +:+ X)
              = "/settings" :: "setwa" ::
                match Py.lstrip X with
                | EmptyString => []
                | String a b => [String a b]
                end)
    by reflexivity.
  rewrite E. destruct (Py.lstrip X); [congruence | reflexivity].
Qed.

Lemma process_settings_setwa AUTH sys net t_get t_set msg st sender ARG :
  normalize_number (msg_from msg) = Some sender ->
  sender <> "" ->
  SESSIONS st !! sender = None ->
  get_role AUTH sender = "developer" ->
  msg_type msg = Some "text" ->
  text_body msg = "/settings setwa " +:+ ARG ->
  Py.strip ARG <> "" ->
  exists lower,
    Py.split_max 2 lower = ["/settings"; "setwa"; Py.strip ARG]
    /\ process_incoming_message AUTH sys net t_get t_set msg st
       = settings_command sender lower "developer" st.
Proof.
  intros Hn Hne Hs Hd Ht Hb HN.
  assert (Hlow : Py.strip (text_body msg) = "/settings setwa " +:+ Py.rstrip ARG).
  { rewrite Hb. apply (strip_prefixed "/" "settings setwa " ARG eq_refl HN). }
  exists ("/settings setwa " +:+ Py.rstrip ARG). split.
  - rewrite split_settings_setwa by (rewrite lstrip_rstrip; exact HN).
    rewrite lstrip_rstrip. reflexivity.
  - rewrite (process_idle_slash AUTH sys net t_get t_set msg st sender Hn Hne Hs Ht)
      by (rewrite Hlow; reflexivity).
    unfold handle_slash_command. rewrite strip_idem, Hlow, Hd. reflexivity.
Qed.

Lemma settings_setwa_usage sender lower c0 p2 st :
  Py.split_max 2 lower = [c0; "setwa"; p2] ->
  Py.contains "|" p2 = false ->
  settings_command sender lower "developer" st
  = (Returned tt, st, [Sent sender "Use: /settings setwa PHONE_ID|ACCESS_TOKEN"]).
Proof.
  intros Hparts Hc. unfold settings_command. rewrite Hparts.
  unfold bind, item, ret. simpl. rewrite Hc. reflexivity.
Qed.

Lemma settings_setwa_parts sender lower c0 p2 phone_id token st :
  Py.split_max 2 lower = [c0; "setwa"; p2] ->
  Py.split_sep1 "|" p2 = [phone_id; token] ->
  settings_command sender lower "developer" st
  = (Returned tt, st,
     [WaConfigSaved (Py.strip phone_id) (Py.strip token); WaConfigReloaded;
      Sent sender "WhatsApp config saved."]).
Proof.
  intros Hparts Hsplit. pose proof (split_sep1_two _ _ _ _ Hsplit) as Hc.
  unfold settings_command. rewrite Hparts.
  unfold bind, item, ret. simpl. rewrite Hc, Hsplit. reflexivity.
Qed.

(** X18.  A developer without a pending session sends
    [/settings setwa ARG].  When [ARG], stripped, holds no bar, the reply is
    the usage line and nothing is saved.  Otherwise the text before the
    first bar and the text after it, both stripped, are saved as phone
    number id and access token, the globals are reloaded from the file and
    the reply confirms; when neither value holds a line break, the reload
    reads back exactly the two values that were sent. *)
Theorem X18_settings_setwa
    (AUTH : gmap string string) (sys : bell_system) (net : network)
    (t_get t_set : Q) (msg : message) (st : store) (sender ARG : string) :
  normalize_number (msg_from msg) = Some sender ->
  sender <> "" ->
  SESSIONS st !! sender = None ->
  get_role AUTH sender = "developer" ->
  msg_type msg = Some "text" ->
  text_body msg = "/settings setwa " +:+ ARG ->
  Py.strip ARG <> "" ->
  let r := process_incoming_message AUTH sys net t_get t_set msg st in
  (Py.contains "|" (Py.strip ARG) = false ->
   r = (Returned tt, st, [Sent sender "Use: /settings setwa PHONE_ID|ACCESS_TOKEN"]))
  /\ (forall phone_id token,
        Py.split_sep1 "|" (Py.strip ARG) = [phone_id; token] ->
        r = (Returned tt, st,
             [WaConfigSaved (Py.strip phone_id) (Py.strip token); WaConfigReloaded;
              Sent sender "WhatsApp config saved."])
        /\ (PyText.one_line (Py.strip phone_id) = true ->
            PyText.one_line (Py.strip token) = true ->
            load_wa_config (Some (save_wa_config (Py.strip phone_id) (Py.strip token)))
            = [("PHONE_NUMBER_ID", Some (Py.strip phone_id));
               ("ACCESS_TOKEN", Some (Py.strip token))])).
Proof.
  intros Hn Hne Hs Hd Ht Hb HN r.
  destruct (process_settings_setwa AUTH sys net t_get t_set msg st sender ARG
              Hn Hne Hs Hd Ht Hb HN) as (lower & Hparts & Hr).
  fold r in Hr. split.
  - intros Hc. rewrite Hr. eapply settings_setwa_usage; eassumption.
  - intros phone_id token Hsplit. split.
    + rewrite Hr. eapply settings_setwa_parts; eassumption.
    + intros Hp Htok. apply load_saved_wa_config; try assumption; apply strip_idem.
Qed.

Lemma X18_settings_setwa_witness :
  let AUTH : gmap string string := {[ "+911" := "developer" ]} in
  process_incoming_message AUTH (BellSystem "" ∅ "" None None)
    (Network None (fun _ => MetaResponse 404 None None) (fun _ => 404%Z))
    1000 1001 (text_message "911" "/settings setwa 1048576 | EAAGtoken") (Store ∅ [])
  = (Returned tt, Store ∅ [],
     [WaConfigSaved "1048576" "EAAGtoken"; WaConfigReloaded;
      Sent "+911" "WhatsApp config saved."]).
Proof.
  intros AUTH.
  assert (Hne : "+911" <> "") by discriminate.
  assert (Hs : SESSIONS (Store ∅ []) !! "+911" = None) by (vm_compute; reflexivity).
  assert (Hd : get_role AUTH "+911" = "developer") by (vm_compute; reflexivity).
  assert (HN : Py.strip "1048576 | EAAGtoken" <> "") by (vm_compute; discriminate).
  destruct (X18_settings_setwa AUTH (BellSystem "" ∅ "" None None)
              (Network None (fun _ => MetaResponse 404 None None) (fun _ => 404%Z))
              1000 1001 (text_message "911" "/settings setwa 1048576 | EAAGtoken")
              (Store ∅ []) "+911" "1048576 | EAAGtoken"
              eq_refl Hne Hs Hd eq_refl eq_refl HN) as [_ H].
  destruct (H "1048576 " " EAAGtoken" eq_refl) as [Hr _]. exact Hr.
Defined.

(** ** X19: assembly playback and its configuration *)

Lemma assembly_dispatch AUTH sys now sender body st :
  Py.startswith (Py.strip body) "/assembly" = true ->
  handle_slash_command AUTH sys now sender body st
  = assembly_command sys sender (Py.strip body) (get_role AUTH sender) st.
Proof.
  intros Hp. split_prefix Hp r.
  unfold handle_slash_command. rewrite E, Hp.
  destruct (String.eqb (get_role AUTH sender) "teacher");
    destruct (String.eqb (get_role AUTH sender) "admin");
    destruct (String.eqb (get_role AUTH sender) "developer"); reflexivity.
Qed.

(** X19.  A teacher or developer sends [/assembly n] as a fresh command.
    With [n = 1] and no prayer track in today's configuration the handler
    raises [KeyError]: no thread and no reply.  With [n = 11] the thread
    reads the configuration itself: the reply [Played prayer + birthday.] is
    sent in any case, the thread plays the prayer and then the birthday
    track when both are configured, and nothing when the prayer track is
    missing.  With [n = 4] and no first extra track the reply says so and no
    thread is started.  An option outside the table gets
    [Unknown assembly option.]. *)
Theorem X19_assembly_options
    (AUTH : gmap string string) (sys : bell_system) (now : Q)
    (sender body c0 cmd : string) (rest : list string) (st : store) :
  get_role AUTH sender = "teacher" \/ get_role AUTH sender = "developer" ->
  Py.startswith (Py.strip body) "/assembly" = true ->
  Py.split (Py.strip body) = c0 :: cmd :: rest ->
  let r := handle_slash_command AUTH sys now sender body st in
  (cmd = "1" -> today_cfg sys !! "prayer" = None -> r = (Raised KeyError, st, []))
  /\ (cmd = "11" ->
      r = (Returned tt, st, [Started (both (today_cfg sys));
                             Sent sender "Played prayer + birthday."])
      /\ (today_cfg sys !! "prayer" = None -> both (today_cfg sys) = [])
      /\ (forall p b, today_cfg sys !! "prayer" = Some p ->
                      today_cfg sys !! "birthday" = Some b ->
                      both (today_cfg sys) = [play_audio_blocking p; play_audio_blocking b]))
  /\ (cmd = "4" -> Py.truthy (EXTRA1_FILE sys) = false ->
      r = (Returned tt, st, [Sent sender "Extra 1 not set."]))
  /\ (Py.in_tuple cmd ["1"; "2"; "3"; "4"; "5"; "6"; "11"] = false ->
      r = (Returned tt, st, [Sent sender "Unknown assembly option."])).
Proof.
  intros Hrole Hp Hparts r.
  assert (Hin : Py.in_tuple (get_role AUTH sender) ["teacher"; "developer"] = true)
    by (destruct Hrole as [-> | ->]; reflexivity).
  assert (Hr : r = assembly_command sys sender (Py.strip body) (get_role AUTH sender) st)
    by (apply assembly_dispatch; exact Hp).
  rewrite Hr. unfold assembly_command. rewrite Hparts, Hin.
  unfold bind, item, getitem, ret, raise. simpl.
  split; [| split; [| split]].
  - intros -> Hc. simpl. rewrite Hc. reflexivity.
  - intros ->. simpl. split; [reflexivity |]. split.
    + intros Hc. unfold both. rewrite Hc. reflexivity.
    + intros p b Hpr Hb. unfold both. rewrite Hpr, Hb. reflexivity.
  - intros -> He. simpl. rewrite He. reflexivity.
  - unfold Py.in_tuple. cbn [existsb]. intros Hout.
    repeat (apply orb_false_iff in Hout as [? Hout]).
    repeat match goal with H : String.eqb cmd _ = false |- _ => rewrite H; clear H end.
    reflexivity.
Qed.

Lemma X19_assembly_options_witness :
  let sys := BellSystem "" {[ "birthday" := "b.mp3" ]} "anthem.mp3" None None in
  handle_slash_command ∅ sys 1000 "+919812345678" "/assembly 1" (Store ∅ [])
  = (Raised KeyError, Store ∅ [], [])
  /\ handle_slash_command ∅ sys 1000 "+919812345678" "/assembly 11" (Store ∅ [])
     = (Returned tt, Store ∅ [],
        [Started []; Sent "+919812345678" "Played prayer + birthday."]).
Proof.
  intros sys.
  assert (Hrole : get_role ∅ "+919812345678" = "teacher"
                  \/ get_role ∅ "+919812345678" = "developer")
    by (left; vm_compute; reflexivity).
  split.
  - destruct (X19_assembly_options ∅ sys 1000 "+919812345678" "/assembly 1"
                "/assembly" "1" [] (Store ∅ []) Hrole eq_refl eq_refl) as [H _].
    apply H; [reflexivity | vm_compute; reflexivity].
  - destruct (X19_assembly_options ∅ sys 1000 "+919812345678" "/assembly 11"
                "/assembly" "11" [] (Store ∅ []) Hrole eq_refl eq_refl) as (_ & H & _).
    destruct (H eq_refl) as (Hr & Hnone & _).
    rewrite Hr, Hnone; [reflexivity | vm_compute; reflexivity].
Defined.

(** ** X20: the address of a reply *)

Lemma normalize_shape (f : string) :
  f <> "" ->
  normalize_number (Some f)
  = Some (if Py.startswith f "+" then f else "+" +:+ f).
Proof.
  intros Hf. unfold normalize_number. destruct f as [| c f]; [congruence |].
  simpl Py.truthy. simpl negb. cbv iota.
  destruct (Py.startswith (String c f) "+"); reflexivity.
Qed.

Lemma startswith_plus (f : string) :
  Py.startswith f "+" = true -> exists g, f = String "+" g.
Proof. intros H. apply startswith_app in H as [g ->]. exists g. reflexivity. Qed.

(** X20.  The normalized sender of a message starts with the plus sign and
    normalizing it again changes nothing.  A reply to it is posted only when
    both the phone number id and the access token are set; the request then
    goes to the [messages] endpoint of that phone number id, carries the
    text as it is, and is addressed to the number as the platform delivered
    it, without leading plus signs. *)
Theorem X20_reply_address
    (f text : string) (PHONE_NUMBER_ID ACCESS_TOKEN : option string) :
  f <> "" ->
  exists sender,
    normalize_number (Some f) = Some sender
    /\ Py.startswith sender "+" = true
    /\ normalize_number (Some sender) = Some sender
    /\ (Py.truthy PHONE_NUMBER_ID = false \/ Py.truthy ACCESS_TOKEN = false ->
        send_request PHONE_NUMBER_ID ACCESS_TOKEN sender text = None)
    /\ (Py.truthy PHONE_NUMBER_ID = true -> Py.truthy ACCESS_TOKEN = true ->
        send_request PHONE_NUMBER_ID ACCESS_TOKEN sender text
        = Some (TextRequest
                  ("https://graph.facebook.com/v20.0/" +:+ Py.str PHONE_NUMBER_ID
                   +:+ "/messages")
                  ("Bearer " +:+ Py.str ACCESS_TOKEN)
                  (PyText.lstrip_char "+" f) text)).
Proof.
  intros Hf.
  exists (if Py.startswith f "+" then f else "+" +:+ f).
  split; [apply normalize_shape, Hf |].
  assert (Hplus : Py.startswith (if Py.startswith f "+" then f else "+" +:+ f) "+" = true).
  { destruct (Py.startswith f "+") eqn:E; [exact E |].
    apply startswith_app. exists f. reflexivity. }
  assert (Hstrip : PyText.lstrip_char "+" (if Py.startswith f "+" then f else "+" +:+ f)
                   = PyText.lstrip_char "+" f).
  { destruct (Py.startswith f "+"); reflexivity. }
  split; [exact Hplus |]. split; [| split].
  - rewrite normalize_shape, Hplus; [reflexivity |].
    destruct (Py.startswith f "+"); [exact Hf | discriminate].
  - intros [H | H]; unfold send_request; rewrite H; [reflexivity |].
    simpl negb. rewrite orb_true_r. reflexivity.
  - intros Hp Ht. unfold send_request. rewrite Hp, Ht, Hstrip. reflexivity.
Qed.

Lemma X20_reply_address_witness :
  send_request (Some "1048576") (Some "EAAGtoken") "+919812345678" "Not allowed."
  = Some (TextRequest "https://graph.facebook.com/v20.0/1048576/messages"
            "Bearer EAAGtoken" "919812345678" "Not allowed.").
Proof.
  assert (Hf : "919812345678" <> "") by discriminate.
  destruct (X20_reply_address "919812345678" "Not allowed."
              (Some "1048576") (Some "EAAGtoken") Hf) as (sender & Hn & _ & _ & _ & H).
  injection Hn as <-. apply H; reflexivity.
Defined.

(** ** The server of [whatsapp_server.py] *)

Lemma lower_char_idem (c : ascii) : Py.lower_char (Py.lower_char c) = Py.lower_char c.
Proof. destruct c as [[] [] [] [] [] [] [] []]; reflexivity. Qed.

Lemma lower_idem (s : string) : Py.lower (Py.lower s) = Py.lower s.
Proof.
  induction s as [| c s IH]; [reflexivity |]. simpl. rewrite lower_char_idem, IH.
  reflexivity.
Qed.

(** X21.  The reply of [handle_command] does not depend on the case of the
    text, nor on the sender: the text and its lowered form get the same
    reply.  The reply is never empty, so an authorized sender of a text
    message always gets exactly one reply. *)
Theorem X21_server_commands_ignore_case
    (AUTHORIZED_USERS : gmap string string) (net : network)
    (text sender sender' : string) (msg : message) (f : string) :
  (Server.handle_command (Py.lower text) sender').2 = (Server.handle_command text sender).2
  /\ (Server.handle_command text sender).2 <> ""
  /\ (msg_from msg = Some f -> f <> "" -> msg_type msg = Some "text" ->
      let wa_number := if Py.startswith f "+" then f else "+" +:+ f in
      ServerMessages.is_authorized AUTHORIZED_USERS wa_number = true ->
      ServerMessages.process_whatsapp_message AUTHORIZED_USERS net msg
      = [Sent wa_number (Server.handle_command (Py.strip (text_body msg)) wa_number).2]).
Proof.
  assert (Hne : forall t s, (Server.handle_command t s).2 <> "").
  { intros t s. unfold Server.handle_command.
    repeat match goal with
           | |- context [if ?c then _ else _] => destruct c
           end; discriminate. }
  split; [| split; [apply Hne |]].
  - unfold Server.handle_command. rewrite lower_idem.
    repeat match goal with
           | |- context [if ?c then _ else _] => destruct c
           end; reflexivity.
  - intros Hf Hfne Ht wa_number Hauth.
    unfold ServerMessages.process_whatsapp_message. rewrite Hf.
    destruct f as [| c f']; [congruence |].
    fold wa_number. rewrite Hauth, Ht. simpl negb. cbv iota.
    change (Py.eq_opt (Some "text") "text") with true. cbv iota zeta.
    pose proof (Hne (Py.strip (text_body msg)) wa_number) as Hr.
    destruct ((Server.handle_command (Py.strip (text_body msg)) wa_number).2);
      [congruence | reflexivity].
Qed.

Lemma X21_server_commands_ignore_case_witness :
  let AUTHORIZED_USERS : gmap string string := {[ "+919876543210" := "admin" ]} in
  ServerMessages.process_whatsapp_message AUTHORIZED_USERS
    (Network None (fun _ => MetaResponse 404 None None) (fun _ => 404%Z))
    (text_message "919876543210" " /Schedule LIST ")
  = [Sent "+919876543210" "Saved schedules: Regular Day"].
Proof.
  intros AUTHORIZED_USERS.
  assert (Hf : "919876543210" <> "") by discriminate.
  destruct (X21_server_commands_ignore_case AUTHORIZED_USERS
              (Network None (fun _ => MetaResponse 404 None None) (fun _ => 404%Z))
              "" "" "" (text_message "919876543210" " /Schedule LIST ") "919876543210")
    as (_ & _ & H).
  rewrite (H eq_refl Hf eq_refl); [reflexivity | vm_compute; reflexivity].
Defined.

(** X22.  The server answers a sender that is not in [AUTHORIZED_USERS] with
    the refusal and does nothing else, whatever the message holds: no
    command is handled and no media is requested.  A message without a
    sender gets nothing. *)
Theorem X22_server_refuses_unknown_senders
    (AUTHORIZED_USERS : gmap string string) (net : network) (msg : message) :
  (Py.truthy (msg_from msg) = false ->
   ServerMessages.process_whatsapp_message AUTHORIZED_USERS net msg = [])
  /\ (forall f, msg_from msg = Some f -> f <> "" ->
      let wa_number := if Py.startswith f "+" then f else "+" +:+ f in
      AUTHORIZED_USERS !! wa_number = None ->
      ServerMessages.process_whatsapp_message AUTHORIZED_USERS net msg
      = [Sent wa_number "You are not authorized to use this bot."]).
Proof.
  split.
  - intros Hf. unfold ServerMessages.process_whatsapp_message.
    destruct (msg_from msg) as [[| c f] |]; try discriminate Hf; reflexivity.
  - intros f Hf Hne wa_number Hnone.
    unfold ServerMessages.process_whatsapp_message. rewrite Hf.
    destruct f as [| c f']; [congruence |].
    fold wa_number. unfold ServerMessages.is_authorized. rewrite Hnone.
    reflexivity.
Qed.

Lemma X22_server_refuses_unknown_senders_witness :
  let AUTHORIZED_USERS : gmap string string := {[ "+919876543210" := "admin" ]} in
  ServerMessages.process_whatsapp_message AUTHORIZED_USERS
    (Network (Some "tok") (fun _ => MetaResponse 200 (Some "https://cdn/x") None)
       (fun _ => 200%Z))
    (audio_message "919800000000" "M1")
  = [Sent "+919800000000" "You are not authorized to use this bot."].
Proof.
  intros AUTHORIZED_USERS.
  assert (Hf : "919800000000" <> "") by discriminate.
  destruct (X22_server_refuses_unknown_senders AUTHORIZED_USERS
              (Network (Some "tok") (fun _ => MetaResponse 200 (Some "https://cdn/x") None)
                 (fun _ => 200%Z))
              (audio_message "919800000000" "M1")) as [_ H].
  apply (H "919800000000" eq_refl Hf). vm_compute. reflexivity.
Defined.

(** X23.  For an authorized sender the server handles an audio message in
    this way: without a media id the reply says so; when the media URL does
    not resolve the reply is [Failed to download audio.] and nothing is
    downloaded; when it resolves, the download is tried once and the reply
    is [Voice received and saved.] whether or not the download succeeded.
    No thread is ever started: the server plays nothing. *)
Theorem X23_server_audio
    (AUTHORIZED_USERS : gmap string string) (net : network) (msg : message)
    (f : string) :
  msg_from msg = Some f -> f <> "" ->
  msg_type msg = Some "audio" ->
  let wa_number := if Py.startswith f "+" then f else "+" +:+ f in
  ServerMessages.is_authorized AUTHORIZED_USERS wa_number = true ->
  let evs := ServerMessages.process_whatsapp_message AUTHORIZED_USERS net msg in
  (Py.truthy (audio_id msg) = false ->
   evs = [Sent wa_number "No media id found in audio."])
  /\ (forall mid url mime ev1,
        audio_id msg = Some mid -> mid <> "" ->
        ServerMessages.get_media_url net mid = ((url, mime), ev1) ->
        (Py.truthy url = false ->
         evs = ev1 ++ [Sent wa_number "Failed to download audio."])
        /\ (forall u, url = Some u -> u <> "" ->
            evs = ev1 ++ (ServerMessages.download_media_file net u mid mime).2
                  ++ [Sent wa_number "Voice received and saved."]))
  /\ started evs = [].
Proof.
  intros Hf Hne Ht wa_number Hauth evs.
  assert (Hevs : evs
    = match audio_id msg with
      | Some (String c' m) =>
          let '((media_url, mime_type), ev1) :=
            ServerMessages.get_media_url net (String c' m) in
          match media_url with
          | Some (String c'' u) =>
              let '(path, ev2) :=
                ServerMessages.download_media_file net (String c'' u) (String c' m)
                  mime_type in
              ev1 ++ ev2 ++ [Sent wa_number "Voice received and saved."]
          | _ => ev1 ++ [Sent wa_number "Failed to download audio."]
          end
      | _ => [Sent wa_number "No media id found in audio."]
      end).
  { unfold evs, ServerMessages.process_whatsapp_message. rewrite Hf.
    destruct f as [| c f']; [congruence |].
    fold wa_number. rewrite Hauth, Ht. reflexivity. }
  split; [| split].
  - intros Hid. rewrite Hevs.
    destruct (audio_id msg) as [[| c' m] |]; try discriminate Hid; reflexivity.
  - intros mid url mime ev1 Hid Hmid Hg. rewrite Hevs, Hid.
    destruct mid as [| c' m]; [congruence |]. rewrite Hg. split.
    + intros Hu. destruct url as [[| c'' u] |]; try discriminate Hu; reflexivity.
    + intros u -> Hu. destruct u as [| c'' u]; [congruence |].
      destruct (ServerMessages.download_media_file net (String c'' u) (String c' m) mime);
        reflexivity.
  - rewrite Hevs.
    destruct (audio_id msg) as [[| c' m] |]; try reflexivity.
    unfold ServerMessages.get_media_url, ServerMessages.download_media_file.
    destruct (ServerMessages.no_token net); [reflexivity |].
    destruct (meta_status (media_meta net (Some (String c' m))) =? 200)%Z;
      [| reflexivity].
    destruct (json_url (media_meta net (Some (String c' m)))) as [[| c'' u] |];
      try reflexivity.
    destruct (download_status net (String c'' u) =? 200)%Z; [| reflexivity].
    destruct (json_mime_type (media_meta net (Some (String c' m)))); reflexivity.
Qed.

Lemma X23_server_audio_witness :
  let AUTHORIZED_USERS : gmap string string := {[ "+919876543210" := "admin" ]} in
  let net := Network (Some "tok")
               (fun _ => MetaResponse 200 (Some "https://cdn/x") (Some "audio/ogg"))
               (fun _ => 500%Z) in
  ServerMessages.process_whatsapp_message AUTHORIZED_USERS net
    (audio_message "919876543210" "M1")
  = [MediaUrlRequested (Some "M1"); MediaDownloadRequested "https://cdn/x";
     Sent "+919876543210" "Voice received and saved."].
Proof.
  intros AUTHORIZED_USERS net.
  assert (Hf : "919876543210" <> "") by discriminate.
  assert (Hauth : ServerMessages.is_authorized AUTHORIZED_USERS "+919876543210" = true)
    by (vm_compute; reflexivity).
  destruct (X23_server_audio AUTHORIZED_USERS net (audio_message "919876543210" "M1")
              "919876543210" eq_refl Hf eq_refl Hauth) as (_ & H & _).
  assert (Hmid : "M1" <> "") by discriminate.
  destruct (H "M1" (Some "https://cdn/x") (Some "audio/ogg")
              [MediaUrlRequested (Some "M1")] eq_refl Hmid eq_refl) as [_ H2].
  assert (Hu : "https://cdn/x" <> "") by discriminate.
  rewrite (H2 "https://cdn/x" eq_refl Hu). reflexivity.
Defined.

(** ** X24: the about text *)

Lemma take_length (n : nat) (s : string) : String.length (Py.take n s) <= n.
Proof.
  unfold Py.take. revert s. induction n as [| n IH]; intros s.
  - destruct s; simpl; lia.
  - destruct s as [| c s]; simpl; [lia |]. specialize (IH s). lia.
Qed.

Lemma take_all (n : nat) (s : string) : String.length s <= n -> Py.take n s = s.
Proof.
  unfold Py.take. revert s. induction n as [| n IH]; intros s Hs.
  - destruct s; simpl in *; [reflexivity | lia].
  - destruct s as [| c s]; simpl in *; [reflexivity |]. rewrite IH by lia. reflexivity.
Qed.

(** X24.  Every sender, whatever the role, gets the about text for a fresh
    command that starts with [/about]: the reply is the first 1500
    characters of [ABOUT_US_TEXT], so it is never longer than that and it is
    the whole text when the text is that short.  Nothing else happens. *)
Theorem X24_about_for_everyone
    (AUTH : gmap string string) (sys : bell_system) (now : Q)
    (sender body : string) (st : store) :
  Py.startswith (Py.strip body) "/about" = true ->
  handle_slash_command AUTH sys now sender body st
  = (Returned tt, st, [Sent sender (Py.take 1500 (ABOUT_US_TEXT sys))])
  /\ String.length (Py.take 1500 (ABOUT_US_TEXT sys)) <= 1500
  /\ (String.length (ABOUT_US_TEXT sys) <= 1500 ->
      Py.take 1500 (ABOUT_US_TEXT sys) = ABOUT_US_TEXT sys).
Proof.
  intros Hp. split; [| split; [apply take_length | apply take_all]].
  split_prefix Hp r. unfold handle_slash_command. rewrite E, Hp. reflexivity.
Qed.

Lemma X24_about_for_everyone_witness :
  let AUTH : gmap string string := {[ "+922" := "staff" ]} in
  handle_slash_command AUTH (BellSystem "JOTHI - School Bell System" ∅ "" None None)
    1000 "+922" " /about us " (Store ∅ [])
  = (Returned tt, Store ∅ [], [Sent "+922" "JOTHI - School Bell System"]).
Proof.
  intros AUTH.
  destruct (X24_about_for_everyone AUTH
              (BellSystem "JOTHI - School Bell System" ∅ "" None None)
              1000 "+922" " /about us " (Store ∅ []) eq_refl) as (Hr & _ & Hall).
  rewrite Hr, Hall; [reflexivity | simpl; lia].
Defined.
